(** * csv2Redshift: the convergence engine of DataBridgeAWS

    A shallow embedding of the [csv2Redshift] Lambda (column-name
    sanitisation, type inference, the asynchronous statement waiter, the
    schema registry, the load/verify/relocate pipeline, the stability watcher
    and the handler loop), followed by the properties established about it.

    Conventions.
    - Python [str] values are [string]s whose characters are the code points
      below 256; the character classes are those of Python on that range.
      The sanitiser of names is also given on every sequence of code points
      (module [Ucs4]), with the two related on this range.
    - A call that can raise returns [Exc]; [try/except] is a [match] on it.
    - Remote services (S3, the Redshift Data API, the clock) are an explicit
      environment whose answers may depend on everything that happened
      before; every call is appended to a trace. *)

From Stdlib Require Import ZArith Lia Bool Ascii String DecimalString.
From stdpp Require Import gmap strings list.

Local Open Scope Z_scope.

(** ** Exceptions *)

Inductive Exc (A : Type) : Type :=
| Ok (a : A)
| Raise (msg : string).
Arguments Ok {A} a.
Arguments Raise {A} msg.

Definition exc_bind {A B : Type} (m : Exc A) (k : A -> Exc B) : Exc B :=
  match m with
  | Ok a => k a
  | Raise e => Raise e
  end.

Definition is_ok {A : Type} (m : Exc A) : bool :=
  match m with Ok _ => true | Raise _ => false end.

Declare Scope exc_scope.
Delimit Scope exc_scope with exc.
Notation "'let?' x ':=' m 'in' k" := (exc_bind m (fun x => k))
  (at level 10, x name, m at level 100, k at level 200) : exc_scope.

(** ** Characters and strings *)

Module Py.

Definition ord (c : ascii) : nat := nat_of_ascii c.

Definition between (lo hi n : nat) : bool :=
  (Nat.leb lo n && Nat.leb n hi)%bool.

(** [str.isdecimal]: the digits 0-9. *)
Definition isdecimal (c : ascii) : bool := between 48 57 (ord c).

(** [str.isdigit]: the decimal digits and the superscripts 1, 2, 3. *)
Definition isdigit (c : ascii) : bool :=
  (isdecimal c || Nat.eqb (ord c) 178 || Nat.eqb (ord c) 179
   || Nat.eqb (ord c) 185)%bool.

(** [str.isnumeric]: the digits and the vulgar fractions. *)
Definition isnumeric (c : ascii) : bool :=
  (isdigit c || between 188 190 (ord c))%bool.

(** The upper-case letters: A-Z and the accented capitals (not the
    multiplication sign, not the sharp s). *)
Definition isupper (c : ascii) : bool :=
  (between 65 90 (ord c)
   || (between 192 222 (ord c) && negb (Nat.eqb (ord c) 215)))%bool.

(** [str.isalpha]. *)
Definition isalpha (c : ascii) : bool :=
  (between 65 90 (ord c) || between 97 122 (ord c)
   || Nat.eqb (ord c) 170 || Nat.eqb (ord c) 181 || Nat.eqb (ord c) 186
   || (between 192 255 (ord c) && negb (Nat.eqb (ord c) 215)
       && negb (Nat.eqb (ord c) 247)))%bool.

(** [str.isalnum]. *)
Definition isalnum (c : ascii) : bool :=
  (isalpha c || isdecimal c || isdigit c || isnumeric c)%bool.

(** [str.lower] on one character. *)
Definition lower_char (c : ascii) : ascii :=
  if isupper c then ascii_of_nat (ord c + 32) else c.

Fixpoint map (f : ascii -> ascii) (s : string) : string :=
  match s with
  | EmptyString => EmptyString
  | String c r => String (f c) (map f r)
  end.

(** [s.lower()]. *)
Definition lower (s : string) : string := map lower_char s.

Definition len (s : string) : Z := Z.of_nat (String.length s).

(** [str(z)] for an [int]. *)
Definition str_of_int (z : Z) : string :=
  NilZero.string_of_int (Z.to_int z).

End Py.

(** ** Column-name sanitisation *)

(** One character of the generator expression
    [c if c.isalnum() else '_' for c in str(column).lower()]. *)
Definition clean_char (c : ascii) : ascii :=
  let c' := Py.lower_char c in
  if Py.isalnum c' then c' else "_"%char.

Definition clean_column_name (column : string) : string :=
  match column with
  | EmptyString => "unnamed_column"
  | String _ _ =>
      let cleaned := Py.map clean_char column in
      match cleaned with
      | String c0 _ => if Py.isdigit c0 then "col_" +:+ cleaned else cleaned
      | EmptyString => cleaned
      end
  end.

(** ** Names in full Unicode *)

(** The names the sanitiser reads come from UTF-8 headers and keys. In this
    module a [str] is a sequence of code points, and [str.isalnum],
    [str.isdigit] and [str.lower] are CPython's over the character database
    of Unicode 14.0.0 (CPython 3.10 and 3.11; the runtime the deployment
    names, 3.9, has 13.0.0, in which the characters added since are not
    assigned). Lower-casing is not a map over the characters: U+0130
    becomes two code points, and the capital sigma becomes one of two letters
    according to what stands around it. *)
Module Ucs4.
Local Open Scope N_scope.

Definition in_ranges (table : list (N * N)) (c : N) : bool :=
  existsb (fun r => (fst r <=? c) && (c <=? snd r)) table.

(** [c.isalnum()]: the letters and the characters with a decimal, digit or
    numeric value, as inclusive ranges of code points. *)
Definition alnum_table : list (N * N) :=
  [(0x30, 0x39); (0x41, 0x5A); (0x61, 0x7A); (0xAA, 0xAA); (0xB2, 0xB3);
   (0xB5, 0xB5); (0xB9, 0xBA); (0xBC, 0xBE); (0xC0, 0xD6); (0xD8, 0xF6);
   (0xF8, 0x2C1); (0x2C6, 0x2D1); (0x2E0, 0x2E4); (0x2EC, 0x2EC);
   (0x2EE, 0x2EE); (0x370, 0x374); (0x376, 0x377); (0x37A, 0x37D);
   (0x37F, 0x37F); (0x386, 0x386); (0x388, 0x38A); (0x38C, 0x38C);
   (0x38E, 0x3A1); (0x3A3, 0x3F5); (0x3F7, 0x481); (0x48A, 0x52F);
   (0x531, 0x556); (0x559, 0x559); (0x560, 0x588); (0x5D0, 0x5EA);
   (0x5EF, 0x5F2); (0x620, 0x64A); (0x660, 0x669); (0x66E, 0x66F);
   (0x671, 0x6D3); (0x6D5, 0x6D5); (0x6E5, 0x6E6); (0x6EE, 0x6FC);
   (0x6FF, 0x6FF); (0x710, 0x710); (0x712, 0x72F); (0x74D, 0x7A5);
   (0x7B1, 0x7B1); (0x7C0, 0x7EA); (0x7F4, 0x7F5); (0x7FA, 0x7FA);
   (0x800, 0x815); (0x81A, 0x81A); (0x824, 0x824); (0x828, 0x828);
   (0x840, 0x858); (0x860, 0x86A); (0x870, 0x887); (0x889, 0x88E);
   (0x8A0, 0x8C9); (0x904, 0x939); (0x93D, 0x93D); (0x950, 0x950);
   (0x958, 0x961); (0x966, 0x96F); (0x971, 0x980); (0x985, 0x98C);
   (0x98F, 0x990); (0x993, 0x9A8); (0x9AA, 0x9B0); (0x9B2, 0x9B2);
   (0x9B6, 0x9B9); (0x9BD, 0x9BD); (0x9CE, 0x9CE); (0x9DC, 0x9DD);
   (0x9DF, 0x9E1); (0x9E6, 0x9F1); (0x9F4, 0x9F9); (0x9FC, 0x9FC);
   (0xA05, 0xA0A); (0xA0F, 0xA10); (0xA13, 0xA28); (0xA2A, 0xA30);
   (0xA32, 0xA33); (0xA35, 0xA36); (0xA38, 0xA39); (0xA59, 0xA5C);
   (0xA5E, 0xA5E); (0xA66, 0xA6F); (0xA72, 0xA74); (0xA85, 0xA8D);
   (0xA8F, 0xA91); (0xA93, 0xAA8); (0xAAA, 0xAB0); (0xAB2, 0xAB3);
   (0xAB5, 0xAB9); (0xABD, 0xABD); (0xAD0, 0xAD0); (0xAE0, 0xAE1);
   (0xAE6, 0xAEF); (0xAF9, 0xAF9); (0xB05, 0xB0C); (0xB0F, 0xB10);
   (0xB13, 0xB28); (0xB2A, 0xB30); (0xB32, 0xB33); (0xB35, 0xB39);
   (0xB3D, 0xB3D); (0xB5C, 0xB5D); (0xB5F, 0xB61); (0xB66, 0xB6F);
   (0xB71, 0xB77); (0xB83, 0xB83); (0xB85, 0xB8A); (0xB8E, 0xB90);
   (0xB92, 0xB95); (0xB99, 0xB9A); (0xB9C, 0xB9C); (0xB9E, 0xB9F);
   (0xBA3, 0xBA4); (0xBA8, 0xBAA); (0xBAE, 0xBB9); (0xBD0, 0xBD0);
   (0xBE6, 0xBF2); (0xC05, 0xC0C); (0xC0E, 0xC10); (0xC12, 0xC28);
   (0xC2A, 0xC39); (0xC3D, 0xC3D); (0xC58, 0xC5A); (0xC5D, 0xC5D);
   (0xC60, 0xC61); (0xC66, 0xC6F); (0xC78, 0xC7E); (0xC80, 0xC80);
   (0xC85, 0xC8C); (0xC8E, 0xC90); (0xC92, 0xCA8); (0xCAA, 0xCB3);
   (0xCB5, 0xCB9); (0xCBD, 0xCBD); (0xCDD, 0xCDE); (0xCE0, 0xCE1);
   (0xCE6, 0xCEF); (0xCF1, 0xCF2); (0xD04, 0xD0C); (0xD0E, 0xD10);
   (0xD12, 0xD3A); (0xD3D, 0xD3D); (0xD4E, 0xD4E); (0xD54, 0xD56);
   (0xD58, 0xD61); (0xD66, 0xD78); (0xD7A, 0xD7F); (0xD85, 0xD96);
   (0xD9A, 0xDB1); (0xDB3, 0xDBB); (0xDBD, 0xDBD); (0xDC0, 0xDC6);
   (0xDE6, 0xDEF); (0xE01, 0xE30); (0xE32, 0xE33); (0xE40, 0xE46);
   (0xE50, 0xE59); (0xE81, 0xE82); (0xE84, 0xE84); (0xE86, 0xE8A);
   (0xE8C, 0xEA3); (0xEA5, 0xEA5); (0xEA7, 0xEB0); (0xEB2, 0xEB3);
   (0xEBD, 0xEBD); (0xEC0, 0xEC4); (0xEC6, 0xEC6); (0xED0, 0xED9);
   (0xEDC, 0xEDF); (0xF00, 0xF00); (0xF20, 0xF33); (0xF40, 0xF47);
   (0xF49, 0xF6C); (0xF88, 0xF8C); (0x1000, 0x102A); (0x103F, 0x1049);
   (0x1050, 0x1055); (0x105A, 0x105D); (0x1061, 0x1061); (0x1065, 0x1066);
   (0x106E, 0x1070); (0x1075, 0x1081); (0x108E, 0x108E); (0x1090, 0x1099);
   (0x10A0, 0x10C5); (0x10C7, 0x10C7); (0x10CD, 0x10CD); (0x10D0, 0x10FA);
   (0x10FC, 0x1248); (0x124A, 0x124D); (0x1250, 0x1256); (0x1258, 0x1258);
   (0x125A, 0x125D); (0x1260, 0x1288); (0x128A, 0x128D); (0x1290, 0x12B0);
   (0x12B2, 0x12B5); (0x12B8, 0x12BE); (0x12C0, 0x12C0); (0x12C2, 0x12C5);
   (0x12C8, 0x12D6); (0x12D8, 0x1310); (0x1312, 0x1315); (0x1318, 0x135A);
   (0x1369, 0x137C); (0x1380, 0x138F); (0x13A0, 0x13F5); (0x13F8, 0x13FD);
   (0x1401, 0x166C); (0x166F, 0x167F); (0x1681, 0x169A); (0x16A0, 0x16EA);
   (0x16EE, 0x16F8); (0x1700, 0x1711); (0x171F, 0x1731); (0x1740, 0x1751);
   (0x1760, 0x176C); (0x176E, 0x1770); (0x1780, 0x17B3); (0x17D7, 0x17D7);
   (0x17DC, 0x17DC); (0x17E0, 0x17E9); (0x17F0, 0x17F9); (0x1810, 0x1819);
   (0x1820, 0x1878); (0x1880, 0x1884); (0x1887, 0x18A8); (0x18AA, 0x18AA);
   (0x18B0, 0x18F5); (0x1900, 0x191E); (0x1946, 0x196D); (0x1970, 0x1974);
   (0x1980, 0x19AB); (0x19B0, 0x19C9); (0x19D0, 0x19DA); (0x1A00, 0x1A16);
   (0x1A20, 0x1A54); (0x1A80, 0x1A89); (0x1A90, 0x1A99); (0x1AA7, 0x1AA7);
   (0x1B05, 0x1B33); (0x1B45, 0x1B4C); (0x1B50, 0x1B59); (0x1B83, 0x1BA0);
   (0x1BAE, 0x1BE5); (0x1C00, 0x1C23); (0x1C40, 0x1C49); (0x1C4D, 0x1C7D);
   (0x1C80, 0x1C88); (0x1C90, 0x1CBA); (0x1CBD, 0x1CBF); (0x1CE9, 0x1CEC);
   (0x1CEE, 0x1CF3); (0x1CF5, 0x1CF6); (0x1CFA, 0x1CFA); (0x1D00, 0x1DBF);
   (0x1E00, 0x1F15); (0x1F18, 0x1F1D); (0x1F20, 0x1F45); (0x1F48, 0x1F4D);
   (0x1F50, 0x1F57); (0x1F59, 0x1F59); (0x1F5B, 0x1F5B); (0x1F5D, 0x1F5D);
   (0x1F5F, 0x1F7D); (0x1F80, 0x1FB4); (0x1FB6, 0x1FBC); (0x1FBE, 0x1FBE);
   (0x1FC2, 0x1FC4); (0x1FC6, 0x1FCC); (0x1FD0, 0x1FD3); (0x1FD6, 0x1FDB);
   (0x1FE0, 0x1FEC); (0x1FF2, 0x1FF4); (0x1FF6, 0x1FFC); (0x2070, 0x2071);
   (0x2074, 0x2079); (0x207F, 0x2089); (0x2090, 0x209C); (0x2102, 0x2102);
   (0x2107, 0x2107); (0x210A, 0x2113); (0x2115, 0x2115); (0x2119, 0x211D);
   (0x2124, 0x2124); (0x2126, 0x2126); (0x2128, 0x2128); (0x212A, 0x212D);
   (0x212F, 0x2139); (0x213C, 0x213F); (0x2145, 0x2149); (0x214E, 0x214E);
   (0x2150, 0x2189); (0x2460, 0x249B); (0x24EA, 0x24FF); (0x2776, 0x2793);
   (0x2C00, 0x2CE4); (0x2CEB, 0x2CEE); (0x2CF2, 0x2CF3); (0x2CFD, 0x2CFD);
   (0x2D00, 0x2D25); (0x2D27, 0x2D27); (0x2D2D, 0x2D2D); (0x2D30, 0x2D67);
   (0x2D6F, 0x2D6F); (0x2D80, 0x2D96); (0x2DA0, 0x2DA6); (0x2DA8, 0x2DAE);
   (0x2DB0, 0x2DB6); (0x2DB8, 0x2DBE); (0x2DC0, 0x2DC6); (0x2DC8, 0x2DCE);
   (0x2DD0, 0x2DD6); (0x2DD8, 0x2DDE); (0x2E2F, 0x2E2F); (0x3005, 0x3007);
   (0x3021, 0x3029); (0x3031, 0x3035); (0x3038, 0x303C); (0x3041, 0x3096);
   (0x309D, 0x309F); (0x30A1, 0x30FA); (0x30FC, 0x30FF); (0x3105, 0x312F);
   (0x3131, 0x318E); (0x3192, 0x3195); (0x31A0, 0x31BF); (0x31F0, 0x31FF);
   (0x3220, 0x3229); (0x3248, 0x324F); (0x3251, 0x325F); (0x3280, 0x3289);
   (0x32B1, 0x32BF); (0x3400, 0x4DBF); (0x4E00, 0xA48C); (0xA4D0, 0xA4FD);
   (0xA500, 0xA60C); (0xA610, 0xA62B); (0xA640, 0xA66E); (0xA67F, 0xA69D);
   (0xA6A0, 0xA6EF); (0xA717, 0xA71F); (0xA722, 0xA788); (0xA78B, 0xA7CA);
   (0xA7D0, 0xA7D1); (0xA7D3, 0xA7D3); (0xA7D5, 0xA7D9); (0xA7F2, 0xA801);
   (0xA803, 0xA805); (0xA807, 0xA80A); (0xA80C, 0xA822); (0xA830, 0xA835);
   (0xA840, 0xA873); (0xA882, 0xA8B3); (0xA8D0, 0xA8D9); (0xA8F2, 0xA8F7);
   (0xA8FB, 0xA8FB); (0xA8FD, 0xA8FE); (0xA900, 0xA925); (0xA930, 0xA946);
   (0xA960, 0xA97C); (0xA984, 0xA9B2); (0xA9CF, 0xA9D9); (0xA9E0, 0xA9E4);
   (0xA9E6, 0xA9FE); (0xAA00, 0xAA28); (0xAA40, 0xAA42); (0xAA44, 0xAA4B);
   (0xAA50, 0xAA59); (0xAA60, 0xAA76); (0xAA7A, 0xAA7A); (0xAA7E, 0xAAAF);
   (0xAAB1, 0xAAB1); (0xAAB5, 0xAAB6); (0xAAB9, 0xAABD); (0xAAC0, 0xAAC0);
   (0xAAC2, 0xAAC2); (0xAADB, 0xAADD); (0xAAE0, 0xAAEA); (0xAAF2, 0xAAF4);
   (0xAB01, 0xAB06); (0xAB09, 0xAB0E); (0xAB11, 0xAB16); (0xAB20, 0xAB26);
   (0xAB28, 0xAB2E); (0xAB30, 0xAB5A); (0xAB5C, 0xAB69); (0xAB70, 0xABE2);
   (0xABF0, 0xABF9); (0xAC00, 0xD7A3); (0xD7B0, 0xD7C6); (0xD7CB, 0xD7FB);
   (0xF900, 0xFA6D); (0xFA70, 0xFAD9); (0xFB00, 0xFB06); (0xFB13, 0xFB17);
   (0xFB1D, 0xFB1D); (0xFB1F, 0xFB28); (0xFB2A, 0xFB36); (0xFB38, 0xFB3C);
   (0xFB3E, 0xFB3E); (0xFB40, 0xFB41); (0xFB43, 0xFB44); (0xFB46, 0xFBB1);
   (0xFBD3, 0xFD3D); (0xFD50, 0xFD8F); (0xFD92, 0xFDC7); (0xFDF0, 0xFDFB);
   (0xFE70, 0xFE74); (0xFE76, 0xFEFC); (0xFF10, 0xFF19); (0xFF21, 0xFF3A);
   (0xFF41, 0xFF5A); (0xFF66, 0xFFBE); (0xFFC2, 0xFFC7); (0xFFCA, 0xFFCF);
   (0xFFD2, 0xFFD7); (0xFFDA, 0xFFDC); (0x10000, 0x1000B); (0x1000D, 0x10026);
   (0x10028, 0x1003A); (0x1003C, 0x1003D); (0x1003F, 0x1004D);
   (0x10050, 0x1005D); (0x10080, 0x100FA); (0x10107, 0x10133);
   (0x10140, 0x10178); (0x1018A, 0x1018B); (0x10280, 0x1029C);
   (0x102A0, 0x102D0); (0x102E1, 0x102FB); (0x10300, 0x10323);
   (0x1032D, 0x1034A); (0x10350, 0x10375); (0x10380, 0x1039D);
   (0x103A0, 0x103C3); (0x103C8, 0x103CF); (0x103D1, 0x103D5);
   (0x10400, 0x1049D); (0x104A0, 0x104A9); (0x104B0, 0x104D3);
   (0x104D8, 0x104FB); (0x10500, 0x10527); (0x10530, 0x10563);
   (0x10570, 0x1057A); (0x1057C, 0x1058A); (0x1058C, 0x10592);
   (0x10594, 0x10595); (0x10597, 0x105A1); (0x105A3, 0x105B1);
   (0x105B3, 0x105B9); (0x105BB, 0x105BC); (0x10600, 0x10736);
   (0x10740, 0x10755); (0x10760, 0x10767); (0x10780, 0x10785);
   (0x10787, 0x107B0); (0x107B2, 0x107BA); (0x10800, 0x10805);
   (0x10808, 0x10808); (0x1080A, 0x10835); (0x10837, 0x10838);
   (0x1083C, 0x1083C); (0x1083F, 0x10855); (0x10858, 0x10876);
   (0x10879, 0x1089E); (0x108A7, 0x108AF); (0x108E0, 0x108F2);
   (0x108F4, 0x108F5); (0x108FB, 0x1091B); (0x10920, 0x10939);
   (0x10980, 0x109B7); (0x109BC, 0x109CF); (0x109D2, 0x10A00);
   (0x10A10, 0x10A13); (0x10A15, 0x10A17); (0x10A19, 0x10A35);
   (0x10A40, 0x10A48); (0x10A60, 0x10A7E); (0x10A80, 0x10A9F);
   (0x10AC0, 0x10AC7); (0x10AC9, 0x10AE4); (0x10AEB, 0x10AEF);
   (0x10B00, 0x10B35); (0x10B40, 0x10B55); (0x10B58, 0x10B72);
   (0x10B78, 0x10B91); (0x10BA9, 0x10BAF); (0x10C00, 0x10C48);
   (0x10C80, 0x10CB2); (0x10CC0, 0x10CF2); (0x10CFA, 0x10D23);
   (0x10D30, 0x10D39); (0x10E60, 0x10E7E); (0x10E80, 0x10EA9);
   (0x10EB0, 0x10EB1); (0x10F00, 0x10F27); (0x10F30, 0x10F45);
   (0x10F51, 0x10F54); (0x10F70, 0x10F81); (0x10FB0, 0x10FCB);
   (0x10FE0, 0x10FF6); (0x11003, 0x11037); (0x11052, 0x1106F);
   (0x11071, 0x11072); (0x11075, 0x11075); (0x11083, 0x110AF);
   (0x110D0, 0x110E8); (0x110F0, 0x110F9); (0x11103, 0x11126);
   (0x11136, 0x1113F); (0x11144, 0x11144); (0x11147, 0x11147);
   (0x11150, 0x11172); (0x11176, 0x11176); (0x11183, 0x111B2);
   (0x111C1, 0x111C4); (0x111D0, 0x111DA); (0x111DC, 0x111DC);
   (0x111E1, 0x111F4); (0x11200, 0x11211); (0x11213, 0x1122B);
   (0x11280, 0x11286); (0x11288, 0x11288); (0x1128A, 0x1128D);
   (0x1128F, 0x1129D); (0x1129F, 0x112A8); (0x112B0, 0x112DE);
   (0x112F0, 0x112F9); (0x11305, 0x1130C); (0x1130F, 0x11310);
   (0x11313, 0x11328); (0x1132A, 0x11330); (0x11332, 0x11333);
   (0x11335, 0x11339); (0x1133D, 0x1133D); (0x11350, 0x11350);
   (0x1135D, 0x11361); (0x11400, 0x11434); (0x11447, 0x1144A);
   (0x11450, 0x11459); (0x1145F, 0x11461); (0x11480, 0x114AF);
   (0x114C4, 0x114C5); (0x114C7, 0x114C7); (0x114D0, 0x114D9);
   (0x11580, 0x115AE); (0x115D8, 0x115DB); (0x11600, 0x1162F);
   (0x11644, 0x11644); (0x11650, 0x11659); (0x11680, 0x116AA);
   (0x116B8, 0x116B8); (0x116C0, 0x116C9); (0x11700, 0x1171A);
   (0x11730, 0x1173B); (0x11740, 0x11746); (0x11800, 0x1182B);
   (0x118A0, 0x118F2); (0x118FF, 0x11906); (0x11909, 0x11909);
   (0x1190C, 0x11913); (0x11915, 0x11916); (0x11918, 0x1192F);
   (0x1193F, 0x1193F); (0x11941, 0x11941); (0x11950, 0x11959);
   (0x119A0, 0x119A7); (0x119AA, 0x119D0); (0x119E1, 0x119E1);
   (0x119E3, 0x119E3); (0x11A00, 0x11A00); (0x11A0B, 0x11A32);
   (0x11A3A, 0x11A3A); (0x11A50, 0x11A50); (0x11A5C, 0x11A89);
   (0x11A9D, 0x11A9D); (0x11AB0, 0x11AF8); (0x11C00, 0x11C08);
   (0x11C0A, 0x11C2E); (0x11C40, 0x11C40); (0x11C50, 0x11C6C);
   (0x11C72, 0x11C8F); (0x11D00, 0x11D06); (0x11D08, 0x11D09);
   (0x11D0B, 0x11D30); (0x11D46, 0x11D46); (0x11D50, 0x11D59);
   (0x11D60, 0x11D65); (0x11D67, 0x11D68); (0x11D6A, 0x11D89);
   (0x11D98, 0x11D98); (0x11DA0, 0x11DA9); (0x11EE0, 0x11EF2);
   (0x11FB0, 0x11FB0); (0x11FC0, 0x11FD4); (0x12000, 0x12399);
   (0x12400, 0x1246E); (0x12480, 0x12543); (0x12F90, 0x12FF0);
   (0x13000, 0x1342E); (0x14400, 0x14646); (0x16800, 0x16A38);
   (0x16A40, 0x16A5E); (0x16A60, 0x16A69); (0x16A70, 0x16ABE);
   (0x16AC0, 0x16AC9); (0x16AD0, 0x16AED); (0x16B00, 0x16B2F);
   (0x16B40, 0x16B43); (0x16B50, 0x16B59); (0x16B5B, 0x16B61);
   (0x16B63, 0x16B77); (0x16B7D, 0x16B8F); (0x16E40, 0x16E96);
   (0x16F00, 0x16F4A); (0x16F50, 0x16F50); (0x16F93, 0x16F9F);
   (0x16FE0, 0x16FE1); (0x16FE3, 0x16FE3); (0x17000, 0x187F7);
   (0x18800, 0x18CD5); (0x18D00, 0x18D08); (0x1AFF0, 0x1AFF3);
   (0x1AFF5, 0x1AFFB); (0x1AFFD, 0x1AFFE); (0x1B000, 0x1B122);
   (0x1B150, 0x1B152); (0x1B164, 0x1B167); (0x1B170, 0x1B2FB);
   (0x1BC00, 0x1BC6A); (0x1BC70, 0x1BC7C); (0x1BC80, 0x1BC88);
   (0x1BC90, 0x1BC99); (0x1D2E0, 0x1D2F3); (0x1D360, 0x1D378);
   (0x1D400, 0x1D454); (0x1D456, 0x1D49C); (0x1D49E, 0x1D49F);
   (0x1D4A2, 0x1D4A2); (0x1D4A5, 0x1D4A6); (0x1D4A9, 0x1D4AC);
   (0x1D4AE, 0x1D4B9); (0x1D4BB, 0x1D4BB); (0x1D4BD, 0x1D4C3);
   (0x1D4C5, 0x1D505); (0x1D507, 0x1D50A); (0x1D50D, 0x1D514);
   (0x1D516, 0x1D51C); (0x1D51E, 0x1D539); (0x1D53B, 0x1D53E);
   (0x1D540, 0x1D544); (0x1D546, 0x1D546); (0x1D54A, 0x1D550);
   (0x1D552, 0x1D6A5); (0x1D6A8, 0x1D6C0); (0x1D6C2, 0x1D6DA);
   (0x1D6DC, 0x1D6FA); (0x1D6FC, 0x1D714); (0x1D716, 0x1D734);
   (0x1D736, 0x1D74E); (0x1D750, 0x1D76E); (0x1D770, 0x1D788);
   (0x1D78A, 0x1D7A8); (0x1D7AA, 0x1D7C2); (0x1D7C4, 0x1D7CB);
   (0x1D7CE, 0x1D7FF); (0x1DF00, 0x1DF1E); (0x1E100, 0x1E12C);
   (0x1E137, 0x1E13D); (0x1E140, 0x1E149); (0x1E14E, 0x1E14E);
   (0x1E290, 0x1E2AD); (0x1E2C0, 0x1E2EB); (0x1E2F0, 0x1E2F9);
   (0x1E7E0, 0x1E7E6); (0x1E7E8, 0x1E7EB); (0x1E7ED, 0x1E7EE);
   (0x1E7F0, 0x1E7FE); (0x1E800, 0x1E8C4); (0x1E8C7, 0x1E8CF);
   (0x1E900, 0x1E943); (0x1E94B, 0x1E94B); (0x1E950, 0x1E959);
   (0x1EC71, 0x1ECAB); (0x1ECAD, 0x1ECAF); (0x1ECB1, 0x1ECB4);
   (0x1ED01, 0x1ED2D); (0x1ED2F, 0x1ED3D); (0x1EE00, 0x1EE03);
   (0x1EE05, 0x1EE1F); (0x1EE21, 0x1EE22); (0x1EE24, 0x1EE24);
   (0x1EE27, 0x1EE27); (0x1EE29, 0x1EE32); (0x1EE34, 0x1EE37);
   (0x1EE39, 0x1EE39); (0x1EE3B, 0x1EE3B); (0x1EE42, 0x1EE42);
   (0x1EE47, 0x1EE47); (0x1EE49, 0x1EE49); (0x1EE4B, 0x1EE4B);
   (0x1EE4D, 0x1EE4F); (0x1EE51, 0x1EE52); (0x1EE54, 0x1EE54);
   (0x1EE57, 0x1EE57); (0x1EE59, 0x1EE59); (0x1EE5B, 0x1EE5B);
   (0x1EE5D, 0x1EE5D); (0x1EE5F, 0x1EE5F); (0x1EE61, 0x1EE62);
   (0x1EE64, 0x1EE64); (0x1EE67, 0x1EE6A); (0x1EE6C, 0x1EE72);
   (0x1EE74, 0x1EE77); (0x1EE79, 0x1EE7C); (0x1EE7E, 0x1EE7E);
   (0x1EE80, 0x1EE89); (0x1EE8B, 0x1EE9B); (0x1EEA1, 0x1EEA3);
   (0x1EEA5, 0x1EEA9); (0x1EEAB, 0x1EEBB); (0x1F100, 0x1F10C);
   (0x1FBF0, 0x1FBF9); (0x20000, 0x2A6DF); (0x2A700, 0x2B738);
   (0x2B740, 0x2B81D); (0x2B820, 0x2CEA1); (0x2CEB0, 0x2EBE0);
   (0x2F800, 0x2FA1D); (0x30000, 0x3134A)].

(** [c.isdigit()]. *)
Definition digit_table : list (N * N) :=
  [(0x30, 0x39); (0xB2, 0xB3); (0xB9, 0xB9); (0x660, 0x669); (0x6F0, 0x6F9);
   (0x7C0, 0x7C9); (0x966, 0x96F); (0x9E6, 0x9EF); (0xA66, 0xA6F);
   (0xAE6, 0xAEF); (0xB66, 0xB6F); (0xBE6, 0xBEF); (0xC66, 0xC6F);
   (0xCE6, 0xCEF); (0xD66, 0xD6F); (0xDE6, 0xDEF); (0xE50, 0xE59);
   (0xED0, 0xED9); (0xF20, 0xF29); (0x1040, 0x1049); (0x1090, 0x1099);
   (0x1369, 0x1371); (0x17E0, 0x17E9); (0x1810, 0x1819); (0x1946, 0x194F);
   (0x19D0, 0x19DA); (0x1A80, 0x1A89); (0x1A90, 0x1A99); (0x1B50, 0x1B59);
   (0x1BB0, 0x1BB9); (0x1C40, 0x1C49); (0x1C50, 0x1C59); (0x2070, 0x2070);
   (0x2074, 0x2079); (0x2080, 0x2089); (0x2460, 0x2468); (0x2474, 0x247C);
   (0x2488, 0x2490); (0x24EA, 0x24EA); (0x24F5, 0x24FD); (0x24FF, 0x24FF);
   (0x2776, 0x277E); (0x2780, 0x2788); (0x278A, 0x2792); (0xA620, 0xA629);
   (0xA8D0, 0xA8D9); (0xA900, 0xA909); (0xA9D0, 0xA9D9); (0xA9F0, 0xA9F9);
   (0xAA50, 0xAA59); (0xABF0, 0xABF9); (0xFF10, 0xFF19); (0x104A0, 0x104A9);
   (0x10A40, 0x10A43); (0x10D30, 0x10D39); (0x10E60, 0x10E68);
   (0x11052, 0x1105A); (0x11066, 0x1106F); (0x110F0, 0x110F9);
   (0x11136, 0x1113F); (0x111D0, 0x111D9); (0x112F0, 0x112F9);
   (0x11450, 0x11459); (0x114D0, 0x114D9); (0x11650, 0x11659);
   (0x116C0, 0x116C9); (0x11730, 0x11739); (0x118E0, 0x118E9);
   (0x11950, 0x11959); (0x11C50, 0x11C59); (0x11D50, 0x11D59);
   (0x11DA0, 0x11DA9); (0x16A60, 0x16A69); (0x16AC0, 0x16AC9);
   (0x16B50, 0x16B59); (0x1D7CE, 0x1D7FF); (0x1E140, 0x1E149);
   (0x1E2F0, 0x1E2F9); (0x1E950, 0x1E959); (0x1F100, 0x1F10A);
   (0x1FBF0, 0x1FBF9)].

(** The cased characters: lower-case, upper-case and title-case. *)
Definition cased_table : list (N * N) :=
  [(0x41, 0x5A); (0x61, 0x7A); (0xAA, 0xAA); (0xB5, 0xB5); (0xBA, 0xBA);
   (0xC0, 0xD6); (0xD8, 0xF6); (0xF8, 0x1BA); (0x1BC, 0x1BF); (0x1C4, 0x293);
   (0x295, 0x2B8); (0x2C0, 0x2C1); (0x2E0, 0x2E4); (0x345, 0x345);
   (0x370, 0x373); (0x376, 0x377); (0x37A, 0x37D); (0x37F, 0x37F);
   (0x386, 0x386); (0x388, 0x38A); (0x38C, 0x38C); (0x38E, 0x3A1);
   (0x3A3, 0x3F5); (0x3F7, 0x481); (0x48A, 0x52F); (0x531, 0x556);
   (0x560, 0x588); (0x10A0, 0x10C5); (0x10C7, 0x10C7); (0x10CD, 0x10CD);
   (0x10D0, 0x10FA); (0x10FD, 0x10FF); (0x13A0, 0x13F5); (0x13F8, 0x13FD);
   (0x1C80, 0x1C88); (0x1C90, 0x1CBA); (0x1CBD, 0x1CBF); (0x1D00, 0x1DBF);
   (0x1E00, 0x1F15); (0x1F18, 0x1F1D); (0x1F20, 0x1F45); (0x1F48, 0x1F4D);
   (0x1F50, 0x1F57); (0x1F59, 0x1F59); (0x1F5B, 0x1F5B); (0x1F5D, 0x1F5D);
   (0x1F5F, 0x1F7D); (0x1F80, 0x1FB4); (0x1FB6, 0x1FBC); (0x1FBE, 0x1FBE);
   (0x1FC2, 0x1FC4); (0x1FC6, 0x1FCC); (0x1FD0, 0x1FD3); (0x1FD6, 0x1FDB);
   (0x1FE0, 0x1FEC); (0x1FF2, 0x1FF4); (0x1FF6, 0x1FFC); (0x2071, 0x2071);
   (0x207F, 0x207F); (0x2090, 0x209C); (0x2102, 0x2102); (0x2107, 0x2107);
   (0x210A, 0x2113); (0x2115, 0x2115); (0x2119, 0x211D); (0x2124, 0x2124);
   (0x2126, 0x2126); (0x2128, 0x2128); (0x212A, 0x212D); (0x212F, 0x2134);
   (0x2139, 0x2139); (0x213C, 0x213F); (0x2145, 0x2149); (0x214E, 0x214E);
   (0x2160, 0x217F); (0x2183, 0x2184); (0x24B6, 0x24E9); (0x2C00, 0x2CE4);
   (0x2CEB, 0x2CEE); (0x2CF2, 0x2CF3); (0x2D00, 0x2D25); (0x2D27, 0x2D27);
   (0x2D2D, 0x2D2D); (0xA640, 0xA66D); (0xA680, 0xA69D); (0xA722, 0xA787);
   (0xA78B, 0xA78E); (0xA790, 0xA7CA); (0xA7D0, 0xA7D1); (0xA7D3, 0xA7D3);
   (0xA7D5, 0xA7D9); (0xA7F5, 0xA7F6); (0xA7F8, 0xA7FA); (0xAB30, 0xAB5A);
   (0xAB5C, 0xAB68); (0xAB70, 0xABBF); (0xFB00, 0xFB06); (0xFB13, 0xFB17);
   (0xFF21, 0xFF3A); (0xFF41, 0xFF5A); (0x10400, 0x1044F); (0x104B0, 0x104D3);
   (0x104D8, 0x104FB); (0x10570, 0x1057A); (0x1057C, 0x1058A);
   (0x1058C, 0x10592); (0x10594, 0x10595); (0x10597, 0x105A1);
   (0x105A3, 0x105B1); (0x105B3, 0x105B9); (0x105BB, 0x105BC);
   (0x10780, 0x10780); (0x10783, 0x10785); (0x10787, 0x107B0);
   (0x107B2, 0x107BA); (0x10C80, 0x10CB2); (0x10CC0, 0x10CF2);
   (0x118A0, 0x118DF); (0x16E40, 0x16E7F); (0x1D400, 0x1D454);
   (0x1D456, 0x1D49C); (0x1D49E, 0x1D49F); (0x1D4A2, 0x1D4A2);
   (0x1D4A5, 0x1D4A6); (0x1D4A9, 0x1D4AC); (0x1D4AE, 0x1D4B9);
   (0x1D4BB, 0x1D4BB); (0x1D4BD, 0x1D4C3); (0x1D4C5, 0x1D505);
   (0x1D507, 0x1D50A); (0x1D50D, 0x1D514); (0x1D516, 0x1D51C);
   (0x1D51E, 0x1D539); (0x1D53B, 0x1D53E); (0x1D540, 0x1D544);
   (0x1D546, 0x1D546); (0x1D54A, 0x1D550); (0x1D552, 0x1D6A5);
   (0x1D6A8, 0x1D6C0); (0x1D6C2, 0x1D6DA); (0x1D6DC, 0x1D6FA);
   (0x1D6FC, 0x1D714); (0x1D716, 0x1D734); (0x1D736, 0x1D74E);
   (0x1D750, 0x1D76E); (0x1D770, 0x1D788); (0x1D78A, 0x1D7A8);
   (0x1D7AA, 0x1D7C2); (0x1D7C4, 0x1D7CB); (0x1DF00, 0x1DF09);
   (0x1DF0B, 0x1DF1E); (0x1E900, 0x1E943); (0x1F130, 0x1F149);
   (0x1F150, 0x1F169); (0x1F170, 0x1F189)].

(** The case-ignorable characters: marks, format characters, modifier
    letters and symbols, and the punctuation that may stand inside a word. *)
Definition case_ignorable_table : list (N * N) :=
  [(0x27, 0x27); (0x2E, 0x2E); (0x3A, 0x3A); (0x5E, 0x5E); (0x60, 0x60);
   (0xA8, 0xA8); (0xAD, 0xAD); (0xAF, 0xAF); (0xB4, 0xB4); (0xB7, 0xB8);
   (0x2B0, 0x36F); (0x374, 0x375); (0x37A, 0x37A); (0x384, 0x385);
   (0x387, 0x387); (0x483, 0x489); (0x559, 0x559); (0x55F, 0x55F);
   (0x591, 0x5BD); (0x5BF, 0x5BF); (0x5C1, 0x5C2); (0x5C4, 0x5C5);
   (0x5C7, 0x5C7); (0x5F4, 0x5F4); (0x600, 0x605); (0x610, 0x61A);
   (0x61C, 0x61C); (0x640, 0x640); (0x64B, 0x65F); (0x670, 0x670);
   (0x6D6, 0x6DD); (0x6DF, 0x6E8); (0x6EA, 0x6ED); (0x70F, 0x70F);
   (0x711, 0x711); (0x730, 0x74A); (0x7A6, 0x7B0); (0x7EB, 0x7F5);
   (0x7FA, 0x7FA); (0x7FD, 0x7FD); (0x816, 0x82D); (0x859, 0x85B);
   (0x888, 0x888); (0x890, 0x891); (0x898, 0x89F); (0x8C9, 0x902);
   (0x93A, 0x93A); (0x93C, 0x93C); (0x941, 0x948); (0x94D, 0x94D);
   (0x951, 0x957); (0x962, 0x963); (0x971, 0x971); (0x981, 0x981);
   (0x9BC, 0x9BC); (0x9C1, 0x9C4); (0x9CD, 0x9CD); (0x9E2, 0x9E3);
   (0x9FE, 0x9FE); (0xA01, 0xA02); (0xA3C, 0xA3C); (0xA41, 0xA42);
   (0xA47, 0xA48); (0xA4B, 0xA4D); (0xA51, 0xA51); (0xA70, 0xA71);
   (0xA75, 0xA75); (0xA81, 0xA82); (0xABC, 0xABC); (0xAC1, 0xAC5);
   (0xAC7, 0xAC8); (0xACD, 0xACD); (0xAE2, 0xAE3); (0xAFA, 0xAFF);
   (0xB01, 0xB01); (0xB3C, 0xB3C); (0xB3F, 0xB3F); (0xB41, 0xB44);
   (0xB4D, 0xB4D); (0xB55, 0xB56); (0xB62, 0xB63); (0xB82, 0xB82);
   (0xBC0, 0xBC0); (0xBCD, 0xBCD); (0xC00, 0xC00); (0xC04, 0xC04);
   (0xC3C, 0xC3C); (0xC3E, 0xC40); (0xC46, 0xC48); (0xC4A, 0xC4D);
   (0xC55, 0xC56); (0xC62, 0xC63); (0xC81, 0xC81); (0xCBC, 0xCBC);
   (0xCBF, 0xCBF); (0xCC6, 0xCC6); (0xCCC, 0xCCD); (0xCE2, 0xCE3);
   (0xD00, 0xD01); (0xD3B, 0xD3C); (0xD41, 0xD44); (0xD4D, 0xD4D);
   (0xD62, 0xD63); (0xD81, 0xD81); (0xDCA, 0xDCA); (0xDD2, 0xDD4);
   (0xDD6, 0xDD6); (0xE31, 0xE31); (0xE34, 0xE3A); (0xE46, 0xE4E);
   (0xEB1, 0xEB1); (0xEB4, 0xEBC); (0xEC6, 0xEC6); (0xEC8, 0xECD);
   (0xF18, 0xF19); (0xF35, 0xF35); (0xF37, 0xF37); (0xF39, 0xF39);
   (0xF71, 0xF7E); (0xF80, 0xF84); (0xF86, 0xF87); (0xF8D, 0xF97);
   (0xF99, 0xFBC); (0xFC6, 0xFC6); (0x102D, 0x1030); (0x1032, 0x1037);
   (0x1039, 0x103A); (0x103D, 0x103E); (0x1058, 0x1059); (0x105E, 0x1060);
   (0x1071, 0x1074); (0x1082, 0x1082); (0x1085, 0x1086); (0x108D, 0x108D);
   (0x109D, 0x109D); (0x10FC, 0x10FC); (0x135D, 0x135F); (0x1712, 0x1714);
   (0x1732, 0x1733); (0x1752, 0x1753); (0x1772, 0x1773); (0x17B4, 0x17B5);
   (0x17B7, 0x17BD); (0x17C6, 0x17C6); (0x17C9, 0x17D3); (0x17D7, 0x17D7);
   (0x17DD, 0x17DD); (0x180B, 0x180F); (0x1843, 0x1843); (0x1885, 0x1886);
   (0x18A9, 0x18A9); (0x1920, 0x1922); (0x1927, 0x1928); (0x1932, 0x1932);
   (0x1939, 0x193B); (0x1A17, 0x1A18); (0x1A1B, 0x1A1B); (0x1A56, 0x1A56);
   (0x1A58, 0x1A5E); (0x1A60, 0x1A60); (0x1A62, 0x1A62); (0x1A65, 0x1A6C);
   (0x1A73, 0x1A7C); (0x1A7F, 0x1A7F); (0x1AA7, 0x1AA7); (0x1AB0, 0x1ACE);
   (0x1B00, 0x1B03); (0x1B34, 0x1B34); (0x1B36, 0x1B3A); (0x1B3C, 0x1B3C);
   (0x1B42, 0x1B42); (0x1B6B, 0x1B73); (0x1B80, 0x1B81); (0x1BA2, 0x1BA5);
   (0x1BA8, 0x1BA9); (0x1BAB, 0x1BAD); (0x1BE6, 0x1BE6); (0x1BE8, 0x1BE9);
   (0x1BED, 0x1BED); (0x1BEF, 0x1BF1); (0x1C2C, 0x1C33); (0x1C36, 0x1C37);
   (0x1C78, 0x1C7D); (0x1CD0, 0x1CD2); (0x1CD4, 0x1CE0); (0x1CE2, 0x1CE8);
   (0x1CED, 0x1CED); (0x1CF4, 0x1CF4); (0x1CF8, 0x1CF9); (0x1D2C, 0x1D6A);
   (0x1D78, 0x1D78); (0x1D9B, 0x1DFF); (0x1FBD, 0x1FBD); (0x1FBF, 0x1FC1);
   (0x1FCD, 0x1FCF); (0x1FDD, 0x1FDF); (0x1FED, 0x1FEF); (0x1FFD, 0x1FFE);
   (0x200B, 0x200F); (0x2018, 0x2019); (0x2024, 0x2024); (0x2027, 0x2027);
   (0x202A, 0x202E); (0x2060, 0x2064); (0x2066, 0x206F); (0x2071, 0x2071);
   (0x207F, 0x207F); (0x2090, 0x209C); (0x20D0, 0x20F0); (0x2C7C, 0x2C7D);
   (0x2CEF, 0x2CF1); (0x2D6F, 0x2D6F); (0x2D7F, 0x2D7F); (0x2DE0, 0x2DFF);
   (0x2E2F, 0x2E2F); (0x3005, 0x3005); (0x302A, 0x302D); (0x3031, 0x3035);
   (0x303B, 0x303B); (0x3099, 0x309E); (0x30FC, 0x30FE); (0xA015, 0xA015);
   (0xA4F8, 0xA4FD); (0xA60C, 0xA60C); (0xA66F, 0xA672); (0xA674, 0xA67D);
   (0xA67F, 0xA67F); (0xA69C, 0xA69F); (0xA6F0, 0xA6F1); (0xA700, 0xA721);
   (0xA770, 0xA770); (0xA788, 0xA78A); (0xA7F2, 0xA7F4); (0xA7F8, 0xA7F9);
   (0xA802, 0xA802); (0xA806, 0xA806); (0xA80B, 0xA80B); (0xA825, 0xA826);
   (0xA82C, 0xA82C); (0xA8C4, 0xA8C5); (0xA8E0, 0xA8F1); (0xA8FF, 0xA8FF);
   (0xA926, 0xA92D); (0xA947, 0xA951); (0xA980, 0xA982); (0xA9B3, 0xA9B3);
   (0xA9B6, 0xA9B9); (0xA9BC, 0xA9BD); (0xA9CF, 0xA9CF); (0xA9E5, 0xA9E6);
   (0xAA29, 0xAA2E); (0xAA31, 0xAA32); (0xAA35, 0xAA36); (0xAA43, 0xAA43);
   (0xAA4C, 0xAA4C); (0xAA70, 0xAA70); (0xAA7C, 0xAA7C); (0xAAB0, 0xAAB0);
   (0xAAB2, 0xAAB4); (0xAAB7, 0xAAB8); (0xAABE, 0xAABF); (0xAAC1, 0xAAC1);
   (0xAADD, 0xAADD); (0xAAEC, 0xAAED); (0xAAF3, 0xAAF4); (0xAAF6, 0xAAF6);
   (0xAB5B, 0xAB5F); (0xAB69, 0xAB6B); (0xABE5, 0xABE5); (0xABE8, 0xABE8);
   (0xABED, 0xABED); (0xFB1E, 0xFB1E); (0xFBB2, 0xFBC2); (0xFE00, 0xFE0F);
   (0xFE13, 0xFE13); (0xFE20, 0xFE2F); (0xFE52, 0xFE52); (0xFE55, 0xFE55);
   (0xFEFF, 0xFEFF); (0xFF07, 0xFF07); (0xFF0E, 0xFF0E); (0xFF1A, 0xFF1A);
   (0xFF3E, 0xFF3E); (0xFF40, 0xFF40); (0xFF70, 0xFF70); (0xFF9E, 0xFF9F);
   (0xFFE3, 0xFFE3); (0xFFF9, 0xFFFB); (0x101FD, 0x101FD); (0x102E0, 0x102E0);
   (0x10376, 0x1037A); (0x10780, 0x10785); (0x10787, 0x107B0);
   (0x107B2, 0x107BA); (0x10A01, 0x10A03); (0x10A05, 0x10A06);
   (0x10A0C, 0x10A0F); (0x10A38, 0x10A3A); (0x10A3F, 0x10A3F);
   (0x10AE5, 0x10AE6); (0x10D24, 0x10D27); (0x10EAB, 0x10EAC);
   (0x10F46, 0x10F50); (0x10F82, 0x10F85); (0x11001, 0x11001);
   (0x11038, 0x11046); (0x11070, 0x11070); (0x11073, 0x11074);
   (0x1107F, 0x11081); (0x110B3, 0x110B6); (0x110B9, 0x110BA);
   (0x110BD, 0x110BD); (0x110C2, 0x110C2); (0x110CD, 0x110CD);
   (0x11100, 0x11102); (0x11127, 0x1112B); (0x1112D, 0x11134);
   (0x11173, 0x11173); (0x11180, 0x11181); (0x111B6, 0x111BE);
   (0x111C9, 0x111CC); (0x111CF, 0x111CF); (0x1122F, 0x11231);
   (0x11234, 0x11234); (0x11236, 0x11237); (0x1123E, 0x1123E);
   (0x112DF, 0x112DF); (0x112E3, 0x112EA); (0x11300, 0x11301);
   (0x1133B, 0x1133C); (0x11340, 0x11340); (0x11366, 0x1136C);
   (0x11370, 0x11374); (0x11438, 0x1143F); (0x11442, 0x11444);
   (0x11446, 0x11446); (0x1145E, 0x1145E); (0x114B3, 0x114B8);
   (0x114BA, 0x114BA); (0x114BF, 0x114C0); (0x114C2, 0x114C3);
   (0x115B2, 0x115B5); (0x115BC, 0x115BD); (0x115BF, 0x115C0);
   (0x115DC, 0x115DD); (0x11633, 0x1163A); (0x1163D, 0x1163D);
   (0x1163F, 0x11640); (0x116AB, 0x116AB); (0x116AD, 0x116AD);
   (0x116B0, 0x116B5); (0x116B7, 0x116B7); (0x1171D, 0x1171F);
   (0x11722, 0x11725); (0x11727, 0x1172B); (0x1182F, 0x11837);
   (0x11839, 0x1183A); (0x1193B, 0x1193C); (0x1193E, 0x1193E);
   (0x11943, 0x11943); (0x119D4, 0x119D7); (0x119DA, 0x119DB);
   (0x119E0, 0x119E0); (0x11A01, 0x11A0A); (0x11A33, 0x11A38);
   (0x11A3B, 0x11A3E); (0x11A47, 0x11A47); (0x11A51, 0x11A56);
   (0x11A59, 0x11A5B); (0x11A8A, 0x11A96); (0x11A98, 0x11A99);
   (0x11C30, 0x11C36); (0x11C38, 0x11C3D); (0x11C3F, 0x11C3F);
   (0x11C92, 0x11CA7); (0x11CAA, 0x11CB0); (0x11CB2, 0x11CB3);
   (0x11CB5, 0x11CB6); (0x11D31, 0x11D36); (0x11D3A, 0x11D3A);
   (0x11D3C, 0x11D3D); (0x11D3F, 0x11D45); (0x11D47, 0x11D47);
   (0x11D90, 0x11D91); (0x11D95, 0x11D95); (0x11D97, 0x11D97);
   (0x11EF3, 0x11EF4); (0x13430, 0x13438); (0x16AF0, 0x16AF4);
   (0x16B30, 0x16B36); (0x16B40, 0x16B43); (0x16F4F, 0x16F4F);
   (0x16F8F, 0x16F9F); (0x16FE0, 0x16FE1); (0x16FE3, 0x16FE4);
   (0x1AFF0, 0x1AFF3); (0x1AFF5, 0x1AFFB); (0x1AFFD, 0x1AFFE);
   (0x1BC9D, 0x1BC9E); (0x1BCA0, 0x1BCA3); (0x1CF00, 0x1CF2D);
   (0x1CF30, 0x1CF46); (0x1D167, 0x1D169); (0x1D173, 0x1D182);
   (0x1D185, 0x1D18B); (0x1D1AA, 0x1D1AD); (0x1D242, 0x1D244);
   (0x1DA00, 0x1DA36); (0x1DA3B, 0x1DA6C); (0x1DA75, 0x1DA75);
   (0x1DA84, 0x1DA84); (0x1DA9B, 0x1DA9F); (0x1DAA1, 0x1DAAF);
   (0x1E000, 0x1E006); (0x1E008, 0x1E018); (0x1E01B, 0x1E021);
   (0x1E023, 0x1E024); (0x1E026, 0x1E02A); (0x1E130, 0x1E13D);
   (0x1E2AE, 0x1E2AE); (0x1E2EC, 0x1E2EF); (0x1E8D0, 0x1E8D6);
   (0x1E944, 0x1E94B); (0x1F3FB, 0x1F3FF); (0xE0001, 0xE0001);
   (0xE0020, 0xE007F); (0xE0100, 0xE01EF)].

(** The simple lower-case mapping, in runs [(first, last, step, image)]:
    the code points [first], [first + step], ... up to [last] become
    [image], [image + step], ... *)
Definition lower_table : list (N * N * N * N) :=
  [(0x41, 0x5A, 1, 0x61); (0xC0, 0xD6, 1, 0xE0); (0xD8, 0xDE, 1, 0xF8);
   (0x100, 0x12E, 2, 0x101); (0x132, 0x136, 2, 0x133);
   (0x139, 0x147, 2, 0x13A); (0x14A, 0x176, 2, 0x14B);
   (0x178, 0x178, 1, 0xFF); (0x179, 0x17D, 2, 0x17A);
   (0x181, 0x181, 1, 0x253); (0x182, 0x184, 2, 0x183);
   (0x186, 0x186, 1, 0x254); (0x187, 0x187, 1, 0x188);
   (0x189, 0x18A, 1, 0x256); (0x18B, 0x18B, 1, 0x18C);
   (0x18E, 0x18E, 1, 0x1DD); (0x18F, 0x18F, 1, 0x259);
   (0x190, 0x190, 1, 0x25B); (0x191, 0x191, 1, 0x192);
   (0x193, 0x193, 1, 0x260); (0x194, 0x194, 1, 0x263);
   (0x196, 0x196, 1, 0x269); (0x197, 0x197, 1, 0x268);
   (0x198, 0x198, 1, 0x199); (0x19C, 0x19C, 1, 0x26F);
   (0x19D, 0x19D, 1, 0x272); (0x19F, 0x19F, 1, 0x275);
   (0x1A0, 0x1A4, 2, 0x1A1); (0x1A6, 0x1A6, 1, 0x280);
   (0x1A7, 0x1A7, 1, 0x1A8); (0x1A9, 0x1A9, 1, 0x283);
   (0x1AC, 0x1AC, 1, 0x1AD); (0x1AE, 0x1AE, 1, 0x288);
   (0x1AF, 0x1AF, 1, 0x1B0); (0x1B1, 0x1B2, 1, 0x28A);
   (0x1B3, 0x1B5, 2, 0x1B4); (0x1B7, 0x1B7, 1, 0x292);
   (0x1B8, 0x1B8, 1, 0x1B9); (0x1BC, 0x1BC, 1, 0x1BD);
   (0x1C4, 0x1C4, 1, 0x1C6); (0x1C5, 0x1C5, 1, 0x1C6);
   (0x1C7, 0x1C7, 1, 0x1C9); (0x1C8, 0x1C8, 1, 0x1C9);
   (0x1CA, 0x1CA, 1, 0x1CC); (0x1CB, 0x1DB, 2, 0x1CC);
   (0x1DE, 0x1EE, 2, 0x1DF); (0x1F1, 0x1F1, 1, 0x1F3);
   (0x1F2, 0x1F4, 2, 0x1F3); (0x1F6, 0x1F6, 1, 0x195);
   (0x1F7, 0x1F7, 1, 0x1BF); (0x1F8, 0x21E, 2, 0x1F9);
   (0x220, 0x220, 1, 0x19E); (0x222, 0x232, 2, 0x223);
   (0x23A, 0x23A, 1, 0x2C65); (0x23B, 0x23B, 1, 0x23C);
   (0x23D, 0x23D, 1, 0x19A); (0x23E, 0x23E, 1, 0x2C66);
   (0x241, 0x241, 1, 0x242); (0x243, 0x243, 1, 0x180);
   (0x244, 0x244, 1, 0x289); (0x245, 0x245, 1, 0x28C);
   (0x246, 0x24E, 2, 0x247); (0x370, 0x372, 2, 0x371);
   (0x376, 0x376, 1, 0x377); (0x37F, 0x37F, 1, 0x3F3);
   (0x386, 0x386, 1, 0x3AC); (0x388, 0x38A, 1, 0x3AD);
   (0x38C, 0x38C, 1, 0x3CC); (0x38E, 0x38F, 1, 0x3CD);
   (0x391, 0x3A1, 1, 0x3B1); (0x3A3, 0x3AB, 1, 0x3C3);
   (0x3CF, 0x3CF, 1, 0x3D7); (0x3D8, 0x3EE, 2, 0x3D9);
   (0x3F4, 0x3F4, 1, 0x3B8); (0x3F7, 0x3F7, 1, 0x3F8);
   (0x3F9, 0x3F9, 1, 0x3F2); (0x3FA, 0x3FA, 1, 0x3FB);
   (0x3FD, 0x3FF, 1, 0x37B); (0x400, 0x40F, 1, 0x450);
   (0x410, 0x42F, 1, 0x430); (0x460, 0x480, 2, 0x461);
   (0x48A, 0x4BE, 2, 0x48B); (0x4C0, 0x4C0, 1, 0x4CF);
   (0x4C1, 0x4CD, 2, 0x4C2); (0x4D0, 0x52E, 2, 0x4D1);
   (0x531, 0x556, 1, 0x561); (0x10A0, 0x10C5, 1, 0x2D00);
   (0x10C7, 0x10C7, 1, 0x2D27); (0x10CD, 0x10CD, 1, 0x2D2D);
   (0x13A0, 0x13EF, 1, 0xAB70); (0x13F0, 0x13F5, 1, 0x13F8);
   (0x1C90, 0x1CBA, 1, 0x10D0); (0x1CBD, 0x1CBF, 1, 0x10FD);
   (0x1E00, 0x1E94, 2, 0x1E01); (0x1E9E, 0x1E9E, 1, 0xDF);
   (0x1EA0, 0x1EFE, 2, 0x1EA1); (0x1F08, 0x1F0F, 1, 0x1F00);
   (0x1F18, 0x1F1D, 1, 0x1F10); (0x1F28, 0x1F2F, 1, 0x1F20);
   (0x1F38, 0x1F3F, 1, 0x1F30); (0x1F48, 0x1F4D, 1, 0x1F40);
   (0x1F59, 0x1F5F, 2, 0x1F51); (0x1F68, 0x1F6F, 1, 0x1F60);
   (0x1F88, 0x1F8F, 1, 0x1F80); (0x1F98, 0x1F9F, 1, 0x1F90);
   (0x1FA8, 0x1FAF, 1, 0x1FA0); (0x1FB8, 0x1FB9, 1, 0x1FB0);
   (0x1FBA, 0x1FBB, 1, 0x1F70); (0x1FBC, 0x1FBC, 1, 0x1FB3);
   (0x1FC8, 0x1FCB, 1, 0x1F72); (0x1FCC, 0x1FCC, 1, 0x1FC3);
   (0x1FD8, 0x1FD9, 1, 0x1FD0); (0x1FDA, 0x1FDB, 1, 0x1F76);
   (0x1FE8, 0x1FE9, 1, 0x1FE0); (0x1FEA, 0x1FEB, 1, 0x1F7A);
   (0x1FEC, 0x1FEC, 1, 0x1FE5); (0x1FF8, 0x1FF9, 1, 0x1F78);
   (0x1FFA, 0x1FFB, 1, 0x1F7C); (0x1FFC, 0x1FFC, 1, 0x1FF3);
   (0x2126, 0x2126, 1, 0x3C9); (0x212A, 0x212A, 1, 0x6B);
   (0x212B, 0x212B, 1, 0xE5); (0x2132, 0x2132, 1, 0x214E);
   (0x2160, 0x216F, 1, 0x2170); (0x2183, 0x2183, 1, 0x2184);
   (0x24B6, 0x24CF, 1, 0x24D0); (0x2C00, 0x2C2F, 1, 0x2C30);
   (0x2C60, 0x2C60, 1, 0x2C61); (0x2C62, 0x2C62, 1, 0x26B);
   (0x2C63, 0x2C63, 1, 0x1D7D); (0x2C64, 0x2C64, 1, 0x27D);
   (0x2C67, 0x2C6B, 2, 0x2C68); (0x2C6D, 0x2C6D, 1, 0x251);
   (0x2C6E, 0x2C6E, 1, 0x271); (0x2C6F, 0x2C6F, 1, 0x250);
   (0x2C70, 0x2C70, 1, 0x252); (0x2C72, 0x2C72, 1, 0x2C73);
   (0x2C75, 0x2C75, 1, 0x2C76); (0x2C7E, 0x2C7F, 1, 0x23F);
   (0x2C80, 0x2CE2, 2, 0x2C81); (0x2CEB, 0x2CED, 2, 0x2CEC);
   (0x2CF2, 0x2CF2, 1, 0x2CF3); (0xA640, 0xA66C, 2, 0xA641);
   (0xA680, 0xA69A, 2, 0xA681); (0xA722, 0xA72E, 2, 0xA723);
   (0xA732, 0xA76E, 2, 0xA733); (0xA779, 0xA77B, 2, 0xA77A);
   (0xA77D, 0xA77D, 1, 0x1D79); (0xA77E, 0xA786, 2, 0xA77F);
   (0xA78B, 0xA78B, 1, 0xA78C); (0xA78D, 0xA78D, 1, 0x265);
   (0xA790, 0xA792, 2, 0xA791); (0xA796, 0xA7A8, 2, 0xA797);
   (0xA7AA, 0xA7AA, 1, 0x266); (0xA7AB, 0xA7AB, 1, 0x25C);
   (0xA7AC, 0xA7AC, 1, 0x261); (0xA7AD, 0xA7AD, 1, 0x26C);
   (0xA7AE, 0xA7AE, 1, 0x26A); (0xA7B0, 0xA7B0, 1, 0x29E);
   (0xA7B1, 0xA7B1, 1, 0x287); (0xA7B2, 0xA7B2, 1, 0x29D);
   (0xA7B3, 0xA7B3, 1, 0xAB53); (0xA7B4, 0xA7C2, 2, 0xA7B5);
   (0xA7C4, 0xA7C4, 1, 0xA794); (0xA7C5, 0xA7C5, 1, 0x282);
   (0xA7C6, 0xA7C6, 1, 0x1D8E); (0xA7C7, 0xA7C9, 2, 0xA7C8);
   (0xA7D0, 0xA7D0, 1, 0xA7D1); (0xA7D6, 0xA7D8, 2, 0xA7D7);
   (0xA7F5, 0xA7F5, 1, 0xA7F6); (0xFF21, 0xFF3A, 1, 0xFF41);
   (0x10400, 0x10427, 1, 0x10428); (0x104B0, 0x104D3, 1, 0x104D8);
   (0x10570, 0x1057A, 1, 0x10597); (0x1057C, 0x1058A, 1, 0x105A3);
   (0x1058C, 0x10592, 1, 0x105B3); (0x10594, 0x10595, 1, 0x105BB);
   (0x10C80, 0x10CB2, 1, 0x10CC0); (0x118A0, 0x118BF, 1, 0x118C0);
   (0x16E40, 0x16E5F, 1, 0x16E60); (0x1E900, 0x1E921, 1, 0x1E922)].

Definition isalnum (c : N) : bool := in_ranges alnum_table c.

Definition isdigit (c : N) : bool := in_ranges digit_table c.

Definition is_cased (c : N) : bool := in_ranges cased_table c.

Definition is_case_ignorable (c : N) : bool :=
  in_ranges case_ignorable_table c.

Definition in_run (c : N) (r : N * N * N * N) : bool :=
  let '(first, last, step, _) := r in
  (first <=? c) && (c <=? last) && ((c - first) mod step =? 0).

Definition to_lower (c : N) : N :=
  match find (in_run c) lower_table with
  | Some (first, _, _, image) => image + (c - first)
  | None => c
  end.

(** The full lower-case mapping of one character: only U+0130, the capital
    I with a dot, has more than one code point. *)
Definition to_lower_full (c : N) : list N :=
  if c =? 0x130 then [0x69; 0x307] else [to_lower c].

Fixpoint skip_case_ignorable (s : list N) : list N :=
  match s with
  | c :: r => if is_case_ignorable c then skip_case_ignorable r else s
  | [] => []
  end.

(** A capital sigma is final when a cased character stands before it and
    none after it, case-ignorable characters not counting. [before] is the
    text before the sigma, nearest character first. *)
Definition final_sigma (before after : list N) : bool :=
  match skip_case_ignorable before with
  | c :: _ =>
      is_cased c
      && match skip_case_ignorable after with
         | c' :: _ => negb (is_cased c')
         | [] => true
         end
  | [] => false
  end.

(** [s.lower()], character by character, [before] being what was read. *)
Fixpoint lower_from (before s : list N) : list N :=
  match s with
  | [] => []
  | c :: after =>
      (if c =? 0x3A3
       then [if final_sigma before after then 0x3C2 else 0x3C3]
       else to_lower_full c)
      ++ lower_from (c :: before) after
  end.

Definition lower (s : list N) : list N := lower_from [] s.

(** The code points of a text of this development. *)
Definition of_string (s : string) : list N :=
  map N_of_ascii (list_ascii_of_string s).

Definition clean_column_name (column : list N) : list N :=
  match column with
  | [] => of_string "unnamed_column"
  | _ :: _ =>
      let cleaned :=
        map (fun c => if isalnum c then c else 0x5F) (lower column) in
      match cleaned with
      | c0 :: _ => if isdigit c0 then of_string "col_" ++ cleaned else cleaned
      | [] => cleaned
      end
  end.

(** The sanitiser as the design document words it. *)
Definition sanitize_spec (x : list N) : list N :=
  if decide (x = []) then of_string "unnamed_column"
  else
    let lowered := lower x in
    let mapped := map (fun c => if isalnum c then c else 0x5F) lowered in
    match head mapped with
    | Some c0 => if isdigit c0 then of_string "col_" ++ mapped else mapped
    | None => mapped
    end.

(** The code points the table maps, and the code points lower-casing leaves
    alone wherever they stand. *)
Definition run_points (r : N * N * N * N) : list N :=
  let '(first, last, step, _) := r in
  map (fun i => first + step * N.of_nat i)
      (seq 0 (S (N.to_nat ((last - first) / step)))).

Definition lower_domain : list N := flat_map run_points lower_table.

Definition fixed (c : N) : bool :=
  negb (c =? 0x130) && negb (c =? 0x3A3) && (to_lower c =? c).

End Ucs4.

(** ** TypeInferencer *)

(** The storage types [detect_data_type] can name:
    ['TIMESTAMP'], ['BOOLEAN'], ['BIGINT'], ['DECIMAL(18,2)'] and
    [f'VARCHAR({n})']. *)
Inductive InferredType : Type :=
| TIMESTAMP
| BOOLEAN
| BIGINT
| DECIMAL_18_2
| VARCHAR (n : Z).

(** The dtype of a [pd.Series]. *)
Inductive Dtype : Type :=
| datetime64_ns                      (* numpy datetime64[ns] *)
| DatetimeTZDtype                    (* datetime64[ns, tz] *)
| timedelta64_ns
| np_bool                            (* numpy bool *)
| BooleanDtype                       (* nullable boolean *)
| np_int (bits : positive)           (* int8 .. int64 *)
| np_uint (bits : positive)          (* uint8 .. uint64 *)
| IntegerDtype (bits : positive)     (* nullable Int8 .. Int64, UInt8 .. *)
| np_float (bits : positive)         (* float16 .. float64 *)
| FloatingDtype (bits : positive)    (* nullable Float32, Float64 *)
| np_complex
| np_object                          (* object: what read_csv gives text *)
| StringDtype
| CategoricalDtype (bool_categories : bool)
| PeriodDtype
| IntervalDtype.

(** The missing-value markers [dropna] removes. *)
Inductive NullKind : Type := NaN | PyNone | NaT | NA.

(** A finite float: its exact value [fnum / fden] and its [repr]. *)
Record PyFloat : Type := { fnum : Z; fden : positive; frepr : string }.

(** One cell of a column. *)
Inductive Cell : Type :=
| CNull (k : NullKind)
| CInt (z : Z)
| CBool (b : bool)
| CFloat (f : PyFloat)
| CStr (s : string)
| CObj (text : string).              (* any other object, with its str() *)

Record Series : Type := { dtype : Dtype; values : list Cell }.

Definition isna (c : Cell) : bool :=
  match c with CNull _ => true | _ => false end.

(** [str(x)], as [astype(str)] applies it to every element. *)
Definition py_str (c : Cell) : string :=
  match c with
  | CNull NaN => "nan"
  | CNull PyNone => "None"
  | CNull NaT => "NaT"
  | CNull NA => "<NA>"
  | CInt z => Py.str_of_int z
  | CBool true => "True"
  | CBool false => "False"
  | CFloat f => frepr f
  | CStr s => s
  | CObj text => text
  end.

(** The pandas calls [detect_data_type] makes. Each of them is library code
    and may raise. *)
Class Pandas : Type := {
  pd_dropna : Series -> Exc (list Cell);
  is_datetime64_any_dtype : Series -> Exc bool;
  is_bool_dtype : Series -> Exc bool;
  is_integer_dtype : Series -> Exc bool;
  is_float_dtype : Series -> Exc bool;
  is_string_dtype : Series -> Exc bool;
  (** [values.astype(str).str.len().max()] *)
  astype_str_len_max : Series -> Exc Z
}.

Section Detect.
Context {pd : Pandas}.
Local Open Scope exc_scope.

(** The body of the [try] block. *)
Definition detect_body (vals : Series) : Exc InferredType :=
  let? non_null_values := pd_dropna vals in
  if (Z.of_nat (length non_null_values) =? 0) then Ok (VARCHAR 256) else
  let? dt := is_datetime64_any_dtype vals in
  if dt then Ok TIMESTAMP else
  let? bo := is_bool_dtype vals in
  if bo then Ok BOOLEAN else
  let? it := is_integer_dtype vals in
  if it then Ok BIGINT else
  let? fl := is_float_dtype vals in
  if fl then Ok DECIMAL_18_2 else
  let? st := is_string_dtype vals in
  if st then
    let? max_length := astype_str_len_max vals in
    let varchar_length := Z.min (Z.max (max_length * 2) 256) 65535 in
    Ok (VARCHAR varchar_length)
  else Ok (VARCHAR 256).

(** [try: ... except Exception: return 'VARCHAR(256)']. *)
Definition detect_data_type (vals : Series) : InferredType :=
  match detect_body vals with
  | Ok t => t
  | Raise _ => VARCHAR 256
  end.
End Detect.

(** pandas 1.5.3, the version the deployment pins. *)
Module Pandas153.

Definition dropna (vals : list Cell) : list Cell :=
  filter (fun c => isna c = false) vals.

Definition datetime64_any (d : Dtype) : bool :=
  match d with datetime64_ns | DatetimeTZDtype => true | _ => false end.

Definition bool_dtype (d : Dtype) : bool :=
  match d with
  | np_bool | BooleanDtype => true
  | CategoricalDtype b => b
  | _ => false
  end.

Definition integer_dtype (d : Dtype) : bool :=
  match d with
  | np_int _ | np_uint _ | IntegerDtype _ => true
  | _ => false
  end.

Definition float_dtype (d : Dtype) : bool :=
  match d with np_float _ | FloatingDtype _ => true | _ => false end.

(** kind in O, S, U and not period, interval or categorical. *)
Definition string_dtype (d : Dtype) : bool :=
  match d with np_object | StringDtype => true | _ => false end.

Definition max_list (l : list Z) : Z := foldr Z.max 0 l.

(** The longest [str(x)] over the whole column, nulls included. *)
Definition str_len_max (vals : list Cell) : Z :=
  max_list (map (fun c => Py.len (py_str c)) vals).

#[export] Instance pandas : Pandas := {|
  pd_dropna s := Ok (dropna (values s));
  is_datetime64_any_dtype s := Ok (datetime64_any (dtype s));
  is_bool_dtype s := Ok (bool_dtype (dtype s));
  is_integer_dtype s := Ok (integer_dtype (dtype s));
  is_float_dtype s := Ok (float_dtype (dtype s));
  is_string_dtype s := Ok (string_dtype (dtype s));
  astype_str_len_max s := Ok (str_len_max (values s))
|}.

End Pandas153.

(** What the design document calls a value that parses as an integer with no
    fractional component: an [int], a float equal to an integer, or a text
    made of digits with an optional sign. *)
Definition all_digits (s : string) : bool :=
  match s with
  | EmptyString => false
  | _ => forallb Py.isdecimal (list_ascii_of_string s)
  end.

Definition parses_as_integer (c : Cell) : bool :=
  match c with
  | CInt _ => true
  | CFloat f => (fnum f mod Z.pos (fden f) =? 0)
  | CStr (String c0 r) =>
      if (Ascii.eqb c0 "-" || Ascii.eqb c0 "+")%bool then all_digits r
      else all_digits (String c0 r)
  | _ => false
  end.

(** ** More string helpers: paths and replacement *)

Module PyStr.

Fixpoint contains (c : ascii) (s : string) : bool :=
  match s with
  | EmptyString => false
  | String d r => (Ascii.eqb c d || contains c r)%bool
  end.

(** [os.path.basename]: what follows the last slash. *)
Fixpoint basename (p : string) : string :=
  match p with
  | EmptyString => EmptyString
  | String c r =>
      if contains "/" r then basename r
      else if Ascii.eqb c "/" then r else p
  end.

(** The text before the last dot, when there is a dot. *)
Fixpoint cut_last_dot (p : string) : option string :=
  match p with
  | EmptyString => None
  | String c r =>
      match cut_last_dot r with
      | Some root => Some (String c root)
      | None => if Ascii.eqb c "." then Some EmptyString else None
      end
  end.

Fixpoint all_dots (s : string) : bool :=
  match s with
  | EmptyString => true
  | String c r => (Ascii.eqb c "." && all_dots r)%bool
  end.

(** [os.path.splitext(p)[0]] for a [p] without a slash: leading dots do not
    start an extension. *)
Definition splitext_root (p : string) : string :=
  match cut_last_dot p with
  | None => p
  | Some root => if all_dots root then p else root
  end.

(** [s.replace(old, new)] for a non-empty [old]: the occurrences are taken
    from left to right and do not overlap; [skip] counts the characters of
    the occurrence being replaced that are still to be dropped. *)
Fixpoint replace_from (old new : string) (skip : nat) (s : string) : string :=
  match s with
  | EmptyString => EmptyString
  | String c r =>
      match skip with
      | S k => replace_from old new k r
      | O =>
          if String.prefix old s
          then new +:+ replace_from old new (String.length old - 1) r
          else String c (replace_from old new 0 r)
      end
  end.

Definition replace (s old new : string) : string := replace_from old new 0 s.

(** [s.endswith(suffix)]. *)
Definition endswith (s suffix : string) : bool :=
  let n := String.length s in
  let k := String.length suffix in
  (Nat.leb k n && String.eqb (String.substring (n - k) k s) suffix)%bool.

End PyStr.

(** ** Remote services *)

(** The statements the Lambda sends to the Redshift Data API. Database,
    workgroup and role come from the process environment and are the same in
    every call. *)
Inductive Sql : Type :=
| SqlTableCount (table_name : string)
    (* count of information_schema.tables rows for public.table_name *)
| SqlCreateTable (table_name : string) (columns : list (string * InferredType))
    (* CREATE TABLE IF NOT EXISTS table_name (columns) *)
| SqlCopy (table_name bucket key : string)
    (* COPY table_name FROM s3://bucket/key ... CSV IGNOREHEADER 1
       FILLRECORD ACCEPTINVCHARS MAXERROR 100 *)
| SqlCountRows (table_name : string).
    (* row count of table_name *)

(** [describe_statement]: the status text and the optional error text. *)
Record StatementStatus : Type := {
  Status : string;
  Error : option string
}.

(** One field of a result row; [longValue] is the one the code reads. *)
Inductive Field : Type :=
| longValue (z : Z)
| stringValue (s : string)
| isNull.

Record StatementResult : Type := { Records : list (list Field) }.

(** [get_statement_result]: rows, the [ResourceNotFoundException] the
    waiter tolerates, or any other error. *)
Inductive FetchOutcome : Type :=
| Fetched (result : StatementResult)
| ResourceNotFound
| FetchError (msg : string).

Definition DataFrame : Type := list (string * Series).

(** What happened, in order. Every remote call is recorded with its answer. *)
Inductive Event : Type :=
| EvGetObject (bucket key : string) (r : Exc string)
| EvExecute (sql : Sql) (r : Exc string)
| EvDescribe (statement_id : string) (r : Exc StatementStatus)
| EvGetResult (statement_id : string) (r : FetchOutcome)
| EvSleep (seconds : Z)
| EvCopyObject (bucket source_key completed_key : string) (r : Exc unit)
| EvDeleteObject (bucket key : string) (r : Exc unit).

Definition Trace : Type := list Event.

(** The world the Lambda talks to. An answer may depend on the whole
    history of the run. *)
Record Env : Type := {
  (** [s3.get_object(...)['Body'].read().decode('utf-8')] *)
  get_object : Trace -> string -> string -> Exc string;
  (** [pd.read_csv(StringIO(csv_content))] *)
  read_csv : string -> Exc DataFrame;
  (** [execute_statement(...)['Id']] *)
  execute_statement : Trace -> Sql -> Exc string;
  describe_statement : Trace -> string -> Exc StatementStatus;
  get_statement_result : Trace -> string -> FetchOutcome;
  copy_object : Trace -> string -> string -> string -> Exc unit;
  delete_object : Trace -> string -> string -> Exc unit;
  (** the keys under [Contents] in the answer to the [i]-th
      [list_objects_v2(Bucket=bucket, Prefix='processed/')] *)
  list_objects_v2 : nat -> string -> Exc (list string);
  (** [time.time() - start_time] at the [i]-th test of the watcher's loop,
      rounded down: for a whole bound, [e < bound] and [floor e < bound]
      agree *)
  elapsed : nat -> Z
}.

(** ** Computations over the trace *)

Definition M (A : Type) : Type := Trace -> Exc A * Trace.

Definition ret {A : Type} (a : A) : M A := fun t => (Ok a, t).

Definition raise {A : Type} (msg : string) : M A := fun t => (Raise msg, t).

Definition bind {A B : Type} (m : M A) (k : A -> M B) : M B :=
  fun t =>
    match m t with
    | (Ok a, t') => k a t'
    | (Raise e, t') => (Raise e, t')
    end.

(** [try: m except Exception as e: h e]. *)
Definition try_except {A : Type} (m : M A) (h : string -> M A) : M A :=
  fun t =>
    match m t with
    | (Ok a, t') => (Ok a, t')
    | (Raise e, t') => h e t'
    end.

Definition lift {A : Type} (r : Exc A) : M A := fun t => (r, t).

Declare Scope m_scope.
Delimit Scope m_scope with M.
Notation "x <- m ;; k" := (bind m (fun x => k))
  (at level 100, m at next level, right associativity) : m_scope.
Notation "m ;;; k" := (bind m (fun _ => k))
  (at level 100, right associativity) : m_scope.

Section Lambda.
Context {pd : Pandas} (env : Env).
Local Open Scope m_scope.

(** *** The remote calls, each recorded on the trace *)

Definition s3_get_object (bucket key : string) : M string :=
  fun t => let r := get_object env t bucket key in
           (r, t ++ [EvGetObject bucket key r]).

(** [redshift_data.execute_statement(Database=..., WorkgroupName=...,
    Sql=sql)['Id']]; a failure to read the configuration from the process
    environment is a failure of the call. *)
Definition rs_execute_statement (sql : Sql) : M string :=
  fun t => let r := execute_statement env t sql in
           (r, t ++ [EvExecute sql r]).

Definition rs_describe_statement (statement_id : string) : M StatementStatus :=
  fun t => let r := describe_statement env t statement_id in
           (r, t ++ [EvDescribe statement_id r]).

(** [get_statement_result] inside its [try]: the tolerated exception gives
    [None], any other one propagates. *)
Definition rs_get_statement_result (statement_id : string)
  : M (option StatementResult) :=
  fun t => let r := get_statement_result env t statement_id in
           (match r with
            | Fetched result => Ok (Some result)
            | ResourceNotFound => Ok None
            | FetchError msg => Raise msg
            end, t ++ [EvGetResult statement_id r]).

Definition time_sleep (seconds : Z) : M unit :=
  fun t => (Ok tt, t ++ [EvSleep seconds]).

Definition s3_copy_object (bucket source_key completed_key : string) : M unit :=
  fun t => let r := copy_object env t bucket source_key completed_key in
           (r, t ++ [EvCopyObject bucket source_key completed_key r]).

Definition s3_delete_object (bucket key : string) : M unit :=
  fun t => let r := delete_object env t bucket key in
           (r, t ++ [EvDeleteObject bucket key r]).

(** *** AsyncOperationWaiter *)

Definition max_retries : nat := 60.

(** The [while retry_count < max_retries] loop, by the number of polls that
    remain. *)
Fixpoint wait_loop (remaining : nat) (statement_id : string)
  (expect_results : bool) : M (option StatementResult) :=
  match remaining with
  | O => raise "Query timed out waiting for completion"
  | S n =>
      status_response <- rs_describe_statement statement_id ;;
      let status := Status status_response in
      if String.eqb status "FINISHED" then
        if expect_results then rs_get_statement_result statement_id
        else ret None
      else if (String.eqb status "FAILED" || String.eqb status "ABORTED")%bool then
        let error_message :=
          default "No error message provided" (Error status_response) in
        raise ("Query failed with status " +:+ status +:+ ": " +:+ error_message)
      else
        time_sleep 5 ;;;
        wait_loop n statement_id expect_results
  end.

Definition wait_for_query_completion (statement_id : string)
  (expect_results : bool) : M (option StatementResult) :=
  wait_loop max_retries statement_id expect_results.

(** *** SchemaRegistry *)

(** [int(result['Records'][0][0]['longValue'])]. *)
Definition first_long (result : StatementResult) : Exc Z :=
  match Records result with
  | (longValue z :: _) :: _ => Ok z
  | (_ :: _) :: _ => Raise "'longValue'"
  | [] :: _ => Raise "list index out of range"
  | [] => Raise "list index out of range"
  end.

(** [result and result.get('Records')]. *)
Definition has_records (result : option StatementResult) : bool :=
  match result with
  | Some r => match Records r with [] => false | _ :: _ => true end
  | None => false
  end.

(** The [try] block of [check_table_exists]. *)
Definition check_table_query (table_name : string) : M bool :=
  response_id <- rs_execute_statement (SqlTableCount table_name) ;;
  result <- wait_for_query_completion response_id true ;;
  match result with
  | Some r =>
      if has_records result then
        count <- lift (first_long r) ;;
        ret (0 <? count)
      else ret false
  | None => ret false
  end.

(** [except Exception: return False]. *)
Definition check_table_exists (table_name : string) : M bool :=
  try_except (check_table_query table_name) (fun _ => ret false).

(** Assignment into a dict that keeps the position of a key already there. *)
Fixpoint dict_set {V : Type} (k : string) (v : V) (d : list (string * V))
  : list (string * V) :=
  match d with
  | [] => [(k, v)]
  | (k', v') :: r =>
      if String.eqb k k' then (k', v) :: r else (k', v') :: dict_set k v r
  end.

(** [{clean_column_name(col): detect_data_type(df[col]) for col in df.columns}]. *)
Definition column_types (df : DataFrame) : list (string * InferredType) :=
  fold_left
    (fun d col => dict_set (clean_column_name (fst col))
                           (detect_data_type (snd col)) d)
    df [].

Definition create_table (table_name : string) (df : DataFrame) : M unit :=
  try_except
    (let columns := column_types df in
     response_id <- rs_execute_statement (SqlCreateTable table_name columns) ;;
     wait_for_query_completion response_id false ;;;
     ret tt)
    (fun e => raise e).

(** *** LoadCoordinator *)

Definition load_data_to_redshift (table_name bucket key : string) : M unit :=
  try_except
    (copy_id <- rs_execute_statement (SqlCopy table_name bucket key) ;;
     wait_for_query_completion copy_id false ;;;
     verify_id <- rs_execute_statement (SqlCountRows table_name) ;;
     result <- wait_for_query_completion verify_id true ;;
     match result with
     | Some r =>
         if has_records result then
           row_count <- lift (first_long r) ;;
           if row_count =? 0
           then raise ("No data was loaded into " +:+ table_name)
           else ret tt
         else raise "Could not verify data load"
     | None => raise "Could not verify data load"
     end)
    (fun e => raise e).

Definition completed_key_of (source_key : string) : string :=
  PyStr.replace source_key "processed/" "completed/".

Definition move_to_completed (bucket source_key : string) : M unit :=
  try_except
    (let completed_key := completed_key_of source_key in
     s3_copy_object bucket source_key completed_key ;;;
     s3_delete_object bucket source_key ;;;
     ret tt)
    (fun e => raise e).

Definition table_name_of (key : string) : string :=
  clean_column_name (PyStr.splitext_root (PyStr.basename key)).

(** The body of the [try] inside the [for key in files_to_process] loop. *)
Definition process_file (bucket key : string) : M unit :=
  csv_content <- s3_get_object bucket key ;;
  df <- lift (read_csv env csv_content) ;;
  let table_name := table_name_of key in
  table_exists <- check_table_exists table_name ;;
  (if negb table_exists then create_table table_name df else ret tt) ;;;
  load_data_to_redshift table_name bucket key ;;;
  move_to_completed bucket key.

(** The two lists the handler accumulates, and the trace. *)
Record Progress : Type := {
  processed_files : list string;
  failed_files : list (string * string);
  history : Trace
}.

(** One iteration of the loop: the [except] clause of the loop turns any
    error into a failure entry and goes on. *)
Definition file_step (bucket : string) (st : Progress) (key : string)
  : Progress :=
  match process_file bucket key (history st) with
  | (Ok _, t') =>
      {| processed_files := processed_files st ++ [key];
         failed_files := failed_files st;
         history := t' |}
  | (Raise e, t') =>
      {| processed_files := processed_files st;
         failed_files := failed_files st ++ [(key, e)];
         history := t' |}
  end.

Definition process_files (bucket : string) (files_to_process : list string)
  (st : Progress) : Progress :=
  fold_left (file_step bucket) files_to_process st.

(** *** StabilityWatcher *)

(** [list_processed_files]: the [.csv] keys, or nothing on any error. *)
Definition list_processed_files (i : nat) (bucket : string) : list string :=
  match list_objects_v2 env i bucket with
  | Ok keys => List.filter (fun k => PyStr.endswith (Py.lower k) ".csv") keys
  | Raise _ => []
  end.

Record WatchState : Type := {
  previous_files : gset string;
  stable_count : Z
}.

Inductive WatchStep : Type :=
| Return (files : list string)
| Continue (st : WatchState).

(** The body of the watcher's loop for one listing. *)
Definition watch_poll (current_files : gset string) (st : WatchState)
  : WatchStep :=
  if decide (current_files = previous_files st) then
    let stable_count := stable_count st + 1 in
    if 12 <=? stable_count then Return (elements current_files)
    else Continue {| previous_files := previous_files st;
                     stable_count := stable_count |}
  else Continue {| previous_files := current_files; stable_count := 0 |}.

(** The watcher's loop from its [i]-th test on; [fuel] bounds the number
    of tests. *)
Fixpoint watch_loop (bucket : string) (max_wait_time : Z) (fuel i : nat)
  (st : WatchState) : option (list string) :=
  match fuel with
  | O => None
  | S fuel' =>
      if elapsed env i <? max_wait_time then
        let current_files := list_to_set (list_processed_files i bucket) in
        match watch_poll current_files st with
        | Return files => Some files
        | Continue st' => watch_loop bucket max_wait_time fuel' (S i) st'
        end
      else Some (elements (previous_files st))
  end.

Definition watch_init : WatchState :=
  {| previous_files := ∅; stable_count := 0 |}.

Definition wait_for_file_processing (bucket : string) (max_wait_time : Z)
  (fuel : nat) : option (list string) :=
  watch_loop bucket max_wait_time fuel 0 watch_init.

(** *** The handler *)

(** One entry of [event['Records']]. *)
Record S3Record : Type := { bucket_name : string; object_key : string }.

Inductive Response : Type :=
| Response200 (processed : list string) (failed : list (string * string))
| Response500 (body : string).

Definition lambda_handler (event : list S3Record) (fuel : nat)
  : option (Response * Trace) :=
  match event with
  | [] => Some (Response500 "Error processing files: list index out of range", [])
  | record :: _ =>
      let bucket := bucket_name record in
      match wait_for_file_processing bucket 300 fuel with
      | None => None
      | Some files_to_process =>
          let st := process_files bucket files_to_process
                      {| processed_files := []; failed_files := [];
                         history := [] |} in
          Some (Response200 (processed_files st) (failed_files st), history st)
      end
  end.

End Lambda.

(** * Vocabulary of the properties *)

(** ** Type inference *)

(** A column of whole numbers with one missing cell: pandas stores it as
    float64. *)
Definition whole_numbers_with_gap : Series :=
  {| dtype := np_float 64;
     values := [CFloat {| fnum := 1; fden := 1; frepr := "1.0" |};
                CNull NaN;
                CFloat {| fnum := 2; fden := 1; frepr := "2.0" |}] |}.

(** Whole numbers kept as text. *)
Definition whole_numbers_as_text : Series :=
  {| dtype := np_object; values := [CStr "1"; CStr "25"; CStr "-3"] |}.

(** The string length of a value as the design document counts it: the
    number of characters of a text, and of the written form of a value that
    is not a text. A missing value has none. *)
Definition observed_length (c : Cell) : Z :=
  match c with
  | CStr text | CObj text => Z.of_nat (String.length text)
  | CInt z => Z.of_nat (String.length (Py.str_of_int z))
  | CBool true => 4
  | CBool false => 5
  | CFloat f => Z.of_nat (String.length (frepr f))
  | CNull _ => 0
  end.

(** ** The statement waiter *)

(** What one answer of [describe_statement] means to the waiter. *)
Inductive Verdict : Type := VPending | VFinished | VFailed | VBroken.

Definition verdict (r : Exc StatementStatus) : Verdict :=
  match r with
  | Raise _ => VBroken
  | Ok st =>
      if String.eqb (Status st) "FINISHED" then VFinished
      else if (String.eqb (Status st) "FAILED"
               || String.eqb (Status st) "ABORTED")%bool then VFailed
      else VPending
  end.

Section Waiter.
Variables (env : Env) (statement_id : string) (expect_results : bool)
  (t0 : Trace).

(** The trace when the poll number [k] (from 0) is made, every earlier poll
    having found the statement still running. *)
Fixpoint trace_at (k : nat) : Trace :=
  match k with
  | O => t0
  | S j =>
      (trace_at j
         ++ [EvDescribe statement_id
               (describe_statement env (trace_at j) statement_id)])
        ++ [EvSleep 5]
  end.

(** The answer to poll number [k]. *)
Definition answer (k : nat) : Exc StatementStatus :=
  describe_statement env (trace_at k) statement_id.

(** The answer to the fetch that follows poll number [k]. *)
Definition fetch_after (k : nat) : FetchOutcome :=
  get_statement_result env
    (trace_at k ++ [EvDescribe statement_id (answer k)]) statement_id.

Definition fetched (f : FetchOutcome) : Exc (option StatementResult) :=
  match f with
  | Fetched result => Ok (Some result)
  | ResourceNotFound => Ok None
  | FetchError msg => Raise msg
  end.

(** A poll after which the waiter raises. *)
Definition fatal (k : nat) : Prop :=
  verdict (answer k) = VFailed
  \/ verdict (answer k) = VBroken
  \/ (verdict (answer k) = VFinished /\ expect_results = true
      /\ exists msg, fetch_after k = FetchError msg).

End Waiter.

(** ** Scenarios *)

Module Scenario.

Definition finished : StatementStatus :=
  {| Status := "FINISHED"; Error := None |}.

Definition one_row (n : Z) : StatementResult :=
  {| Records := [[longValue n]] |}.

Definition sales_frame : DataFrame :=
  [("id", {| dtype := np_int 64; values := [CInt 1; CInt 2] |});
   ("Total $", {| dtype := np_float 64;
                  values := [CFloat {| fnum := 5; fden := 2; frepr := "2.5" |};
                             CNull NaN] |})].

(** Every service answers at once and favourably; the bucket holds one file;
    each turn of the watcher's loop takes five seconds. *)
Definition steady : Env :=
  {| get_object _ _ _ := Ok "id,Total $";
     read_csv _ := Ok sales_frame;
     execute_statement _ _ := Ok "stmt-1";
     describe_statement _ _ := Ok finished;
     get_statement_result _ _ := Fetched (one_row 200);
     copy_object _ _ _ _ := Ok tt;
     delete_object _ _ _ := Ok tt;
     list_objects_v2 _ _ := Ok ["processed/sales.csv"];
     elapsed i := 5 * Z.of_nat i |}.

Definition with_describe (f : Trace -> string -> Exc StatementStatus)
  (e : Env) : Env :=
  {| get_object := get_object e; read_csv := read_csv e;
     execute_statement := execute_statement e;
     describe_statement := f;
     get_statement_result := get_statement_result e;
     copy_object := copy_object e; delete_object := delete_object e;
     list_objects_v2 := list_objects_v2 e; elapsed := elapsed e |}.

Definition with_result (f : Trace -> string -> FetchOutcome) (e : Env) : Env :=
  {| get_object := get_object e; read_csv := read_csv e;
     execute_statement := execute_statement e;
     describe_statement := describe_statement e;
     get_statement_result := f;
     copy_object := copy_object e; delete_object := delete_object e;
     list_objects_v2 := list_objects_v2 e; elapsed := elapsed e |}.

Definition with_execute (f : Trace -> Sql -> Exc string) (e : Env) : Env :=
  {| get_object := get_object e; read_csv := read_csv e;
     execute_statement := f;
     describe_statement := describe_statement e;
     get_statement_result := get_statement_result e;
     copy_object := copy_object e; delete_object := delete_object e;
     list_objects_v2 := list_objects_v2 e; elapsed := elapsed e |}.

(** The statement finishes, but fetching its result is throttled. *)
Definition throttled_fetch : Env :=
  with_result (fun _ _ => FetchError "ThrottlingException") steady.

(** The load finishes, the table stays empty. *)
Definition empty_load : Env :=
  with_result (fun _ _ => Fetched (one_row 0)) steady.

(** The metadata query of the existence check fails; every other statement
    finishes. *)
Definition broken_catalog : Env :=
  with_execute
    (fun _ sql => match sql with
                  | SqlTableCount _ => Raise "catalog unavailable"
                  | _ => Ok "stmt-1"
                  end) steady.

(** Three files wait in the bucket, next to one that is not a CSV: a good
    one, one that loads no row, and one that cannot be parsed. Statement ids
    tell the statements apart; no table exists yet. *)
Definition three_files : Env :=
  {| get_object _ _ key := Ok key;
     read_csv csv_content :=
       if String.eqb csv_content "processed/bad.csv"
       then Raise "Error tokenizing data"
       else Ok sales_frame;
     execute_statement _ sql :=
       Ok (match sql with
           | SqlTableCount t => "exists-" +:+ t
           | SqlCreateTable t _ => "create-" +:+ t
           | SqlCopy t _ _ => "copy-" +:+ t
           | SqlCountRows t => "rows-" +:+ t
           end);
     describe_statement _ _ := Ok finished;
     get_statement_result _ statement_id :=
       if String.eqb statement_id "rows-sales" then Fetched (one_row 200)
       else Fetched (one_row 0);
     copy_object _ _ _ _ := Ok tt;
     delete_object _ _ _ := Ok tt;
     list_objects_v2 _ _ :=
       Ok ["processed/sales.csv"; "processed/empty.csv"; "processed/bad.csv";
           "processed/notes.txt"];
     elapsed i := 5 * Z.of_nat i |}.

Definition sales_event : list S3Record :=
  [{| bucket_name := "uploads"; object_key := "processed/sales.csv" |}].

End Scenario.

(** ** Traces *)

(** A computation that only appends events, all of them satisfying [P]. *)
Definition emits {A : Type} (P : Event -> Prop) (m : M A) : Prop :=
  forall t, exists evs, snd (m t) = t ++ evs /\ Forall P evs.

(** The events of a statement: sending it, polling it, fetching its rows. *)
Definition query_event (e : Event) : Prop :=
  match e with
  | EvExecute _ _ | EvDescribe _ _ | EvGetResult _ _ | EvSleep _ => True
  | _ => False
  end.

(** The events that touch the file in the bucket. *)
Definition relocation (e : Event) : Prop :=
  match e with
  | EvCopyObject _ _ _ _ | EvDeleteObject _ _ _ => True
  | _ => False
  end.

(** The row count of [table_name] was asked for and came back, not zero. *)
Definition verified_in (table_name : string) (evs : list Event) : Prop :=
  exists verify_id result n a b c,
    evs = a ++ EvExecute (SqlCountRows table_name) (Ok verify_id)
            :: b ++ EvGetResult verify_id (Fetched result) :: c
    /\ first_long result = Ok n /\ n <> 0.

(** The file was copied to its completed key, successfully. *)
Definition copied_in (bucket key : string) (evs : list Event) : Prop :=
  In (EvCopyObject bucket key (completed_key_of key) (Ok tt)) evs.

(** ** The run's log *)

Section Log.
Context {pd : Pandas} (env : Env).

(** What happens to each file of the batch, in order: every file is
    attempted from the trace its predecessors left. *)
Fixpoint outcomes (bucket : string) (keys : list string) (t : Trace)
  : list (string * Exc unit) :=
  match keys with
  | [] => []
  | key :: rest =>
      let r := process_file env bucket key t in
      (key, fst r) :: outcomes bucket rest (snd r)
  end.

Fixpoint successes (log : list (string * Exc unit)) : list string :=
  match log with
  | [] => []
  | (key, Ok _) :: rest => key :: successes rest
  | (_, Raise _) :: rest => successes rest
  end.

Fixpoint failures (log : list (string * Exc unit)) : list (string * string) :=
  match log with
  | [] => []
  | (_, Ok _) :: rest => failures rest
  | (key, Raise e) :: rest => (key, e) :: failures rest
  end.

End Log.

(** ** What makes a file fail *)

Section FileErrors.
Context {pd : Pandas} (env : Env).

(** From the trace [t] the table of the file is in place at the trace [t']:
    the existence check answered "present", or it answered "absent" and the
    table was created. *)
Inductive table_ready (table_name : string) (df : DataFrame) (t t' : Trace)
  : Prop :=
| table_found :
    check_table_exists env table_name t = (Ok true, t') ->
    table_ready table_name df t t'
| table_created (t1 : Trace) :
    check_table_exists env table_name t = (Ok false, t1) ->
    create_table env table_name df t1 = (Ok tt, t') ->
    table_ready table_name df t t'.

(** The step that raised [e] for the file [key] taken up at the trace [t]:
    fetching it, parsing it, creating its table, loading it (the row count
    included) or moving it. The existence check is not one of them. *)
Inductive file_error (bucket key : string) (t : Trace) (e : string) : Prop :=
| fetch_error :
    fst (s3_get_object env bucket key t) = Raise e ->
    file_error bucket key t e
| parse_error (csv_content : string) (t1 : Trace) :
    s3_get_object env bucket key t = (Ok csv_content, t1) ->
    read_csv env csv_content = Raise e ->
    file_error bucket key t e
| create_error (csv_content : string) (t1 : Trace) (df : DataFrame)
    (t2 : Trace) :
    s3_get_object env bucket key t = (Ok csv_content, t1) ->
    read_csv env csv_content = Ok df ->
    check_table_exists env (table_name_of key) t1 = (Ok false, t2) ->
    fst (create_table env (table_name_of key) df t2) = Raise e ->
    file_error bucket key t e
| load_error (csv_content : string) (t1 : Trace) (df : DataFrame)
    (t3 : Trace) :
    s3_get_object env bucket key t = (Ok csv_content, t1) ->
    read_csv env csv_content = Ok df ->
    table_ready (table_name_of key) df t1 t3 ->
    fst (load_data_to_redshift env (table_name_of key) bucket key t3)
    = Raise e ->
    file_error bucket key t e
| move_error (csv_content : string) (t1 : Trace) (df : DataFrame)
    (t3 t4 : Trace) :
    s3_get_object env bucket key t = (Ok csv_content, t1) ->
    read_csv env csv_content = Ok df ->
    table_ready (table_name_of key) df t1 t3 ->
    load_data_to_redshift env (table_name_of key) bucket key t3
    = (Ok tt, t4) ->
    fst (move_to_completed env bucket key t4) = Raise e ->
    file_error bucket key t e.

(** The traces at which the files of a batch are taken up, one after the
    other. *)
Fixpoint taken_up (bucket : string) (keys : list string) (t : Trace)
  : list (string * Trace) :=
  match keys with
  | [] => []
  | key :: rest =>
      (key, t) :: taken_up bucket rest (snd (process_file env bucket key t))
  end.

End FileErrors.

(** ** Quiescence of the listing *)

Module Watch.

Section Quiescence.
Variables (env : Env) (bucket : string).

(** The set the watcher builds from its [i]-th listing (from 0). *)
Definition seen (i : nat) : gset string :=
  list_to_set (list_processed_files env i bucket).

(** The listing before the [i]-th one; before the first one, the empty set
    the watcher starts from. *)
Definition remembered (i : nat) : gset string :=
  match i with
  | O => ∅
  | S j => seen j
  end.

Definition unchanged (i : nat) : Prop := seen i = remembered i.

(** The number of consecutive unchanged listings just before the [i]-th. *)
Fixpoint run (i : nat) : nat :=
  match i with
  | O => O
  | S j => if decide (seen j = remembered j) then S (run j) else O
  end.

Definition watch_state_at (i : nat) : WatchState :=
  {| previous_files := remembered i; stable_count := Z.of_nat (run i) |}.

(** The listings number [n - 11] to [n], twelve in a row, are each equal to
    the one before. *)
Definition quiescent (n : nat) : Prop :=
  (11 <= n)%nat /\ forall j, (n - 11 <= j <= n)%nat -> unchanged j.

(** The watcher returns [files] in the turn number [n] of its loop: [n]
    turns are not enough, [n + 1] are. *)
Definition returns_at (max_wait_time : Z) (n : nat) (files : list string)
  : Prop :=
  watch_loop env bucket max_wait_time n 0 watch_init = None
  /\ watch_loop env bucket max_wait_time (S n) 0 watch_init = Some files.

End Quiescence.

End Watch.

(** * Vocabulary of the further properties *)

(** ** Keys *)

(** [old] occurs somewhere in [s]. *)
Fixpoint occurs (old s : string) : bool :=
  match s with
  | EmptyString => String.prefix old s
  | String _ r => (String.prefix old s || occurs old r)%bool
  end.

(** ** Measures of a trace *)

(** The statements sent, in order. *)
Fixpoint sent (evs : list Event) : list Sql :=
  match evs with
  | [] => []
  | EvExecute sql _ :: rest => sql :: sent rest
  | _ :: rest => sent rest
  end.

(** The number of status polls. *)
Fixpoint polls (evs : list Event) : nat :=
  match evs with
  | [] => O
  | EvDescribe _ _ :: rest => S (polls rest)
  | _ :: rest => polls rest
  end.

(** The seconds slept. *)
Fixpoint slept (evs : list Event) : Z :=
  match evs with
  | [] => 0
  | EvSleep seconds :: rest => seconds + slept rest
  | _ :: rest => slept rest
  end.

(** The events of waiting for the statement [statement_id]. *)
Definition poll_of (statement_id : string) (e : Event) : Prop :=
  match e with
  | EvDescribe id _ | EvGetResult id _ => id = statement_id
  | EvSleep seconds => seconds = 5
  | _ => False
  end.

(** An event of waiting for some statement. *)
Definition poll_event (e : Event) : Prop :=
  match e with
  | EvDescribe _ _ | EvGetResult _ _ | EvSleep _ => True
  | _ => False
  end.

(** A computation that only appends events and sleeps at most [ok] seconds
    when it returns, at most [err] seconds when it raises. *)
Definition sleeps_at_most {A : Type} (ok err : Z) (m : M A) : Prop :=
  forall t, exists evs,
    snd (m t) = t ++ evs
    /\ 0 <= slept evs
    /\ slept evs <= (if is_ok (fst (m t)) then ok else err).

(** ** Further scenarios *)

Module Cases.

(** Two headers that differ only in punctuation. *)
Definition clashing_frame : DataFrame :=
  [("Total $", {| dtype := np_float 64;
                  values := [CFloat {| fnum := 5; fden := 2; frepr := "2.5" |}] |});
   ("id", {| dtype := np_int 64; values := [CInt 1] |});
   ("total__", {| dtype := np_object; values := [CStr "n/a"] |})].

(** One very long text. *)
Definition long_text_column : Series :=
  {| dtype := np_object;
     values := [CObj (String.concat "" (repeat "0123456789" 4000))] |}.

(** A column of remarks: two short texts, a gap, and one text of 150
    characters. *)
Definition remarks_column : Series :=
  {| dtype := np_object;
     values :=
       [CStr "ok"; CNull NaN; CStr "late";
        CStr ("Delivered to the side entrance after two failed attempts; "
              +:+ "the customer asked for the invoice to be sent again by "
              +:+ "post and by e-mail, marked as urgent.")] |}.

Definition started : StatementStatus :=
  {| Status := "STARTED"; Error := None |}.

Definition rejected_status : StatementStatus :=
  {| Status := "FAILED"; Error := Some "Load into table 'sales' failed" |}.

(** Every statement is rejected by the store. *)
Definition rejected : Env :=
  Scenario.with_describe (fun _ _ => Ok rejected_status) Scenario.steady.

(** Statements finish, but leave no result to fetch. *)
Definition no_result : Env :=
  Scenario.with_result (fun _ _ => ResourceNotFound) Scenario.steady.

(** The object can be copied but not deleted. *)
Definition undeletable : Env :=
  {| get_object := get_object Scenario.steady;
     read_csv := read_csv Scenario.steady;
     execute_statement := execute_statement Scenario.steady;
     describe_statement := describe_statement Scenario.steady;
     get_statement_result := get_statement_result Scenario.steady;
     copy_object := copy_object Scenario.steady;
     delete_object _ _ _ := Raise "AccessDenied";
     list_objects_v2 := list_objects_v2 Scenario.steady;
     elapsed := elapsed Scenario.steady |}.

(** A slow bucket: a turn of the watcher's loop takes 100 seconds, and the
    third listing fails. *)
Definition flaky_listing : Env :=
  {| get_object := get_object Scenario.steady;
     read_csv := read_csv Scenario.steady;
     execute_statement := execute_statement Scenario.steady;
     describe_statement := describe_statement Scenario.steady;
     get_statement_result := get_statement_result Scenario.steady;
     copy_object := copy_object Scenario.steady;
     delete_object := delete_object Scenario.steady;
     list_objects_v2 i _ :=
       if Nat.ltb i 2 then Ok ["processed/sales.csv"] else Raise "SlowDown";
     elapsed i := 100 * Z.of_nat i |}.

(** No statement ever leaves the running state. *)
Definition stuck : Env :=
  Scenario.with_describe (fun _ _ => Ok started) Scenario.steady.

(** The polls of [statement_id] made so far. *)
Fixpoint polled (statement_id : string) (t : Trace) : nat :=
  match t with
  | [] => O
  | EvDescribe id _ :: rest =>
      if String.eqb id statement_id then S (polled statement_id rest)
      else polled statement_id rest
  | _ :: rest => polled statement_id rest
  end.

(** The slowest file: the existence query and the row count never end, the
    CREATE and the COPY finish at their sixtieth poll. *)
Definition slowest : Env :=
  {| get_object := get_object Scenario.three_files;
     read_csv := read_csv Scenario.three_files;
     execute_statement := execute_statement Scenario.three_files;
     describe_statement t statement_id :=
       if ((String.eqb statement_id "create-sales"
            || String.eqb statement_id "copy-sales")
           && Nat.leb 59 (polled statement_id t))%bool
       then Ok Scenario.finished else Ok started;
     get_statement_result := get_statement_result Scenario.three_files;
     copy_object := copy_object Scenario.three_files;
     delete_object := delete_object Scenario.three_files;
     list_objects_v2 := list_objects_v2 Scenario.three_files;
     elapsed := elapsed Scenario.three_files |}.

End Cases.

(** ** What may be in a batch *)

(** A key with the CSV extension, in any case, that some listing of the
    bucket reported. *)
Definition listed_csv (env : Env) (bucket key : string) : Prop :=
  PyStr.endswith (Py.lower key) ".csv" = true
  /\ exists i keys, list_objects_v2 env i bucket = Ok keys /\ In key keys.

(** A listing that shows no CSV key: it failed, or nothing in it has the
    extension. *)
Definition shows_no_csv (answer : Exc (list string)) : Prop :=
  match answer with
  | Raise _ => True
  | Ok keys => Forall (fun k => PyStr.endswith (Py.lower k) ".csv" = false) keys
  end.
(** * Properties *)

(** ** Sanity checks of the string helpers *)

Example clean_column_name_examples :
  clean_column_name "Total $" = "total__"
  /\ clean_column_name "2024 Sales" = "col_2024_sales"
  /\ clean_column_name "" = "unnamed_column".
Proof. repeat split; reflexivity. Qed.

Example path_examples :
  PyStr.basename "processed/x.csv" = "x.csv"
  /\ PyStr.basename "a/b/" = ""
  /\ PyStr.splitext_root "a.b.csv" = "a.b"
  /\ PyStr.splitext_root ".csv" = ".csv"
  /\ PyStr.splitext_root "...a.csv" = "...a"
  /\ PyStr.replace "aprocessed/processed/" "processed/" "completed/"
     = "acompleted/completed/"
  /\ PyStr.endswith (Py.lower "Sheet1.CSV") ".csv" = true
  /\ PyStr.endswith "csv" ".csv" = false.
Proof. repeat split; reflexivity. Qed.

(** ** Sanitisation *)

Section Sanitiser.
Local Open Scope N_scope.

Local Abbreviation underscored :=
  (fun c : N => if Ucs4.isalnum c then c else 0x5F).

(** The sanitiser on names outside Latin-1: the capital I with a dot, a
    final sigma, a leading Arabic-Indic digit, a Roman numeral. *)
Example clean_column_name_unicode_examples :
  Ucs4.clean_column_name [0x130; 0x6C] = [0x69; 0x5F; 0x6C]
  /\ Ucs4.clean_column_name [0x39F; 0x394; 0x39F; 0x3A3; 0x20; 0x3A3]
     = [0x3BF; 0x3B4; 0x3BF; 0x3C2; 0x5F; 0x3C3]
  /\ Ucs4.clean_column_name [0x663; 0x20; 0x623; 0x634; 0x647; 0x631]
     = Ucs4.of_string "col_" ++ [0x663; 0x5F; 0x623; 0x634; 0x647; 0x631]
  /\ Ucs4.clean_column_name [0x2167; 0x20; 0x78] = [0x2177; 0x5F; 0x78].
Proof. vm_compute. repeat split; reflexivity. Qed.

(** Every code point the table maps is among the points of its runs. *)
Lemma in_run_points (c : N) (r : N * N * N * N) :
  Ucs4.in_run c r = true -> In c (Ucs4.run_points r).
Proof.
  destruct r as [[[first last] step] image].
  unfold Ucs4.in_run, Ucs4.run_points.
  intros H. apply andb_prop in H as [H Hm]. apply andb_prop in H as [Hf Hl].
  apply N.leb_le in Hf, Hl. apply N.eqb_eq in Hm.
  apply in_map_iff. exists (N.to_nat ((c - first) / step)). split.
  - rewrite N2Nat.id.
    destruct (N.eq_dec step 0) as [->|Hs].
    + rewrite N.mod_0_r in Hm. rewrite N.mul_0_l. lia.
    + pose proof (N.div_mod (c - first) step Hs) as Hd. rewrite Hm in Hd.
      rewrite N.add_0_r in Hd. rewrite <- Hd. clear Hd Hm. lia.
  - apply in_seq. split; [apply Nat.le_0_l|].
    assert (Hq : (c - first) / step <= (last - first) / step).
    { apply N.Div0.div_le_mono. clear Hm. lia. }
    revert Hq. generalize ((c - first) / step), ((last - first) / step).
    intros a b Hab. lia.
Qed.

Lemma find_in_domain (c : N) r :
  find (Ucs4.in_run c) Ucs4.lower_table = Some r -> In c Ucs4.lower_domain.
Proof.
  intros H. apply find_some in H as [Hin Hr].
  apply in_flat_map. exists r. split; [exact Hin|]. now apply in_run_points.
Qed.

(** Lower-casing twice is lower-casing once: what the table maps a code
    point to, it maps nowhere else. *)
Lemma lower_domain_fixed :
  forallb (fun c => Ucs4.fixed (Ucs4.to_lower c)) Ucs4.lower_domain = true.
Proof. vm_compute. reflexivity. Qed.

Lemma to_lower_fixed (c : N) :
  Ucs4.fixed (Ucs4.to_lower c) = true
  \/ Ucs4.to_lower c = c /\ find (Ucs4.in_run c) Ucs4.lower_table = None.
Proof.
  destruct (find (Ucs4.in_run c) Ucs4.lower_table) as [r|] eqn:Hf.
  - left. pose proof lower_domain_fixed as H.
    rewrite forallb_forall in H. apply H. eapply find_in_domain, Hf.
  - right. unfold Ucs4.to_lower. now rewrite Hf.
Qed.

Lemma sigma_mapped : find (Ucs4.in_run 0x3A3) Ucs4.lower_table <> None.
Proof. vm_compute. discriminate. Qed.

Lemma to_lower_full_fixed (c : N) :
  Forall (fun d => Ucs4.fixed d = true) (Ucs4.to_lower_full c).
Proof.
  unfold Ucs4.to_lower_full. destruct (N.eqb_spec c 0x130) as [->|Hc].
  - repeat constructor.
  - constructor; [|constructor].
    destruct (to_lower_fixed c) as [H|[H Hf]]; [exact H|].
    rewrite H. unfold Ucs4.fixed. rewrite H, N.eqb_refl.
    destruct (N.eqb_spec c 0x130) as [|_]; [contradiction|].
    destruct (N.eqb_spec c 0x3A3) as [->|_]; [|reflexivity].
      now destruct sigma_mapped.
Qed.

Lemma fixed_lower_full (c : N) :
  Ucs4.fixed c = true -> (c =? 0x3A3) = false /\ Ucs4.to_lower_full c = [c].
Proof.
  unfold Ucs4.fixed, Ucs4.to_lower_full. intros H.
  apply andb_prop in H as [H H3]. apply andb_prop in H as [H1 H2].
  apply negb_true_iff in H1, H2. apply N.eqb_eq in H3.
  now rewrite H1, H3.
Qed.

Lemma lower_from_fixed (before s : list N) :
  Forall (fun d => Ucs4.fixed d = true) (Ucs4.lower_from before s).
Proof.
  revert before. induction s as [|c after IH]; intros before; cbn [Ucs4.lower_from].
  - constructor.
  - apply Forall_app. split; [|apply IH].
    destruct (c =? 0x3A3); [|apply to_lower_full_fixed].
    destruct (Ucs4.final_sigma before after); repeat constructor.
Qed.

Lemma lower_from_id (before s : list N) :
  Forall (fun d => Ucs4.fixed d = true) s -> Ucs4.lower_from before s = s.
Proof.
  intros H. revert before. induction H as [|c after Hc _ IH]; intros before;
    cbn [Ucs4.lower_from]; [reflexivity|].
  destruct (fixed_lower_full c Hc) as [-> ->]. now rewrite IH.
Qed.

Lemma lower_from_nonempty (before : list N) (c : N) (after : list N) :
  Ucs4.lower_from before (c :: after) <> [].
Proof.
  cbn [Ucs4.lower_from]. destruct (c =? 0x3A3); [discriminate|].
  unfold Ucs4.to_lower_full. destruct (c =? 0x130); discriminate.
Qed.

Lemma underscored_fixed (s : list N) :
  Forall (fun d => Ucs4.fixed d = true) s ->
  Forall (fun d => Ucs4.fixed d = true) (map underscored s).
Proof.
  induction 1 as [|c r Hc _ IH]; cbn [map]; constructor; [|exact IH].
  destruct (Ucs4.isalnum c); [exact Hc | reflexivity].
Qed.

Lemma underscored_again (s : list N) :
  map underscored (map underscored s) = map underscored s.
Proof.
  induction s as [|c r IH]; cbn [map]; [reflexivity|]. rewrite IH. f_equal.
  destruct (Ucs4.isalnum c) eqn:Hc; [now rewrite Hc | now destruct (Ucs4.isalnum 0x5F)].
Qed.

Lemma underscored_identifier (s : list N) :
  Forall (fun c => Ucs4.isalnum c = true \/ c = 0x5F) (map underscored s).
Proof.
  induction s as [|c r IH]; cbn [map]; constructor; [|exact IH].
  destruct (Ucs4.isalnum c) eqn:Hc; auto.
Qed.

Lemma col_prefix_clean :
  map underscored (Ucs4.of_string "col_") = Ucs4.of_string "col_"
  /\ Forall (fun d => Ucs4.fixed d = true) (Ucs4.of_string "col_")
  /\ Forall (fun c => Ucs4.isalnum c = true \/ c = 0x5F) (Ucs4.of_string "col_")
  /\ (forall c r, Ucs4.of_string "col_" = c :: r -> Ucs4.isdigit c = false).
Proof.
  split; [vm_compute; reflexivity|]. split; [repeat constructor|].
  split; [repeat constructor; left; vm_compute; reflexivity|].
  intros c r [= <- _]. vm_compute. reflexivity.
Qed.

(** What the body of the sanitiser does to a name that went through it. *)
Lemma clean_again (cleaned : list N) :
  cleaned <> [] ->
  Forall (fun d => Ucs4.fixed d = true) cleaned ->
  map underscored cleaned = cleaned ->
  (forall c r, cleaned = c :: r -> Ucs4.isdigit c = false) ->
  Ucs4.clean_column_name cleaned = cleaned.
Proof.
  intros Hne Hfix Hmap Hdigit. destruct cleaned as [|c r]; [contradiction|].
  unfold Ucs4.clean_column_name, Ucs4.lower. rewrite (lower_from_id [] _ Hfix), Hmap.
  now rewrite (Hdigit c r eq_refl).
Qed.

(** The name after Ucs4.lower-casing and underscoring, before the prefix. *)
Lemma cleaned_body (c0 : N) (r0 : list N) :
  exists c r,
    map underscored (Ucs4.lower (c0 :: r0)) = c :: r
    /\ Forall (fun d => Ucs4.fixed d = true) (c :: r)
    /\ map underscored (c :: r) = c :: r
    /\ Forall (fun c => Ucs4.isalnum c = true \/ c = 0x5F) (c :: r).
Proof.
  unfold Ucs4.lower.
  pose proof (lower_from_nonempty [] c0 r0) as Hne.
  pose proof (underscored_fixed _ (lower_from_fixed [] (c0 :: r0))) as Hfix.
  pose proof (underscored_again (Ucs4.lower_from [] (c0 :: r0))) as Hmap.
  pose proof (underscored_identifier (Ucs4.lower_from [] (c0 :: r0))) as Hid.
  destruct (map underscored (Ucs4.lower_from [] (c0 :: r0))) as [|c r] eqn:Hm.
  - apply map_eq_nil in Hm. contradiction.
  - exists c, r. auto.
Qed.

(** C6. Sanitising a column name twice is the same as sanitising it once,
    for every name, whatever code points it holds; the empty name goes to
    the placeholder [unnamed_column]; and the function is the one the design
    describes (lower-case, non-alphanumerics to underscores, [col_] before a
    leading digit). *)
Theorem clean_column_name_idempotent :
  (forall x : list N,
     Ucs4.clean_column_name (Ucs4.clean_column_name x)
     = Ucs4.clean_column_name x)
  /\ Ucs4.clean_column_name [] = Ucs4.of_string "unnamed_column"
  /\ (forall x : list N, Ucs4.clean_column_name x = Ucs4.sanitize_spec x).
Proof.
  split; [|split].
  - intros [|c0 r0]; [vm_compute; reflexivity|].
    destruct (cleaned_body c0 r0) as (c & r & Hc & Hfix & Hmap & _).
    destruct col_prefix_clean as (Hpm & Hpf & _ & Hpd).
    unfold Ucs4.clean_column_name at 2 3. rewrite Hc.
    destruct (Ucs4.isdigit c) eqn:Hd; apply clean_again.
    + discriminate.
    + apply Forall_app. now split.
    + now rewrite map_app, Hpm, Hmap.
    + intros c1 r1 [= <- _]. now apply (Hpd _ _ eq_refl).
    + discriminate.
    + exact Hfix.
    + exact Hmap.
    + now intros c1 r1 [= <- _].
  - reflexivity.
  - intros [|c0 r0]; [reflexivity|]. unfold Ucs4.sanitize_spec, Ucs4.clean_column_name.
    destruct (decide (c0 :: r0 = [])) as [|_]; [discriminate|].
    now destruct (map _ (Ucs4.lower (c0 :: r0))).
Qed.

(** *** Names of code points below 256 *)

Lemma latin1_char (c : ascii) :
  (N_of_ascii c =? 0x3A3) = false
  /\ Ucs4.to_lower_full (N_of_ascii c) = [N_of_ascii (Py.lower_char c)]
  /\ Ucs4.isalnum (N_of_ascii c) = Py.isalnum c
  /\ Ucs4.isdigit (N_of_ascii c) = Py.isdigit c.
Proof. destruct c as [[] [] [] [] [] [] [] []]; vm_compute; auto. Qed.

Lemma of_string_cons (c : ascii) (r : string) :
  Ucs4.of_string (String c r) = N_of_ascii c :: Ucs4.of_string r.
Proof. reflexivity. Qed.

Lemma lower_of_string (before : list N) (s : string) :
  Ucs4.lower_from before (Ucs4.of_string s) = Ucs4.of_string (Py.lower s).
Proof.
  revert before. induction s as [|c r IH]; intros before; [reflexivity|].
  rewrite of_string_cons. cbn [Ucs4.lower_from].
  destruct (latin1_char c) as (-> & -> & _). rewrite IH. reflexivity.
Qed.

Lemma underscored_of_string (s : string) :
  map underscored (Ucs4.of_string (Py.lower s))
  = Ucs4.of_string (Py.map clean_char s).
Proof.
  induction s as [|c r IH]; [reflexivity|].
  unfold Py.lower in *. cbn [Py.map]. rewrite !of_string_cons. cbn [map].
  rewrite IH. f_equal. unfold clean_char.
  destruct (latin1_char (Py.lower_char c)) as (_ & _ & -> & _).
  now destruct (Py.isalnum (Py.lower_char c)).
Qed.

(** On the names of the rest of this development, whose characters are the
    code points below 256, the sanitiser is the one defined on [string]. *)
Lemma clean_column_name_of_string (s : string) :
  Ucs4.clean_column_name (Ucs4.of_string s)
  = Ucs4.of_string (clean_column_name s).
Proof.
  destruct s as [|c r]; [reflexivity|].
  rewrite of_string_cons. unfold Ucs4.clean_column_name.
  rewrite <- of_string_cons. unfold Ucs4.lower.
  rewrite lower_of_string, underscored_of_string.
  cbn [clean_column_name Py.map]. rewrite of_string_cons.
  destruct (latin1_char (clean_char c)) as (_ & _ & _ & ->).
  destruct (Py.isdigit (clean_char c)); reflexivity.
Qed.

End Sanitiser.

(** ** Type inference *)

Import Pandas153.

Lemma detect_pandas153 (s : Series) :
  detect_data_type s =
  if Z.of_nat (length (dropna (values s))) =? 0 then VARCHAR 256
  else if datetime64_any (dtype s) then TIMESTAMP
  else if bool_dtype (dtype s) then BOOLEAN
  else if integer_dtype (dtype s) then BIGINT
  else if float_dtype (dtype s) then DECIMAL_18_2
  else if string_dtype (dtype s)
       then VARCHAR (Z.min (Z.max (str_len_max (values s) * 2) 256) 65535)
       else VARCHAR 256.
Proof.
  unfold detect_data_type, detect_body; cbn.
  repeat match goal with |- context [if ?b then _ else _] => destruct b end;
    reflexivity.
Qed.

Lemma nonempty_length {A : Type} (l : list A) :
  l <> [] -> (Z.of_nat (length l) =? 0) = false.
Proof. destruct l; [congruence|]. intros _. apply Z.eqb_neq. simpl. lia. Qed.


(** C4, as stated, fails: the non-null values of both columns all parse as
    integers, yet the first is typed DECIMAL(18,2) and the second
    VARCHAR(256). *)
Lemma detect_whole_numbers_not_bigint :
  forallb parses_as_integer (dropna (values whole_numbers_with_gap)) = true
  /\ detect_data_type whole_numbers_with_gap = DECIMAL_18_2
  /\ forallb parses_as_integer (dropna (values whole_numbers_as_text)) = true
  /\ detect_data_type whole_numbers_as_text = VARCHAR 256.
Proof. repeat split; reflexivity. Qed.

(** C4, amended. The answer is BIGINT exactly for the columns that have a
    non-null value and an integer dtype; on such a column the integer case
    wins over the decimal and the text case. The values are not parsed. *)
Theorem detect_bigint_iff_integer_dtype (s : Series) :
  detect_data_type s = BIGINT <->
  dropna (values s) <> [] /\ integer_dtype (dtype s) = true.
Proof.
  rewrite detect_pandas153. split.
  - destruct (dropna (values s)) as [|c l] eqn:Hn; [discriminate|].
    destruct (Z.of_nat (length (c :: l)) =? 0); [discriminate|].
    destruct (dtype s); cbn; try discriminate; try (intros _; split; congruence).
    destruct bool_categories; discriminate.
  - intros [Hn Hi]. rewrite (nonempty_length _ Hn).
    destruct (dtype s); cbn in *; congruence.
Qed.

Lemma detect_bigint_iff_integer_dtype_witness :
  detect_data_type {| dtype := np_int 64; values := [CInt 7; CInt 8] |} = BIGINT.
Proof.
  apply (proj2 (detect_bigint_iff_integer_dtype
                  {| dtype := np_int 64; values := [CInt 7; CInt 8] |})).
  split; [discriminate | reflexivity].
Defined.

Lemma null_text_short (c : Cell) : isna c = true -> Py.len (py_str c) <= 4.
Proof. destruct c as [[]| | | | |]; try discriminate; intros _; vm_compute; discriminate. Qed.

Lemma max_list_ge (l : list Z) (x : Z) : In x l -> x <= max_list l.
Proof.
  unfold max_list. induction l as [|y r IH]; cbn; [tauto|].
  intros [->|H]; [lia|]. specialize (IH H). lia.
Qed.

Lemma max_list_le (l : list Z) (b : Z) :
  0 <= b -> (forall x, In x l -> x <= b) -> max_list l <= b.
Proof.
  intros Hb. unfold max_list. induction l as [|y r IH]; cbn; [lia|].
  intros H. pose proof (H y (or_introl eq_refl)).
  assert (foldr Z.max 0 r <= b) by (apply IH; intros x Hx; apply H; now right).
  lia.
Qed.

Lemma observed_length_str (c : Cell) :
  isna c = false -> Py.len (py_str c) = observed_length c.
Proof. destruct c as [k|z|[]|f|text|text]; try discriminate; reflexivity. Qed.

(** C7. Take a column that reaches the text case (a string dtype and a
    non-null value), and let [longest] be the greatest string length among
    its non-null values: some non-null value has that many characters and
    none has more. The column is typed VARCHAR(capacity), the capacity being
    twice [longest], raised to 256 and cut at 65535. *)
Theorem detect_text_capacity (s : Series) (longest : Z) :
  string_dtype (dtype s) = true ->
  (exists c, In c (values s) /\ isna c = false
             /\ observed_length c = longest) ->
  (forall c, In c (values s) -> isna c = false ->
             observed_length c <= longest) ->
  detect_data_type s = VARCHAR (Z.min (Z.max (longest * 2) 256) 65535).
Proof.
  intros Hs (c & Hc & Hna & Hlen) Hmax.
  assert (Hn : dropna (values s) <> []).
  { intros He. assert (Hin : In c (dropna (values s))).
    { apply list_elem_of_In, list_elem_of_filter.
      split; [exact Hna | now apply list_elem_of_In]. }
    rewrite He in Hin. destruct Hin. }
  rewrite detect_pandas153, (nonempty_length _ Hn).
  assert (Hlo : longest <= str_len_max (values s)).
  { rewrite <- Hlen, <- (observed_length_str c Hna). apply max_list_ge.
    apply in_map_iff. exists c. split; [reflexivity | exact Hc]. }
  assert (Hhi : str_len_max (values s) <= Z.max longest 4).
  { apply max_list_le; [lia|]. intros x Hx.
    apply in_map_iff in Hx as (c' & <- & Hc').
    destruct (isna c') eqn:Hna'.
    - pose proof (null_text_short c' Hna'). lia.
    - specialize (Hmax c' Hc' Hna').
      rewrite (observed_length_str c' Hna'). lia. }
  destruct (dtype s); try discriminate; cbn; f_equal; lia.
Qed.

Lemma detect_text_capacity_witness :
  detect_data_type Cases.remarks_column = VARCHAR 300.
Proof.
  apply (detect_text_capacity Cases.remarks_column 150).
  - reflexivity.
  - eexists. split; [do 3 right; left; reflexivity|].
    split; reflexivity.
  - intros c [<-|[<-|[<-|[<-|[]]]]]; intros H;
      try discriminate H; vm_compute; discriminate.
Defined.

(** A dtype that matches none of the five cases gets the default width,
    whatever the column holds. *)
Lemma detect_unmatched_dtype (s : Series) :
  datetime64_any (dtype s) = false -> bool_dtype (dtype s) = false ->
  integer_dtype (dtype s) = false -> float_dtype (dtype s) = false ->
  string_dtype (dtype s) = false ->
  detect_data_type s = VARCHAR 256.
Proof.
  intros H1 H2 H3 H4 H5. rewrite detect_pandas153, H1, H2, H3, H4, H5.
  now destruct (_ =? 0).
Qed.

(** With pandas 1.5.3 no call of the body raises. *)
Lemma detect_body_pandas153_ok (s : Series) :
  detect_body s = Ok (detect_data_type s).
Proof.
  unfold detect_data_type, detect_body; cbn.
  repeat match goal with |- context [if ?b then _ else _] => destruct b end;
    reflexivity.
Qed.

(** C8. Type inference always answers with a type, whatever the library
    calls do: when any of them raises the answer is VARCHAR(256), when the
    column is empty once the nulls are dropped the answer is VARCHAR(256),
    and with pandas 1.5.3 the body never raises at all. *)
Theorem detect_data_type_total :
  (forall (lib : Pandas) (s : Series),
     (forall e, @detect_body lib s = Raise e ->
                @detect_data_type lib s = VARCHAR 256)
     /\ (forall t, @detect_body lib s = Ok t -> @detect_data_type lib s = t)
     /\ (@pd_dropna lib s = Ok [] -> @detect_data_type lib s = VARCHAR 256))
  /\ (forall s : Series,
        detect_body s = Ok (detect_data_type s)
        /\ (dropna (values s) = [] -> detect_data_type s = VARCHAR 256)).
Proof.
  split.
  - intros lib s. unfold detect_data_type. repeat split.
    + intros e ->. reflexivity.
    + intros t ->. reflexivity.
    + intros H. unfold detect_body. rewrite H. reflexivity.
  - intros s. split; [apply detect_body_pandas153_ok|].
    intros H. rewrite detect_pandas153, H. reflexivity.
Qed.

Lemma detect_data_type_total_witness :
  detect_data_type {| dtype := np_float 64; values := [CNull NaN; CNull NaN] |}
  = VARCHAR 256.
Proof.
  apply (proj2 (proj2 detect_data_type_total
                  {| dtype := np_float 64; values := [CNull NaN; CNull NaN] |})).
  reflexivity.
Defined.

(** ** The statement waiter *)


Section WaiterFacts.
Variables (env : Env) (statement_id : string) (expect_results : bool)
  (t0 : Trace).
Local Abbreviation trace_at := (trace_at env statement_id t0).
Local Abbreviation answer := (answer env statement_id t0).
Local Abbreviation fetch_after := (fetch_after env statement_id t0).
Local Abbreviation fatal := (fatal env statement_id expect_results t0).

Lemma wait_loop_step (n k : nat) :
  fst (wait_loop env (S n) statement_id expect_results (trace_at k)) =
  match verdict (answer k) with
  | VPending => fst (wait_loop env n statement_id expect_results (trace_at (S k)))
  | VFinished => if expect_results then fetched (fetch_after k) else Ok None
  | VFailed =>
      match answer k with
      | Ok st => Raise ("Query failed with status " +:+ Status st +:+ ": "
                        +:+ default "No error message provided" (Error st))
      | Raise e => Raise e
      end
  | VBroken => match answer k with Ok _ => Ok None | Raise e => Raise e end
  end.
Proof.
  cbn [wait_loop]. unfold bind at 1, rs_describe_statement.
  fold (answer k). unfold verdict.
  destruct (answer k) as [st|e] eqn:Ha; [|reflexivity].
  destruct (String.eqb (Status st) "FINISHED").
  - destruct expect_results; [|reflexivity].
    unfold rs_get_statement_result. cbn [fst]. unfold fetch_after, fetched.
    rewrite Ha. reflexivity.
  - destruct (String.eqb (Status st) "FAILED" || String.eqb (Status st) "ABORTED")%bool;
      [reflexivity|].
    unfold bind, time_sleep. cbn [trace_at]. fold (answer k). rewrite Ha.
    reflexivity.
Qed.

Lemma wait_loop_raises_iff (n k : nat) :
  is_ok (fst (wait_loop env n statement_id expect_results (trace_at k))) = false
  <->
  (exists j, k <= j < k + n
             /\ (forall i, k <= i < j -> verdict (answer i) = VPending)
             /\ fatal j)%nat
  \/ (forall i, k <= i < k + n -> verdict (answer i) = VPending)%nat.
Proof.
  revert k. induction n as [|n IH]; intros k.
  - split; [right; intros i Hi; lia | reflexivity].
  - rewrite wait_loop_step. destruct (verdict (answer k)) eqn:Hv.
    + rewrite IH. split.
      * intros [(j & Hj & Hp & Hf)|Hall].
        -- left. exists j. split; [lia|]. split; [|exact Hf].
           intros i Hi. destruct (decide (i = k)) as [->|]; [exact Hv|].
           apply Hp. lia.
        -- right. intros i Hi. destruct (decide (i = k)) as [->|]; [exact Hv|].
           apply Hall. lia.
      * intros [(j & Hj & Hp & Hf)|Hall].
        -- destruct (decide (j = k)) as [->|].
           { destruct Hf as [Hf|[Hf|[Hf _]]]; congruence. }
           left. exists j. split; [lia|]. split; [|exact Hf].
           intros i Hi. apply Hp. lia.
        -- right. intros i Hi. apply Hall. lia.
    + split.
      * intros Hr. left. exists k. split; [lia|]. split; [intros i Hi; lia|].
        right. right. split; [exact Hv|].
        destruct expect_results; [|discriminate]. split; [reflexivity|].
        destruct (fetch_after k); try discriminate. eauto.
      * intros [(j & Hj & Hp & Hf)|Hall].
        -- destruct (decide (j = k)) as [->|].
           { destruct Hf as [Hf|[Hf|(_ & -> & msg & ->)]]; try congruence.
             reflexivity. }
           specialize (Hp k). rewrite Hp in Hv by lia. discriminate.
        -- specialize (Hall k). rewrite Hall in Hv by lia. discriminate.
    + split.
      * intros _. left. exists k. split; [lia|]. split; [intros i Hi; lia|].
        left. exact Hv.
      * intros _. unfold verdict in Hv. destruct (answer k); [reflexivity|discriminate].
    + split.
      * intros _. left. exists k. split; [lia|]. split; [intros i Hi; lia|].
        right. left. exact Hv.
      * intros _. unfold verdict in Hv. destruct (answer k) as [st|]; [|reflexivity].
        destruct (String.eqb (Status st) "FINISHED"); [discriminate|].
        destruct (String.eqb (Status st) "FAILED" || String.eqb (Status st) "ABORTED")%bool;
          discriminate.
Qed.

Lemma wait_loop_finished (n k j : nat) :
  (k <= j < k + n)%nat ->
  (forall i, k <= i < j -> verdict (answer i) = VPending)%nat ->
  verdict (answer j) = VFinished ->
  fst (wait_loop env n statement_id expect_results (trace_at k)) =
  if expect_results then fetched (fetch_after j) else Ok None.
Proof.
  revert k. induction n as [|n IH]; intros k Hj Hp Hf; [lia|].
  rewrite wait_loop_step.
  destruct (decide (j = k)) as [->|Hne].
  - rewrite Hf. reflexivity.
  - rewrite (Hp k) by lia. apply IH; [lia| |exact Hf].
    intros i Hi. apply Hp. lia.
Qed.

End WaiterFacts.

(** C9, as stated, fails: the only status the statement ever shows is
    FINISHED and a single poll was made, yet the waiter raises, because the
    fetch of the result failed with an error other than "resource not
    found". *)
Lemma waiter_raises_on_finished_statement :
  wait_for_query_completion Scenario.throttled_fetch "stmt-1" true [] =
  (Raise "ThrottlingException",
   [EvDescribe "stmt-1" (Ok Scenario.finished);
    EvGetResult "stmt-1" (FetchError "ThrottlingException")]).
Proof. reflexivity. Qed.

(** C9, amended. The waiter raises exactly when, within its 60 polls, the
    statement shows FAILED or ABORTED, or a call to the service itself fails
    (the status request, or the fetch of the result with an error other than
    "resource not found"), or when all 60 polls find the statement still
    running. When a poll finds FINISHED it returns the fetched result if one
    is expected, "resource not found" giving the empty result [None], and
    [None] if none is expected. *)
Theorem wait_for_query_completion_outcome
  (env : Env) (statement_id : string) (expect_results : bool) (t0 : Trace) :
  (is_ok (fst (wait_for_query_completion env statement_id expect_results t0))
   = false
   <->
   (exists j, j < 60
      /\ (forall i, i < j ->
            verdict (answer env statement_id t0 i) = VPending)
      /\ fatal env statement_id expect_results t0 j)%nat
   \/ (forall i, i < 60 ->
         verdict (answer env statement_id t0 i) = VPending)%nat)
  /\ (forall j, (j < 60)%nat ->
        (forall i, (i < j)%nat ->
           verdict (answer env statement_id t0 i) = VPending) ->
        verdict (answer env statement_id t0 j) = VFinished ->
        fst (wait_for_query_completion env statement_id expect_results t0) =
        if expect_results
        then fetched (fetch_after env statement_id t0 j)
        else Ok None).
Proof.
  unfold wait_for_query_completion, max_retries. split.
  - change t0 with (trace_at env statement_id t0 0).
    rewrite wait_loop_raises_iff. split.
    + intros [(j & Hj & Hp & Hf)|Hall].
      * left. exists j. split; [lia|]. split; [|exact Hf].
        intros i Hi. apply Hp. lia.
      * right. intros i Hi. apply Hall. lia.
    + intros [(j & Hj & Hp & Hf)|Hall].
      * left. exists j. split; [lia|]. split; [|exact Hf].
        intros i Hi. apply Hp. lia.
      * right. intros i Hi. apply Hall. lia.
  - intros j Hj Hp Hf.
    change t0 with (trace_at env statement_id t0 0) at 1.
    apply wait_loop_finished; [lia| |exact Hf].
    intros i Hi. apply Hp. lia.
Qed.

Lemma wait_for_query_completion_outcome_witness :
  fst (wait_for_query_completion Scenario.steady "stmt-1" true []) =
  Ok (Some (Scenario.one_row 200)).
Proof.
  apply (proj2 (wait_for_query_completion_outcome
                  Scenario.steady "stmt-1" true []) 0%nat);
    [lia | intros i Hi; lia | reflexivity].
Defined.

(** ** Traces only grow *)

Section Emits.
Context {pd : Pandas} (env : Env).

Lemma emits_weaken {A} (P Q : Event -> Prop) (m : M A) :
  (forall e, P e -> Q e) -> emits P m -> emits Q m.
Proof.
  intros HPQ Hm t. destruct (Hm t) as (evs & He & HF).
  exists evs. split; [exact He|]. eapply Forall_impl; eauto.
Qed.

Lemma emits_ret {A} P (a : A) : emits P (ret a).
Proof. intros t. exists []. split; [cbn; now rewrite app_nil_r | constructor]. Qed.

Lemma emits_raise {A} P e : emits P (@raise A e).
Proof. intros t. exists []. split; [cbn; now rewrite app_nil_r | constructor]. Qed.

Lemma emits_lift {A} P (r : Exc A) : emits P (lift r).
Proof. intros t. exists []. split; [cbn; now rewrite app_nil_r | constructor]. Qed.

Lemma emits_bind {A B} P (m : M A) (k : A -> M B) :
  emits P m -> (forall a, emits P (k a)) -> emits P (bind m k).
Proof.
  intros Hm Hk t. unfold bind.
  destruct (Hm t) as (evs & He & HF).
  destruct (m t) as [[a|e] t1]; cbn in He; subst t1.
  - destruct (Hk a (t ++ evs)) as (evs' & He' & HF').
    exists (evs ++ evs'). rewrite He', app_assoc. split; [reflexivity|].
    apply Forall_app; auto.
  - exists evs. auto.
Qed.

Lemma emits_try {A} P (m : M A) (h : string -> M A) :
  emits P m -> (forall e, emits P (h e)) -> emits P (try_except m h).
Proof.
  intros Hm Hh t. unfold try_except.
  destruct (Hm t) as (evs & He & HF).
  destruct (m t) as [[a|e] t1]; cbn in He; subst t1.
  - exists evs. auto.
  - destruct (Hh e (t ++ evs)) as (evs' & He' & HF').
    exists (evs ++ evs'). rewrite He', app_assoc. split; [reflexivity|].
    apply Forall_app; auto.
Qed.

Lemma emits_one {A} (P : Event -> Prop) (r : Trace -> Exc A)
  (ev : Trace -> Event) :
  (forall t, P (ev t)) -> emits P (fun t => (r t, t ++ [ev t])).
Proof. intros H t. exists [ev t]. split; [reflexivity|]. repeat constructor. apply H. Qed.

Lemma emits_wait_loop n statement_id expect_results :
  emits query_event (wait_loop env n statement_id expect_results).
Proof.
  induction n as [|n IH]; cbn [wait_loop]; [apply emits_raise|].
  apply emits_bind.
  - apply (emits_one query_event
             (fun t => describe_statement env t statement_id)); intros; exact I.
  - intros st.
    destruct (String.eqb (Status st) "FINISHED").
    + destruct expect_results; [|apply emits_ret].
      intros t. eexists [_]. split; [reflexivity|]. repeat constructor.
    + destruct (String.eqb (Status st) "FAILED" || String.eqb (Status st) "ABORTED")%bool;
        [apply emits_raise|].
      apply emits_bind; [|intros _; exact IH].
      intros t. eexists [_]. split; [reflexivity|]. repeat constructor.
Qed.

Lemma emits_execute sql : emits query_event (rs_execute_statement env sql).
Proof. intros t. eexists [_]. split; [reflexivity|]. repeat constructor. Qed.

Lemma emits_check_table_query table_name :
  emits query_event (check_table_query env table_name).
Proof.
  apply emits_bind; [apply emits_execute|]. intros response_id.
  apply emits_bind; [apply emits_wait_loop|]. intros [r|]; [|apply emits_ret].
  destruct (has_records (Some r)); [|apply emits_ret].
  apply emits_bind; [apply emits_lift|]. intros; apply emits_ret.
Qed.

Lemma emits_check_table_exists table_name :
  emits query_event (check_table_exists env table_name).
Proof.
  apply emits_try; [apply emits_check_table_query|]. intros; apply emits_ret.
Qed.

Lemma emits_create_table table_name df :
  emits query_event (create_table env table_name df).
Proof.
  apply emits_try; [|intros; apply emits_raise].
  apply emits_bind; [apply emits_execute|]. intros response_id.
  apply emits_bind; [apply emits_wait_loop|]. intros; apply emits_ret.
Qed.

Lemma emits_load table_name bucket key :
  emits query_event (load_data_to_redshift env table_name bucket key).
Proof.
  apply emits_try; [|intros; apply emits_raise].
  apply emits_bind; [apply emits_execute|]. intros copy_id.
  apply emits_bind; [apply emits_wait_loop|]. intros _.
  apply emits_bind; [apply emits_execute|]. intros verify_id.
  apply emits_bind; [apply emits_wait_loop|]. intros [r|]; [|apply emits_raise].
  destruct (has_records (Some r)); [|apply emits_raise].
  apply emits_bind; [apply emits_lift|]. intros n.
  destruct (n =? 0); [apply emits_raise | apply emits_ret].
Qed.

Lemma emits_move bucket key :
  emits (fun _ => True) (move_to_completed env bucket key).
Proof.
  apply emits_try; [|intros; apply emits_raise].
  apply emits_bind; [|intros _; apply emits_bind; [|intros; apply emits_ret]];
    intros t; eexists [_]; (split; [reflexivity|]); repeat constructor.
Qed.

Lemma query_not_relocation e : query_event e -> ~ relocation e.
Proof. destruct e; cbn; tauto. Qed.

End Emits.

(** Closes a goal [Forall (fun e => ~ relocation e) (l1 ++ ... ++ ln)] from
    hypotheses [Forall query_event li]. *)
Ltac no_relocation :=
  repeat (apply Forall_app; split);
  (eapply Forall_impl; [eassumption | apply query_not_relocation]).

(** ** The existence check *)

Lemma try_bind_run {A B} (m : M A) (k : A -> M B) (h : string -> M B) t :
  try_except (bind m k) h t =
  match m t with
  | (Ok a, t') => try_except (k a) h t'
  | (Raise e, t') => h e t'
  end.
Proof. unfold try_except, bind. destruct (m t) as [[a|e] t']; reflexivity. Qed.

Lemma emits_extends {A} P (m : M A) t :
  emits P m -> exists evs, snd (m t) = t ++ evs.
Proof. intros H. destruct (H t) as (evs & He & _). eauto. Qed.

Section Registry.
Context {pd : Pandas} (env : Env).

Lemma check_table_exists_never_raises table_name t :
  exists b, fst (check_table_exists env table_name t) = Ok b.
Proof.
  unfold check_table_exists, try_except.
  destruct (check_table_query env table_name t) as [[b|e] t']; cbn; eauto.
Qed.

Lemma emits_after_create table_name bucket key :
  emits (fun _ => True)
    (bind (load_data_to_redshift env table_name bucket key)
          (fun _ => move_to_completed env bucket key)).
Proof.
  apply emits_bind; [|intros; apply emits_move].
  eapply emits_weaken; [|apply emits_load]. auto.
Qed.

(** C10. The existence check never raises, and when the query inside it
    fails, for whatever reason, the check answers "absent": the file goes on
    exactly as for a table that does not exist, and the next thing sent to
    the store is the creation statement for that file's table. *)
Theorem check_failure_still_creates :
  (forall table_name t,
     exists b, fst (check_table_exists env table_name t) = Ok b)
  /\ (forall bucket key t csv_content df e t1 t2,
        s3_get_object env bucket key t = (Ok csv_content, t1) ->
        read_csv env csv_content = Ok df ->
        check_table_query env (table_name_of key) t1 = (Raise e, t2) ->
        check_table_exists env (table_name_of key) t1 = (Ok false, t2)
        /\ process_file env bucket key t =
           bind (create_table env (table_name_of key) df)
             (fun _ =>
                bind (load_data_to_redshift env (table_name_of key) bucket key)
                  (fun _ => move_to_completed env bucket key)) t2
        /\ exists r rest,
             snd (process_file env bucket key t) =
             t2 ++ EvExecute (SqlCreateTable (table_name_of key)
                                (column_types df)) r :: rest).
Proof.
  split; [apply check_table_exists_never_raises|].
  intros bucket key t csv_content df e t1 t2 Hget Hcsv Hq.
  assert (Hc : check_table_exists env (table_name_of key) t1 = (Ok false, t2)).
  { unfold check_table_exists, try_except. rewrite Hq. reflexivity. }
  assert (Hp : process_file env bucket key t =
               bind (create_table env (table_name_of key) df)
                 (fun _ =>
                    bind (load_data_to_redshift env (table_name_of key) bucket key)
                      (fun _ => move_to_completed env bucket key)) t2).
  { unfold process_file. unfold bind at 1. rewrite Hget.
    unfold bind at 1. unfold lift at 1. rewrite Hcsv.
    unfold bind at 1. rewrite Hc. reflexivity. }
  split; [exact Hc|]. split; [exact Hp|].
  rewrite Hp. unfold bind at 1. unfold create_table.
  rewrite try_bind_run. unfold rs_execute_statement at 1.
  set (sql := SqlCreateTable (table_name_of key) (column_types df)).
  set (r := execute_statement env t2 sql).
  destruct r as [response_id|msg].
  - match goal with
    | |- context [try_except ?m ?h ?t'] =>
        destruct (emits_extends query_event (try_except m h) t') as (evs & He);
        [ apply emits_try;
          [ apply emits_bind; [apply emits_wait_loop | intros; apply emits_ret]
          | intros; apply emits_raise ] | ];
        destruct (try_except m h t') as [[u|msg] t3] eqn:Hrun
    end; cbn [snd] in He; subst t3.
    + destruct (emits_extends _ _ ((t2 ++ [EvExecute sql (Ok response_id)]) ++ evs)
                  (emits_after_create (table_name_of key) bucket key))
        as (evs' & He').
      unfold bind in He'. exists (Ok response_id), (evs ++ evs').
      etransitivity; [exact He'|]. now rewrite <- !app_assoc.
    + exists (Ok response_id), evs. cbn [snd]. now rewrite <- app_assoc.
  - exists (Raise msg), []. reflexivity.
Qed.

End Registry.

Lemma check_failure_still_creates_witness :
  exists r rest,
    snd (process_file Scenario.broken_catalog "uploads" "processed/sales.csv" [])
    = [EvGetObject "uploads" "processed/sales.csv" (Ok "id,Total $");
       EvExecute (SqlTableCount "sales") (Raise "catalog unavailable")]
      ++ EvExecute (SqlCreateTable "sales"
                      [("id", BIGINT); ("total__", DECIMAL_18_2)]) r :: rest.
Proof.
  destruct (proj2 (check_failure_still_creates Scenario.broken_catalog)
              "uploads" "processed/sales.csv" [] "id,Total $"
              Scenario.sales_frame "catalog unavailable"
              [EvGetObject "uploads" "processed/sales.csv" (Ok "id,Total $")]
              [EvGetObject "uploads" "processed/sales.csv" (Ok "id,Total $");
               EvExecute (SqlTableCount "sales") (Raise "catalog unavailable")]
              eq_refl eq_refl eq_refl) as (_ & _ & H).
  exact H.
Defined.

(** ** The handler's loop *)

Section Loop.
Context {pd : Pandas} (env : Env).

Lemma outcomes_keys bucket keys t :
  map fst (outcomes env bucket keys t) = keys.
Proof.
  revert t. induction keys as [|key rest IH]; intros t; cbn; [reflexivity|].
  now rewrite IH.
Qed.

Lemma process_files_log bucket keys st :
  processed_files (process_files env bucket keys st) =
    processed_files st ++ successes (outcomes env bucket keys (history st))
  /\ failed_files (process_files env bucket keys st) =
    failed_files st ++ failures (outcomes env bucket keys (history st)).
Proof.
  revert st. induction keys as [|key rest IH]; intros st.
  - cbn. now rewrite !app_nil_r.
  - change (process_files env bucket (key :: rest) st)
      with (process_files env bucket rest (file_step env bucket st key)).
    destruct (IH (file_step env bucket st key)) as [IHp IHf].
    rewrite IHp, IHf. cbn [outcomes]. unfold file_step.
    destruct (process_file env bucket key (history st)) as [[u|e] t'];
      cbn [processed_files failed_files history fst snd successes failures];
      rewrite <- ?app_assoc; split; reflexivity.
Qed.

Lemma successes_failures_perm (log : list (string * Exc unit)) :
  successes log ++ map fst (failures log) ≡ₚ map fst log.
Proof.
  induction log as [|[key [u|e]] rest IH]; cbn; [reflexivity| |].
  - now rewrite IH.
  - rewrite <- IH. symmetry. apply Permutation_middle.
Qed.

Lemma successes_in_keys (log : list (string * Exc unit)) key :
  In key (successes log) -> In key (map fst log).
Proof.
  induction log as [|[k [u|e]] rest IH]; cbn; [tauto| |]; intuition.
Qed.

Lemma watch_loop_total bucket max_wait_time n i st :
  max_wait_time <= elapsed env (i + n) ->
  exists files, watch_loop env bucket max_wait_time (S n) i st = Some files.
Proof.
  revert i st. induction n as [|n IH]; intros i st Hn.
  - rewrite Nat.add_0_r in Hn. cbn.
    destruct (Z.ltb_spec (elapsed env i) max_wait_time); [lia|]. eauto.
  - cbn [watch_loop].
    destruct (elapsed env i <? max_wait_time); [|eauto].
    destruct (watch_poll _ st) as [files|st']; [eauto|].
    apply IH. now replace (S i + n)%nat with (i + S n)%nat by lia.
Qed.

Lemma watch_loop_nodup bucket max_wait_time fuel i st files :
  watch_loop env bucket max_wait_time fuel i st = Some files -> NoDup files.
Proof.
  revert i st. induction fuel as [|fuel IH]; intros i st; cbn [watch_loop];
    [discriminate|].
  destruct (elapsed env i <? max_wait_time).
  - unfold watch_poll. case_decide.
    + destruct (12 <=? stable_count st + 1).
      * intros [= <-]. apply NoDup_elements.
      * apply IH.
    + apply IH.
  - intros [= <-]. apply NoDup_elements.
Qed.

(** Which raise of [process_file] it is: the error of one of its steps,
    the existence check apart, which has none to give. *)
Lemma process_file_raises bucket key t e :
  fst (process_file env bucket key t) = Raise e
  <-> file_error env bucket key t e.
Proof.
  unfold process_file, bind, lift. split.
  - destruct (s3_get_object env bucket key t) as [[csv_content|e0] t1] eqn:Hg.
    2:{ intros [= ->]. apply fetch_error. now rewrite Hg. }
    destruct (read_csv env csv_content) as [df|e0] eqn:Hr.
    2:{ intros [= ->]. eapply parse_error; eassumption. }
    destruct (check_table_exists_never_raises env (table_name_of key) t1)
      as [present Hp].
    destruct (check_table_exists env (table_name_of key) t1)
      as [present' t2] eqn:Hc.
    cbn [fst] in Hp. subst present'.
    assert (Hnext : forall t3,
      table_ready env (table_name_of key) df t1 t3 ->
      fst (match load_data_to_redshift env (table_name_of key) bucket key t3
           with
           | (Ok _, t') => move_to_completed env bucket key t'
           | (Raise e1, t') => (Raise e1, t')
           end) = Raise e ->
      file_error env bucket key t e).
    { intros t3 Hready.
      destruct (load_data_to_redshift env (table_name_of key) bucket key t3)
        as [[[]|e0] t4] eqn:Hl.
      - intros Hm. eapply move_error; eassumption.
      - intros [= ->]. eapply load_error; try eassumption. now rewrite Hl. }
    destruct present; cbn [negb].
    + apply Hnext. now apply table_found.
    + destruct (create_table env (table_name_of key) df t2)
        as [[[]|e0] t3] eqn:Hcr.
      * apply Hnext. eapply table_created; eassumption.
      * intros [= ->]. eapply create_error; try eassumption. now rewrite Hcr.
  - intros [H | csv_content t1 Hg Hr | csv_content t1 df t2 Hg Hr Hc Hcr
            | csv_content t1 df t3 Hg Hr Hready Hl
            | csv_content t1 df t3 t4 Hg Hr Hready Hl Hm].
    + destruct (s3_get_object env bucket key t) as [[?|?] ?];
        [discriminate | cbn in H |- *; congruence].
    + now rewrite Hg, Hr.
    + rewrite Hg, Hr, Hc. cbn [negb].
      destruct (create_table env (table_name_of key) df t2) as [[?|?] ?];
        [discriminate | exact Hcr].
    + rewrite Hg, Hr.
      assert (Hload :
        fst (match load_data_to_redshift env (table_name_of key) bucket key t3
             with
             | (Ok _, t') => move_to_completed env bucket key t'
             | (Raise e1, t') => (Raise e1, t')
             end) = Raise e).
      { destruct (load_data_to_redshift env (table_name_of key) bucket key t3)
          as [[?|?] ?]; [discriminate | exact Hl]. }
      destruct Hready as [Hc | t2 Hc Hcr]; rewrite Hc; cbn [negb];
        [exact Hload | now rewrite Hcr].
    + rewrite Hg, Hr.
      destruct Hready as [Hc | t2 Hc Hcr]; rewrite Hc; cbn [negb];
        [| rewrite Hcr]; unfold ret; now rewrite Hl.
Qed.

Lemma outcomes_reasons bucket keys t :
  Forall2
    (fun entry start =>
       fst entry = fst start
       /\ forall e, snd entry = Raise e
                    <-> file_error env bucket (fst start) (snd start) e)
    (outcomes env bucket keys t) (taken_up env bucket keys t).
Proof.
  revert t. induction keys as [|key rest IH]; intros t; cbn; constructor.
  - split; [reflexivity|]. intros e. apply process_file_raises.
  - apply IH.
Qed.

(** C1, amended. Once the watcher's clock has passed its limit the handler
    answers. With an event that names no record it fails before any file is
    touched. Otherwise every file of the discovered batch is attempted,
    whatever happened to the files before it. A file is in the failure list,
    with the error [e], exactly when one of its steps raised [e] at the
    trace where the file was taken up: fetching, parsing, creating its
    table, loading (the row count included) or moving it; any other file is
    in the success list. An error of the existence check is not among these:
    the check never raises. The two lists together hold each file of the
    batch exactly once. *)
Theorem every_file_reported_once (event : list S3Record) (n : nat) :
  300 <= elapsed env n ->
  exists response t,
    lambda_handler env event (S n) = Some (response, t)
    /\ match event with
       | [] => (exists body, response = Response500 body) /\ t = []
       | record :: _ =>
           exists batch,
             wait_for_file_processing env (bucket_name record) 300 (S n)
             = Some batch
             /\ NoDup batch
             /\ let log := outcomes env (bucket_name record) batch [] in
                map fst log = batch
                /\ response = Response200 (successes log) (failures log)
                /\ successes log ++ map fst (failures log) ≡ₚ batch
                /\ NoDup (successes log ++ map fst (failures log))
                /\ Forall2
                     (fun entry start =>
                        fst entry = fst start
                        /\ forall e,
                             snd entry = Raise e
                             <-> file_error env (bucket_name record)
                                   (fst start) (snd start) e)
                     log (taken_up env (bucket_name record) batch [])
                /\ forall table_name t0, exists present,
                     fst (check_table_exists env table_name t0) = Ok present
       end.
Proof.
  intros Hn. destruct event as [|record rest].
  - cbn. eauto 6.
  - destruct (watch_loop_total (bucket_name record) 300 n 0 watch_init Hn)
      as (batch & Hb).
    pose proof (watch_loop_nodup _ _ _ _ _ _ Hb) as Hnd.
    unfold lambda_handler, wait_for_file_processing. rewrite Hb.
    set (st := process_files env (bucket_name record) batch _).
    exists (Response200 (processed_files st) (failed_files st)), (history st).
    split; [reflexivity|]. exists batch. split; [reflexivity|].
    split; [exact Hnd|]. cbv zeta.
    destruct (process_files_log (bucket_name record) batch
                {| processed_files := []; failed_files := []; history := [] |})
      as [Hp Hf].
    cbn in Hp, Hf. fold st in Hp, Hf.
    pose proof (successes_failures_perm
                  (outcomes env (bucket_name record) batch [])) as Hperm.
    rewrite outcomes_keys in Hperm.
    split; [apply outcomes_keys|]. split; [now rewrite Hp, Hf|].
    split; [exact Hperm|]. split; [now rewrite Hperm|].
    split; [apply outcomes_reasons|].
    intros table_name t0. apply check_table_exists_never_raises.
Qed.

End Loop.

(** A run over three files, one good, one empty, one unparseable: one
    success, two failures, and the listing's text file is not in the batch. *)
Example three_files_run :
  option_map fst (lambda_handler Scenario.three_files Scenario.sales_event 61)
  = Some (Response200 ["processed/sales.csv"]
            [("processed/empty.csv", "No data was loaded into empty");
             ("processed/bad.csv", "Error tokenizing data")]).
Proof. vm_compute. reflexivity. Qed.

(** C1, as stated, fails: in this run the query of the existence check
    raises, an error of the schema step for the file, yet the file is
    reported as processed and the failure list is empty. *)
Lemma check_error_goes_unreported :
  match lambda_handler Scenario.broken_catalog Scenario.sales_event 61 with
  | Some (response, t) =>
      In (EvExecute (SqlTableCount "sales") (Raise "catalog unavailable")) t
      /\ response = Response200 ["processed/sales.csv"] []
  | None => False
  end.
Proof. vm_compute. split; [tauto | reflexivity]. Qed.

Lemma every_file_reported_once_witness :
  exists response t,
    lambda_handler Scenario.steady Scenario.sales_event 61
    = Some (response, t).
Proof.
  destruct (every_file_reported_once Scenario.steady Scenario.sales_event 60)
    as (response & t & H & _); [vm_compute; discriminate|].
  exists response, t. exact H.
Defined.

(** ** Load and verification *)

Section Load.
Context {pd : Pandas} (env : Env).

Lemma first_long_has_records result n :
  first_long result = Ok n -> has_records (Some result) = true.
Proof.
  unfold first_long, has_records.
  destruct (Records result) as [|[|f row] rows]; [discriminate..|reflexivity].
Qed.

Lemma load_zero_rows table_name bucket key
  t0 copy_id t1 r1 t2 verify_id t3 result t4 :
  rs_execute_statement env (SqlCopy table_name bucket key) t0 = (Ok copy_id, t1) ->
  wait_for_query_completion env copy_id false t1 = (Ok r1, t2) ->
  rs_execute_statement env (SqlCountRows table_name) t2 = (Ok verify_id, t3) ->
  wait_for_query_completion env verify_id true t3 = (Ok (Some result), t4) ->
  first_long result = Ok 0 ->
  load_data_to_redshift env table_name bucket key t0 =
  (Raise ("No data was loaded into " +:+ table_name), t4).
Proof.
  intros H1 H2 H3 H4 H5.
  unfold load_data_to_redshift, try_except, bind.
  rewrite H1; cbv beta iota. rewrite H2; cbv beta iota.
  rewrite H3; cbv beta iota. rewrite H4; cbv beta iota.
  rewrite (first_long_has_records _ _ H5). unfold lift. rewrite H5.
  reflexivity.
Qed.

Lemma process_files_keeps bucket keys st :
  (forall entry, In entry (failed_files st) ->
                 In entry (failed_files (process_files env bucket keys st)))
  /\ (forall key, In key (processed_files (process_files env bucket keys st)) ->
                  In key (processed_files st) \/ In key keys).
Proof.
  destruct (process_files_log env bucket keys st) as [Hp Hf].
  rewrite Hp, Hf. split.
  - intros entry Hin. apply in_or_app. now left.
  - intros key Hin. apply in_app_or in Hin as [Hin|Hin]; [now left|right].
    apply successes_in_keys in Hin. now rewrite outcomes_keys in Hin.
Qed.

(** C3. A file reaches its load; the COPY statement is waited for and is
    seen to finish; the row count of the table is then asked for and comes
    back as 0. Then the load raises "No data was loaded", the loop records
    the file in the failure list with that message and leaves the success
    list as it was, and at the end of the run the file is still in the
    failure list and not in the success list. *)
Theorem zero_rows_is_a_failure
  (bucket key : string) (st : Progress) (rest : list string)
  csv_content ta df table_exists tb t0 copy_id t1 r1 t2 verify_id t3 result t4 :
  s3_get_object env bucket key (history st) = (Ok csv_content, ta) ->
  read_csv env csv_content = Ok df ->
  check_table_exists env (table_name_of key) ta = (Ok table_exists, tb) ->
  (if negb table_exists then create_table env (table_name_of key) df
   else ret tt) tb = (Ok tt, t0) ->
  rs_execute_statement env (SqlCopy (table_name_of key) bucket key) t0
  = (Ok copy_id, t1) ->
  wait_for_query_completion env copy_id false t1 = (Ok r1, t2) ->
  rs_execute_statement env (SqlCountRows (table_name_of key)) t2
  = (Ok verify_id, t3) ->
  wait_for_query_completion env verify_id true t3 = (Ok (Some result), t4) ->
  first_long result = Ok 0 ->
  let message := "No data was loaded into " +:+ table_name_of key in
  load_data_to_redshift env (table_name_of key) bucket key t0
  = (Raise message, t4)
  /\ file_step env bucket st key
     = {| processed_files := processed_files st;
          failed_files := failed_files st ++ [(key, message)];
          history := t4 |}
  /\ In (key, message)
        (failed_files (process_files env bucket (key :: rest) st))
  /\ (~ In key (processed_files st) -> ~ In key rest ->
      ~ In key (processed_files (process_files env bucket (key :: rest) st))).
Proof.
  intros Hget Hcsv Hcheck Hcreate H1 H2 H3 H4 H5 message.
  pose proof (load_zero_rows _ _ _ _ _ _ _ _ _ _ _ _ H1 H2 H3 H4 H5) as Hload.
  fold message in Hload.
  assert (Hstep : file_step env bucket st key
                  = {| processed_files := processed_files st;
                       failed_files := failed_files st ++ [(key, message)];
                       history := t4 |}).
  { unfold file_step, process_file, bind. rewrite Hget; cbv beta iota.
    unfold lift. rewrite Hcsv; cbv beta iota.
    rewrite Hcheck; cbv beta iota. rewrite Hcreate; cbv beta iota.
    rewrite Hload. reflexivity. }
  split; [exact Hload|]. split; [exact Hstep|].
  change (process_files env bucket (key :: rest) st)
    with (process_files env bucket rest (file_step env bucket st key)).
  destruct (process_files_keeps bucket rest (file_step env bucket st key))
    as [Hkeepf Hkeepp].
  split.
  - apply Hkeepf. rewrite Hstep. cbn. apply in_or_app. right. now left.
  - intros Hnp Hnr Hin. apply Hkeepp in Hin. rewrite Hstep in Hin. cbn in Hin.
    tauto.
Qed.

End Load.

Lemma zero_rows_is_a_failure_witness :
  file_step Scenario.empty_load "uploads"
    {| processed_files := []; failed_files := []; history := [] |}
    "processed/sales.csv"
  = {| processed_files := [];
       failed_files := [("processed/sales.csv", "No data was loaded into sales")];
       history :=
         [EvGetObject "uploads" "processed/sales.csv" (Ok "id,Total $");
          EvExecute (SqlTableCount "sales") (Ok "stmt-1");
          EvDescribe "stmt-1" (Ok Scenario.finished);
          EvGetResult "stmt-1" (Fetched (Scenario.one_row 0));
          EvExecute (SqlCreateTable "sales"
                       [("id", BIGINT); ("total__", DECIMAL_18_2)]) (Ok "stmt-1");
          EvDescribe "stmt-1" (Ok Scenario.finished);
          EvExecute (SqlCopy "sales" "uploads" "processed/sales.csv") (Ok "stmt-1");
          EvDescribe "stmt-1" (Ok Scenario.finished);
          EvExecute (SqlCountRows "sales") (Ok "stmt-1");
          EvDescribe "stmt-1" (Ok Scenario.finished);
          EvGetResult "stmt-1" (Fetched (Scenario.one_row 0))] |}.
Proof.
  refine (proj1 (proj2
    (zero_rows_is_a_failure Scenario.empty_load "uploads" "processed/sales.csv"
       {| processed_files := []; failed_files := []; history := [] |} []
       _ _ _ _ _ _ _ _ _ _ _ _ _ _
       eq_refl eq_refl eq_refl eq_refl eq_refl eq_refl eq_refl eq_refl
       eq_refl))).
Defined.

(** ** Relocation comes last *)

Section Relocation.
Context {pd : Pandas} (env : Env).

Lemma wait_loop_fetched n statement_id expect_results t result t' :
  wait_loop env n statement_id expect_results t = (Ok (Some result), t') ->
  exists evs, t' = t ++ evs ++ [EvGetResult statement_id (Fetched result)].
Proof.
  revert t. induction n as [|n IH]; intros t; cbn [wait_loop];
    [discriminate|].
  unfold bind at 1, rs_describe_statement.
  destruct (describe_statement env t statement_id) as [st|e] eqn:Hd;
    [|discriminate].
  destruct (String.eqb (Status st) "FINISHED").
  - destruct expect_results; [|discriminate].
    unfold rs_get_statement_result.
    destruct (get_statement_result env _ statement_id) as [r| |msg] eqn:Hf;
      [|discriminate..].
    intros [= <- <-]. exists [EvDescribe statement_id (Ok st)].
    now rewrite <- app_assoc.
  - destruct (String.eqb (Status st) "FAILED" || String.eqb (Status st) "ABORTED")%bool;
      [discriminate|].
    unfold bind, time_sleep. intros H. apply IH in H as (evs & ->).
    exists (EvDescribe statement_id (Ok st) :: EvSleep 5 :: evs).
    now rewrite <- !app_assoc.
Qed.

Lemma verified_in_app_r table_name evs more :
  verified_in table_name evs -> verified_in table_name (evs ++ more).
Proof.
  intros (verify_id & result & n & a & b & c & -> & Hn & Hz).
  exists verify_id, result, n, a, b, (c ++ more).
  split; [|split; assumption].
  now rewrite <- !app_assoc, <- !app_comm_cons, <- app_assoc, <- app_comm_cons.
Qed.

Lemma verified_in_app_l table_name evs before :
  verified_in table_name evs -> verified_in table_name (before ++ evs).
Proof.
  intros (verify_id & result & n & a & b & c & -> & Hn & Hz).
  exists verify_id, result, n, (before ++ a), b, c.
  split; [|split; assumption]. now rewrite <- app_assoc.
Qed.

Lemma run_extends {A} P (m : M A) t r t' :
  emits P m -> m t = (r, t') -> exists evs, t' = t ++ evs /\ Forall P evs.
Proof. intros H Hr. specialize (H t). now rewrite Hr in H. Qed.

(** A load that returns has asked for the row count and got one that is
    not zero. *)
Lemma load_ok_verified table_name bucket key t u t' :
  load_data_to_redshift env table_name bucket key t = (Ok u, t') ->
  exists evs, t' = t ++ evs /\ Forall query_event evs
              /\ verified_in table_name evs.
Proof.
  intros Hrun.
  destruct (run_extends _ _ _ _ _ (emits_load env table_name bucket key) Hrun)
    as (evs & -> & HF).
  exists evs. split; [reflexivity|]. split; [exact HF|].
  revert Hrun. unfold load_data_to_redshift, try_except, bind.
  destruct (rs_execute_statement env (SqlCopy table_name bucket key) t)
    as [[copy_id|e] t1] eqn:H1; [|discriminate].
  destruct (wait_for_query_completion env copy_id false t1)
    as [[r1|e] t2] eqn:H2; [|discriminate].
  destruct (rs_execute_statement env (SqlCountRows table_name) t2)
    as [[verify_id|e] t3] eqn:H3; [|discriminate].
  destruct (wait_for_query_completion env verify_id true t3)
    as [[[result|]|e] t4] eqn:H4; [|discriminate..].
  destruct (has_records (Some result)); [|discriminate].
  unfold lift. destruct (first_long result) as [n|e] eqn:Hn; [|discriminate].
  destruct (Z.eqb_spec n 0) as [|Hz]; [discriminate|].
  unfold ret. intros [= _ Ht].
  apply (run_extends _ _ _ _ _ (emits_execute env _)) in H1 as (e1 & -> & _).
  apply (run_extends _ _ _ _ _ (emits_wait_loop env _ _ _)) in H2 as (e2 & -> & _).
  unfold rs_execute_statement in H3. injection H3 as Hid <-.
  rewrite Hid in H4.
  apply wait_loop_fetched in H4 as (e4 & ->).
  rewrite <- !app_assoc in Ht. apply app_inv_head in Ht. subst evs.
  exists verify_id, result, n, (e1 ++ e2), e4, [].
  split; [|split; assumption]. now rewrite <- app_assoc.
Qed.

(** The events of one file: first those of reading, schema and load, none
    of which touches the file; then, only after a verified load, the copy and,
    only after a successful copy, the delete. *)
Lemma process_file_shape bucket key t :
  exists evs1 evs2,
    snd (process_file env bucket key t) = t ++ evs1 ++ evs2
    /\ Forall (fun e => ~ relocation e) evs1
    /\ (evs2 = []
        \/ (verified_in (table_name_of key) evs1
            /\ ((exists e, evs2 = [EvCopyObject bucket key (completed_key_of key)
                                     (Raise e)])
                \/ (exists r, evs2 = [EvCopyObject bucket key
                                        (completed_key_of key) (Ok tt);
                                      EvDeleteObject bucket key r])))).
Proof.
  unfold process_file. unfold bind at 1, s3_get_object.
  set (g := EvGetObject bucket key (get_object env t bucket key)).
  assert (Hg : ~ relocation g) by (cbn; tauto).
  destruct (get_object env t bucket key) as [csv_content|e].
  2:{ exists [g], []. rewrite app_nil_r. repeat split; auto. }
  unfold bind at 1, lift at 1.
  destruct (read_csv env csv_content) as [df|e].
  2:{ exists [g], []. rewrite app_nil_r. repeat split; auto. }
  unfold bind at 1.
  destruct (check_table_exists env (table_name_of key) (t ++ [g]))
    as [[table_exists|e] t2] eqn:Hc;
    apply (run_extends _ _ _ _ _ (emits_check_table_exists env _)) in Hc
      as (ec & -> & Hec).
  2:{ exists (g :: ec), []. rewrite app_nil_r, <- app_assoc.
      repeat split; auto. constructor; [exact Hg | no_relocation]. }
  unfold bind at 1.
  destruct ((if negb table_exists
             then create_table env (table_name_of key) df else ret tt)
              ((t ++ [g]) ++ ec)) as [[u|e] t3] eqn:Hk.
  all: assert (Hk' : exists ek, t3 = ((t ++ [g]) ++ ec) ++ ek
                                /\ Forall query_event ek)
    by (destruct table_exists; cbn [negb] in Hk;
        [ injection Hk as _ <-; exists []; now rewrite app_nil_r
        || (eapply run_extends; [apply emits_ret | exact Hk])
        | eapply run_extends; [apply emits_create_table | exact Hk] ]);
    destruct Hk' as (ek & -> & Hek).
  2:{ exists (g :: ec ++ ek), []. rewrite app_nil_r, <- !app_assoc.
      repeat split; auto. constructor; [exact Hg | no_relocation]. }
  unfold bind at 1.
  destruct (load_data_to_redshift env (table_name_of key) bucket key
              (((t ++ [g]) ++ ec) ++ ek)) as [[u'|e] t4] eqn:Hl.
  2:{ apply (run_extends _ _ _ _ _ (emits_load env _ _ _)) in Hl
        as (el & -> & Hel).
      exists (g :: ec ++ ek ++ el), []. rewrite app_nil_r, <- !app_assoc.
      repeat split; auto. constructor; [exact Hg | no_relocation]. }
  apply load_ok_verified in Hl as (el & -> & Hel & Hv).
  exists (g :: ec ++ ek ++ el).
  assert (Hpre : Forall (fun e => ~ relocation e) (g :: ec ++ ek ++ el)).
  { constructor; [exact Hg | no_relocation]. }
  assert (Hver : verified_in (table_name_of key) (g :: ec ++ ek ++ el)).
  { change (g :: ec ++ ek ++ el) with ([g] ++ ec ++ ek ++ el).
    now do 3 apply verified_in_app_l. }
  unfold move_to_completed, try_except, bind, s3_copy_object, s3_delete_object.
  set (t4 := (((t ++ [g]) ++ ec) ++ ek) ++ el).
  assert (Ht4 : t4 = t ++ g :: ec ++ ek ++ el)
    by (unfold t4; now rewrite <- !app_assoc).
  destruct (copy_object env t4 bucket key (completed_key_of key)) as [[]|e].
  - set (c := EvCopyObject bucket key (completed_key_of key) (Ok tt)).
    exists [c; EvDeleteObject bucket key
                 (delete_object env (t4 ++ [c]) bucket key)].
    split; [|split; [exact Hpre | right; split; [exact Hver | right; eauto]]].
    destruct (delete_object env (t4 ++ [c]) bucket key) as [[]|e'];
      cbn [snd ret raise]; rewrite Ht4, <- !app_assoc; reflexivity.
  - exists [EvCopyObject bucket key (completed_key_of key) (Raise e)].
    split; [|split; [exact Hpre | right; split; [exact Hver | left; eauto]]].
    cbn [snd raise]. rewrite Ht4, <- !app_assoc. reflexivity.
Qed.

End Relocation.

Lemma split_after_clean {A} (P : A -> Prop) (l1 l2 pre post : list A) (x : A) :
  Forall (fun a => ~ P a) l1 -> P x ->
  l1 ++ l2 = pre ++ x :: post ->
  exists pre', pre = l1 ++ pre' /\ l2 = pre' ++ x :: post.
Proof.
  intros Hl1 Hx. revert pre. induction l1 as [|a l1 IH]; intros pre Heq.
  - exists pre. auto.
  - inversion Hl1 as [|? ? Ha Hl1']; subst.
    destruct pre as [|b pre]; cbn in Heq; injection Heq as -> Heq.
    + contradiction.
    + destruct (IH Hl1' pre Heq) as (pre' & -> & ->). exists pre'. auto.
Qed.

Section RelocationOrder.
Context {pd : Pandas} (env : Env).

(** C5. While one file is processed the trace only grows, and in what is
    added: a copy or a delete comes only after the row count of the file's
    table has been asked for and has come back not zero; a delete is of this
    file and comes only after the successful copy of this file to its
    completed key; and when no such verification took place nothing touches
    the file at all. *)
Theorem relocation_only_after_verification (bucket key : string) (t : Trace) :
  exists evs,
    snd (process_file env bucket key t) = t ++ evs
    /\ (forall pre e post,
          evs = pre ++ e :: post -> relocation e ->
          verified_in (table_name_of key) pre)
    /\ (forall pre b k r post,
          evs = pre ++ EvDeleteObject b k r :: post ->
          b = bucket /\ k = key /\ copied_in bucket key pre)
    /\ (~ verified_in (table_name_of key) evs ->
        Forall (fun e => ~ relocation e) evs).
Proof.
  destruct (process_file_shape env bucket key t)
    as (evs1 & evs2 & Ht & Hclean & Hmove).
  exists (evs1 ++ evs2). split; [exact Ht|]. split; [|split].
  - intros pre e post Heq He.
    destruct (split_after_clean relocation _ _ _ _ _ Hclean He Heq)
      as (pre' & -> & H2).
    destruct Hmove as [->|[Hv _]]; [now destruct pre'|].
    now apply verified_in_app_r.
  - intros pre b k r post Heq.
    destruct (split_after_clean relocation _ _ _ _
                (EvDeleteObject b k r) Hclean I Heq) as (pre' & -> & H2).
    destruct Hmove as [->|[_ [[e ->]|[r' ->]]]].
    + now destruct pre'.
    + destruct pre' as [|x [|y pre']]; discriminate.
    + destruct pre' as [|x [|y pre']]; try discriminate.
      * injection H2 as <- <- <- <- _.
        repeat split. apply in_or_app. right. now left.
      * injection H2 as _ _ H2. now destruct pre'.
  - intros Hnv. destruct Hmove as [->|[Hv _]].
    + now rewrite app_nil_r.
    + contradict Hnv. now apply verified_in_app_r.
Qed.

End RelocationOrder.

Lemma relocation_only_after_verification_witness :
  exists evs,
    snd (process_file Scenario.steady "uploads" "processed/sales.csv" []) = evs
    /\ (forall pre b k r post,
          evs = pre ++ EvDeleteObject b k r :: post ->
          copied_in "uploads" "processed/sales.csv" pre).
Proof.
  destruct (relocation_only_after_verification Scenario.steady
              "uploads" "processed/sales.csv" []) as (evs & H & _ & Hd & _).
  exists evs. split; [exact H|].
  intros pre b k r post Heq. exact (proj2 (proj2 (Hd pre b k r post Heq))).
Defined.

(** The trace of a file that goes through: the copy follows the row count,
    the delete follows the copy. *)
Example steady_file_goes_through :
  process_file Scenario.steady "uploads" "processed/sales.csv" [] =
  (Ok tt,
   [EvGetObject "uploads" "processed/sales.csv" (Ok "id,Total $");
    EvExecute (SqlTableCount "sales") (Ok "stmt-1");
    EvDescribe "stmt-1" (Ok Scenario.finished);
    EvGetResult "stmt-1" (Fetched (Scenario.one_row 200));
    EvExecute (SqlCopy "sales" "uploads" "processed/sales.csv") (Ok "stmt-1");
    EvDescribe "stmt-1" (Ok Scenario.finished);
    EvExecute (SqlCountRows "sales") (Ok "stmt-1");
    EvDescribe "stmt-1" (Ok Scenario.finished);
    EvGetResult "stmt-1" (Fetched (Scenario.one_row 200));
    EvCopyObject "uploads" "processed/sales.csv" "completed/sales.csv" (Ok tt);
    EvDeleteObject "uploads" "processed/sales.csv" (Ok tt)]).
Proof. reflexivity. Qed.

(** ** The stability watcher *)

Section Watcher.
Variables (env : Env) (bucket : string) (max_wait_time : Z).
Local Abbreviation seen := (Watch.seen env bucket).
Local Abbreviation remembered := (Watch.remembered env bucket).
Local Abbreviation unchanged := (Watch.unchanged env bucket).
Local Abbreviation run := (Watch.run env bucket).
Local Abbreviation state := (Watch.watch_state_at env bucket).
Local Abbreviation quiescent := (Watch.quiescent env bucket).
Local Abbreviation loop := (watch_loop env bucket max_wait_time).

Lemma run_ge (i k : nat) :
  (k <= run i)%nat <->
  (k <= i)%nat /\ forall j, (i - k <= j < i)%nat -> unchanged j.
Proof.
  revert k. induction i as [|i IH]; intros k.
  - cbn. split; [intros H; split; [lia | intros j Hj; lia] | intros [H _]; lia].
  - cbn [Watch.run]. destruct (decide (seen i = remembered i)) as [Hu|Hu].
    + destruct k as [|k].
      * split; [intros _; split; [lia | intros j Hj; lia] | lia].
      * rewrite <- Nat.succ_le_mono, IH. split.
        -- intros [Hk Hall]. split; [lia|]. intros j Hj.
           destruct (decide (j = i)) as [->|]; [exact Hu|]. apply Hall. lia.
        -- intros [Hk Hall]. split; [lia|]. intros j Hj. apply Hall. lia.
    + split.
      * intros Hk. assert (k = 0)%nat as -> by lia.
        split; [lia | intros j Hj; lia].
      * intros [Hk Hall]. destruct k as [|k]; [lia|].
        exfalso. apply Hu. apply (Hall i). lia.
Qed.

Lemma quiescent_run (n : nat) :
  quiescent n <-> unchanged n /\ (11 <= run n)%nat.
Proof.
  unfold Watch.quiescent. rewrite run_ge. split.
  - intros [Hn Hall]. split; [apply Hall; lia|]. split; [exact Hn|].
    intros j Hj. apply Hall. lia.
  - intros [Hu [Hn Hall]]. split; [exact Hn|]. intros j Hj.
    destruct (decide (j = n)) as [->|]; [exact Hu|]. apply Hall. lia.
Qed.

Lemma quiescent_dec (n : nat) : {quiescent n} + {~ quiescent n}.
Proof.
  destruct (decide (seen n = remembered n)) as [Hu|Hu].
  - destruct (le_dec 11 (run n)) as [Hr|Hr].
    + left. apply quiescent_run. now split.
    + right. rewrite quiescent_run. tauto.
  - right. rewrite quiescent_run. unfold Watch.unchanged. tauto.
Qed.

Lemma poll_quiescent (i : nat) :
  quiescent i ->
  watch_poll (seen i) (state i) = Return (elements (seen i)).
Proof.
  rewrite quiescent_run. intros [Hu Hr]. unfold watch_poll. cbn.
  rewrite decide_True by exact Hu.
  destruct (Z.leb_spec 12 (Z.of_nat (run i) + 1)); [reflexivity | lia].
Qed.

Lemma poll_not_quiescent (i : nat) :
  ~ quiescent i ->
  watch_poll (seen i) (state i) = Continue (state (S i)).
Proof.
  rewrite quiescent_run. intros Hq. unfold watch_poll, Watch.watch_state_at.
  cbn [previous_files stable_count Watch.run Watch.remembered].
  destruct (decide (seen i = remembered i)) as [Hu|Hu].
  - destruct (Z.leb_spec 12 (Z.of_nat (run i) + 1)) as [Hr|Hr].
    + exfalso. apply Hq. split; [exact Hu | lia].
    + rewrite <- Hu. do 2 f_equal. lia.
  - reflexivity.
Qed.

Lemma loop_skip (k i fuel : nat) :
  (forall j, (i <= j < i + k)%nat ->
             elapsed env j < max_wait_time /\ ~ quiescent j) ->
  loop (k + fuel) i (state i) = loop fuel (i + k) (state (i + k)).
Proof.
  revert i. induction k as [|k IH]; intros i Hall.
  - now rewrite Nat.add_0_r.
  - destruct (Hall i ltac:(lia)) as [Ht Hq].
    cbn [Nat.add watch_loop].
    destruct (Z.ltb_spec (elapsed env i) max_wait_time); [|lia].
    fold (seen i). rewrite (poll_not_quiescent i Hq).
    replace (i + S k)%nat with (S i + k)%nat by lia.
    apply IH. intros j Hj. apply Hall. lia.
Qed.

Lemma first_quiescent (n : nat) :
  (forall m, (m < n)%nat -> ~ quiescent m)
  \/ exists m, (m < n)%nat /\ quiescent m
               /\ forall j, (j < m)%nat -> ~ quiescent j.
Proof.
  induction n as [|n [IH|(m & Hm & Hq & Hfirst)]].
  - left. intros m Hm. lia.
  - destruct (quiescent_dec n) as [Hq|Hq].
    + right. exists n. split; [lia|]. split; [exact Hq|]. exact IH.
    + left. intros m Hm. destruct (decide (m = n)) as [->|]; [exact Hq|].
      apply IH. lia.
  - right. exists m. split; [lia|]. auto.
Qed.

Lemma loop_from_start (n fuel : nat) :
  (forall i, (i < n)%nat -> elapsed env i < max_wait_time) ->
  (forall m, (m < n)%nat -> ~ quiescent m) ->
  loop (n + fuel) 0 watch_init = loop fuel n (state n).
Proof.
  intros Ht Hq. change watch_init with (state 0).
  rewrite loop_skip; [reflexivity|]. intros j Hj. split; [apply Ht | apply Hq]; lia.
Qed.

(** C2. As long as the clock has not reached the limit, the watcher returns
    in a given turn of its loop exactly when that turn's listing ends the
    first run of twelve consecutive listings each equal to the one before
    (the first listing being compared with the empty set), and what it
    returns is that listing. When the clock reaches the limit before any such
    run, it returns what it remembers, the last listing, stable or not. It
    always returns once the clock has reached the limit, and with turns five
    seconds apart and a limit of 300 that is within 61 turns. *)
Theorem watcher_returns_when_quiescent :
  (forall n files,
     (forall i, (i <= n)%nat -> elapsed env i < max_wait_time) ->
     Watch.returns_at env bucket max_wait_time n files <->
     files = elements (seen n) /\ quiescent n
     /\ forall m, (m < n)%nat -> ~ quiescent m)
  /\ (forall n,
        (forall i, (i < n)%nat -> elapsed env i < max_wait_time) ->
        max_wait_time <= elapsed env n ->
        (forall m, (m < n)%nat -> ~ quiescent m) ->
        Watch.returns_at env bucket max_wait_time n (elements (remembered n)))
  /\ (forall n,
        max_wait_time <= elapsed env n ->
        exists files, loop (S n) 0 watch_init = Some files)
  /\ ((forall i, elapsed env i = 5 * Z.of_nat i) ->
      exists files, wait_for_file_processing env bucket 300 61 = Some files).
Proof.
  split; [|split; [|split]].
  - intros n files Ht. unfold Watch.returns_at. split.
    + intros [Hnone Hsome].
      destruct (first_quiescent n) as [Hq|(m & Hm & Hq & Hfirst)].
      * rewrite <- (Nat.add_0_r n) in Hnone at 1.
        replace (S n) with (n + 1)%nat in Hsome by lia.
        rewrite loop_from_start in Hsome
          by (auto; intros i Hi; apply Ht; lia).
        cbn [watch_loop] in Hsome.
        destruct (Z.ltb_spec (elapsed env n) max_wait_time) as [_|Hge];
          [|specialize (Ht n ltac:(lia)); lia].
        fold (seen n) in Hsome.
        destruct (quiescent_dec n) as [Hqn|Hqn].
        -- rewrite (poll_quiescent n Hqn) in Hsome. injection Hsome as <-. auto.
        -- rewrite (poll_not_quiescent n Hqn) in Hsome. discriminate.
      * exfalso. replace n with (m + S (n - S m))%nat in Hnone at 1 by lia.
        rewrite loop_from_start in Hnone
          by (auto; intros i Hi; apply Ht; lia).
        cbn [watch_loop] in Hnone.
        destruct (Z.ltb_spec (elapsed env m) max_wait_time) as [_|Hge];
          [|discriminate].
        fold (seen m) in Hnone. rewrite (poll_quiescent m Hq) in Hnone.
        discriminate.
    + intros (-> & Hq & Hfirst). split.
      * rewrite <- (Nat.add_0_r n) at 1.
        rewrite loop_from_start by (auto; intros i Hi; apply Ht; lia).
        reflexivity.
      * replace (S n) with (n + 1)%nat by lia.
        rewrite loop_from_start by (auto; intros i Hi; apply Ht; lia).
        cbn [watch_loop].
        destruct (Z.ltb_spec (elapsed env n) max_wait_time) as [_|Hge];
          [|specialize (Ht n ltac:(lia)); lia].
        fold (seen n). now rewrite (poll_quiescent n Hq).
  - intros n Ht Hn Hq. unfold Watch.returns_at. split.
    + rewrite <- (Nat.add_0_r n) at 1. now rewrite loop_from_start.
    + replace (S n) with (n + 1)%nat by lia. rewrite loop_from_start by auto.
      cbn [watch_loop].
      destruct (Z.ltb_spec (elapsed env n) max_wait_time); [lia | reflexivity].
  - intros n Hn. apply watch_loop_total. exact Hn.
  - intros Hclock. unfold wait_for_file_processing.
    apply watch_loop_total. rewrite Hclock. lia.
Qed.

End Watcher.

Lemma watcher_returns_when_quiescent_witness :
  Watch.returns_at Scenario.steady "uploads" 300 12
    (elements (Watch.seen Scenario.steady "uploads" 12)).
Proof.
  apply (proj1 (watcher_returns_when_quiescent Scenario.steady "uploads" 300)).
  - intros i Hi. cbn. lia.
  - split; [reflexivity|]. split.
    + split; [lia|]. intros j Hj. destruct j as [|j]; [lia | reflexivity].
    + intros m Hm [Hge Hall]. assert (m = 11)%nat as -> by lia.
      specialize (Hall 0%nat ltac:(lia)).
      apply (f_equal (fun s => bool_decide ("processed/sales.csv" ∈ s))) in Hall.
      vm_compute in Hall. discriminate.
Defined.

(** * Further properties *)

(** ** What a sanitised name looks like *)

Section Identifier.
Local Open Scope N_scope.

(** X1. Whatever the input, the sanitised name is not empty, holds only
    characters that are alphanumeric or the underscore, is left as it is by
    lower-casing, and does not start with a digit. *)
Theorem clean_column_name_identifier (x : list N) :
  Ucs4.clean_column_name x <> []
  /\ Forall (fun c => Ucs4.isalnum c = true \/ c = 0x5F)
       (Ucs4.clean_column_name x)
  /\ Ucs4.lower (Ucs4.clean_column_name x) = Ucs4.clean_column_name x
  /\ (forall c r, Ucs4.clean_column_name x = c :: r -> Ucs4.isdigit c = false).
Proof.
  destruct x as [|c0 r0].
  - split; [discriminate|]. split; [|split].
    + repeat constructor; left; vm_compute; reflexivity.
    + vm_compute. reflexivity.
    + intros c r [= <- _]. vm_compute. reflexivity.
  - destruct (cleaned_body c0 r0) as (c & r & Hc & Hfix & Hmap & Hid).
    destruct col_prefix_clean as (Hpm & Hpf & Hpi & Hpd).
    unfold Ucs4.clean_column_name. rewrite Hc. unfold Ucs4.lower.
    destruct (Ucs4.isdigit c) eqn:Hd.
    + split; [discriminate|]. split; [|split].
      * apply Forall_app. now split.
      * apply lower_from_id, Forall_app. now split.
      * intros c1 r1 [= <- _]. now apply (Hpd _ _ eq_refl).
    + split; [discriminate|]. split; [exact Hid|]. split.
      * now apply lower_from_id.
      * now intros c1 r1 [= <- _].
Qed.

End Identifier.

(** ** The columns of a created table *)

Section Columns.
Context {V : Type}.
Implicit Types (d : list (string * V)) (k : string) (v : V).

Lemma dict_set_present k v d :
  k ∈ d.*1 -> (dict_set k v d).*1 = d.*1.
Proof.
  induction d as [|[k' v'] d IH]; cbn; [intros H; inversion H|].
  destruct (String.eqb_spec k k') as [->|Hne]; [reflexivity|].
  intros [?|Hin]%elem_of_cons; [congruence|]. cbn. now rewrite IH.
Qed.

Lemma dict_set_absent k v d :
  k ∉ d.*1 -> dict_set k v d = d ++ [(k, v)].
Proof.
  induction d as [|[k' v'] d IH]; cbn; [reflexivity|].
  intros Hnin. apply not_elem_of_cons in Hnin as [Hne Hnin].
  destruct (String.eqb_spec k k') as [->|_]; [congruence|]. now rewrite IH.
Qed.

Lemma dict_set_keys k v d name :
  name ∈ (dict_set k v d).*1 <-> name = k \/ name ∈ d.*1.
Proof.
  destruct (decide (k ∈ d.*1)) as [Hin|Hnin].
  - rewrite dict_set_present by exact Hin. split; [auto|].
    intros [->|?]; assumption.
  - rewrite dict_set_absent by exact Hnin.
    rewrite fmap_app, elem_of_app. cbn. rewrite list_elem_of_singleton. tauto.
Qed.

Lemma dict_set_nodup k v d : NoDup d.*1 -> NoDup (dict_set k v d).*1.
Proof.
  intros Hnd. destruct (decide (k ∈ d.*1)) as [Hin|Hnin].
  - now rewrite dict_set_present.
  - rewrite dict_set_absent by exact Hnin. rewrite fmap_app.
    apply NoDup_app. split; [exact Hnd|]. split.
    + intros x Hx [->|H]%elem_of_cons; [contradiction | inversion H].
    + apply NoDup_singleton.
Qed.

Lemma dict_set_length k v d :
  (length (dict_set k v d) <= S (length d))%nat.
Proof.
  induction d as [|[k' v'] d IH]; cbn; [lia|].
  destruct (String.eqb k k'); cbn; lia.
Qed.

Lemma dict_set_new k v d : (k, v) ∈ dict_set k v d.
Proof.
  induction d as [|[k' v'] d IH]; cbn; [apply list_elem_of_here|].
  destruct (String.eqb_spec k k') as [->|_];
    [apply list_elem_of_here | now apply list_elem_of_further].
Qed.

Lemma dict_set_other k v d k' v' :
  k' <> k -> (k', v') ∈ d -> (k', v') ∈ dict_set k v d.
Proof.
  intros Hne. induction d as [|[k0 v0] d IH]; cbn; [intros H; inversion H|].
  destruct (String.eqb_spec k k0) as [->|_].
  - intros [[= -> ->]|Hin]%elem_of_cons; [congruence|].
    now apply list_elem_of_further.
  - intros [->|Hin]%elem_of_cons;
      [apply list_elem_of_here | apply list_elem_of_further; auto].
Qed.

End Columns.

Section ColumnTypes.
Context {C V : Type} (name_of : C -> string) (type_of : C -> V).

Local Abbreviation fill :=
  (fold_left (fun d col => dict_set (name_of col) (type_of col) d)).

Lemma fill_keys (cols : list C) (d : list (string * V)) (name : string) :
  name ∈ (fill cols d).*1 <-> name ∈ d.*1 \/ name ∈ name_of <$> cols.
Proof.
  revert d. induction cols as [|col cols IH]; intros d; cbn.
  - split; [auto | intros [?|H]; [assumption | inversion H]].
  - rewrite IH, dict_set_keys, elem_of_cons. tauto.
Qed.

Lemma fill_nodup (cols : list C) (d : list (string * V)) :
  NoDup d.*1 -> NoDup (fill cols d).*1.
Proof.
  revert d. induction cols as [|col cols IH]; intros d Hnd; cbn; [exact Hnd|].
  apply IH, dict_set_nodup, Hnd.
Qed.

Lemma fill_length (cols : list C) (d : list (string * V)) :
  (length (fill cols d) <= length d + length cols)%nat.
Proof.
  revert d. induction cols as [|col cols IH]; intros d; cbn; [lia|].
  pose proof (IH (dict_set (name_of col) (type_of col) d)).
  pose proof (dict_set_length (name_of col) (type_of col) d). lia.
Qed.

Lemma fill_keeps (cols : list C) (d : list (string * V)) k v :
  k ∉ name_of <$> cols -> (k, v) ∈ d -> (k, v) ∈ fill cols d.
Proof.
  revert d. induction cols as [|col cols IH]; intros d Hnin Hin; cbn;
    [exact Hin|].
  cbn in Hnin. apply not_elem_of_cons in Hnin as [Hne Hnin].
  apply IH; [exact Hnin|]. now apply dict_set_other.
Qed.

Lemma fill_last_wins (pre post : list C) (col : C) (d : list (string * V)) :
  name_of col ∉ name_of <$> post ->
  (name_of col, type_of col) ∈ fill (pre ++ col :: post) d.
Proof.
  intros Hnin. rewrite fold_left_app. cbn.
  apply fill_keeps; [exact Hnin | apply dict_set_new].
Qed.

Lemma fill_distinct (cols : list C) (d : list (string * V)) :
  NoDup (name_of <$> cols) ->
  (forall name, name ∈ name_of <$> cols -> name ∉ d.*1) ->
  fill cols d = d ++ ((fun col => (name_of col, type_of col)) <$> cols).
Proof.
  revert d. induction cols as [|col cols IH]; intros d Hnd Hfresh; cbn.
  - now rewrite app_nil_r.
  - cbn in Hnd. apply NoDup_cons in Hnd as [Hcol Hnd].
    rewrite dict_set_absent by (apply Hfresh; cbn; apply list_elem_of_here).
    rewrite IH; [now rewrite <- app_assoc|exact Hnd|].
    intros name Hin. rewrite fmap_app, elem_of_app. cbn.
    rewrite list_elem_of_singleton. intros [Hd| ->]; [|contradiction].
    revert Hd. apply Hfresh. cbn. now apply list_elem_of_further.
Qed.

End ColumnTypes.

(** X2. The column list of the CREATE statement is what the dict
    comprehension of [create_table] leaves: its names are those of the
    sanitised headers, each once; there are no more columns than the file has;
    when two headers sanitise to the same name, one column stands for both and
    its type is the one inferred for the last of them; and when all sanitised
    headers differ, the columns are those of the file, in order. *)
Theorem column_types_merge_clashes {pd : Pandas} (df : DataFrame) :
  NoDup (column_types df).*1
  /\ (forall name,
        name ∈ (column_types df).*1 <->
        name ∈ (fun col => clean_column_name (fst col)) <$> df)
  /\ (length (column_types df) <= length df)%nat
  /\ (forall pre col post,
        df = pre ++ col :: post ->
        clean_column_name (fst col)
          ∉ (fun c => clean_column_name (fst c)) <$> post ->
        (clean_column_name (fst col), detect_data_type (snd col))
          ∈ column_types df)
  /\ (NoDup ((fun col => clean_column_name (fst col)) <$> df) ->
      column_types df =
      (fun col => (clean_column_name (fst col), detect_data_type (snd col)))
        <$> df).
Proof.
  unfold column_types. repeat split.
  - apply (fill_nodup (fun col => clean_column_name (fst col))
             (fun col => detect_data_type (snd col))). constructor.
  - intros H.
    apply (fill_keys (fun col => clean_column_name (fst col))
             (fun col => detect_data_type (snd col))) in H as [H|H];
      [inversion H | exact H].
  - intros H.
    apply (fill_keys (fun col => clean_column_name (fst col))
             (fun col => detect_data_type (snd col))). now right.
  - pose proof (fill_length (fun col => clean_column_name (fst col))
                  (fun col => detect_data_type (snd col)) df []) as H.
    cbn in H. exact H.
  - intros pre col post -> Hnin.
    apply (fill_last_wins (fun col => clean_column_name (fst col))
             (fun col => detect_data_type (snd col))). exact Hnin.
  - intros Hnd.
    apply (fill_distinct (fun col => clean_column_name (fst col))
             (fun col => detect_data_type (snd col)) df []); [exact Hnd|].
    intros name _ H. inversion H.
Qed.

Lemma column_types_merge_clashes_witness :
  ("total__", VARCHAR 256) ∈ column_types Cases.clashing_frame
  /\ column_types Scenario.sales_frame
     = [("id", BIGINT); ("total__", DECIMAL_18_2)].
Proof.
  split.
  - refine (proj1 (proj2 (proj2 (proj2
              (column_types_merge_clashes Cases.clashing_frame))))
              (take 2 Cases.clashing_frame)
              ("total__", {| dtype := np_object; values := [CStr "n/a"] |})
              [] eq_refl _).
    intros H; inversion H.
  - refine (proj2 (proj2 (proj2 (proj2
              (column_types_merge_clashes Scenario.sales_frame)))) _).
    vm_compute. repeat constructor; intros H; inversion H; subst;
      match goal with H : _ ∈ _ |- _ => inversion H end.
Defined.

Example clashing_frame_columns :
  column_types Cases.clashing_frame
  = [("total__", VARCHAR 256); ("id", BIGINT)].
Proof. reflexivity. Qed.

(** ** More on type inference *)

(** X3. Whatever the pandas calls answer, a VARCHAR width that type
    inference gives is at least 256 and at most 65535. *)
Theorem detect_varchar_within_bounds (lib : Pandas) (s : Series) (n : Z) :
  @detect_data_type lib s = VARCHAR n -> 256 <= n <= 65535.
Proof.
  unfold detect_data_type, detect_body, exc_bind.
  destruct (pd_dropna s) as [non_null|]; [|intros [= <-]; lia].
  destruct (_ =? 0); [intros [= <-]; lia|].
  destruct (is_datetime64_any_dtype s) as [[]|]; try discriminate;
    [|intros [= <-]; lia].
  destruct (is_bool_dtype s) as [[]|]; try discriminate; [|intros [= <-]; lia].
  destruct (is_integer_dtype s) as [[]|]; try discriminate;
    [|intros [= <-]; lia].
  destruct (is_float_dtype s) as [[]|]; try discriminate; [|intros [= <-]; lia].
  destruct (is_string_dtype s) as [[]|]; [|intros [= <-]; lia..].
  destruct (astype_str_len_max s) as [max_length|]; intros [= <-]; lia.
Qed.

Lemma detect_varchar_within_bounds_witness :
  detect_data_type Cases.long_text_column = VARCHAR 65535
  /\ 256 <= 65535 <= 65535.
Proof.
  split; [vm_compute; reflexivity|].
  apply (detect_varchar_within_bounds pandas Cases.long_text_column).
  vm_compute. reflexivity.
Defined.

Lemma max_list_perm (l l' : list Z) : l ≡ₚ l' -> max_list l = max_list l'.
Proof.
  unfold max_list.
  induction 1 as [|x l l' _ IH|x y l|l l' l'' _ IH1 _ IH2]; cbn;
    [reflexivity | lia | lia | congruence].
Qed.

(** X4. The inferred type does not depend on the order of the rows: two
    columns of the same dtype whose values are a rearrangement of one another
    get the same type. *)
Theorem detect_ignores_row_order (s s' : Series) :
  dtype s = dtype s' -> values s ≡ₚ values s' ->
  detect_data_type s = detect_data_type s'.
Proof.
  intros Hd Hv. rewrite !detect_pandas153, Hd.
  assert (Hlen : length (dropna (values s)) = length (dropna (values s'))).
  { unfold dropna. now rewrite Hv. }
  assert (Hmax : str_len_max (values s) = str_len_max (values s')).
  { unfold str_len_max. apply max_list_perm. now rewrite Hv. }
  now rewrite Hlen, Hmax.
Qed.

Lemma detect_ignores_row_order_witness :
  detect_data_type
    {| dtype := np_object; values := [CStr "ab"; CNull NaN; CStr "c"] |}
  = detect_data_type
      {| dtype := np_object; values := [CNull NaN; CStr "c"; CStr "ab"] |}.
Proof.
  apply detect_ignores_row_order; [reflexivity|]. cbn.
  etransitivity; [apply Permutation_swap|].
  apply Permutation_skip, Permutation_swap.
Defined.

(** X5. Apart from BIGINT, each answer is decided by the dtype of a column
    that has a non-null value: TIMESTAMP exactly for a datetime dtype, BOOLEAN
    exactly for a boolean one, DECIMAL(18,2) exactly for a float one; and a
    column of text dtype is always VARCHAR, even when every value in it is a
    date, a boolean or a number. *)
Theorem detect_decided_by_dtype (s : Series) :
  (detect_data_type s = TIMESTAMP <->
   dropna (values s) <> [] /\ datetime64_any (dtype s) = true)
  /\ (detect_data_type s = BOOLEAN <->
      dropna (values s) <> [] /\ bool_dtype (dtype s) = true)
  /\ (detect_data_type s = DECIMAL_18_2 <->
      dropna (values s) <> [] /\ float_dtype (dtype s) = true)
  /\ (string_dtype (dtype s) = true -> exists n, detect_data_type s = VARCHAR n).
Proof.
  rewrite detect_pandas153.
  destruct (dropna (values s)) as [|c l] eqn:Hn.
  - cbn. repeat split; try discriminate; try (intros [H _]; congruence); eauto.
  - rewrite nonempty_length by discriminate.
    destruct (dtype s) as [| | | | | | | | | | | | |[]| |]; cbn;
      repeat split; try discriminate; try congruence; eauto;
      intros [_ H]; discriminate.
Qed.

Lemma detect_decided_by_dtype_witness :
  exists n,
    detect_data_type
      {| dtype := np_object; values := [CStr "2024-01-31"; CStr "2024-02-29"] |}
    = VARCHAR n.
Proof.
  apply (proj2 (proj2 (proj2 (detect_decided_by_dtype
           {| dtype := np_object;
              values := [CStr "2024-01-31"; CStr "2024-02-29"] |})))).
  reflexivity.
Defined.

(** ** The waiter's budget *)

Section WaiterBudget.
Variable env : Env.

Lemma wait_loop_budget n statement_id expect_results t :
  exists evs,
    snd (wait_loop env n statement_id expect_results t) = t ++ evs
    /\ Forall (poll_of statement_id) evs
    /\ (polls evs <= n)%nat
    /\ ((1 <= polls evs)%nat /\ slept evs = 5 * (Z.of_nat (polls evs) - 1)
        \/ polls evs = n /\ slept evs = 5 * Z.of_nat n
           /\ fst (wait_loop env n statement_id expect_results t)
              = Raise "Query timed out waiting for completion").
Proof.
  revert t. induction n as [|n IH]; intros t.
  - exists []. cbn. rewrite app_nil_r. repeat split; auto.
  - cbn [wait_loop]. unfold bind, rs_describe_statement, time_sleep.
    set (d := EvDescribe statement_id (describe_statement env t statement_id)).
    assert (Hd : poll_of statement_id d) by reflexivity.
    destruct (describe_statement env t statement_id) as [st|e].
    2:{ exists [d]. split; [reflexivity|]. split; [repeat constructor|].
        cbn. split; [lia|]. left. split; lia. }
    destruct (String.eqb (Status st) "FINISHED").
    { destruct expect_results.
      - unfold rs_get_statement_result. eexists [d; _]. cbn [snd].
        rewrite <- app_assoc. split; [reflexivity|].
        split; [repeat constructor|]. cbn. split; [lia|]. left. split; lia.
      - exists [d]. split; [reflexivity|]. split; [repeat constructor|].
        cbn. split; [lia|]. left. split; lia. }
    destruct (String.eqb (Status st) "FAILED" || String.eqb (Status st) "ABORTED")%bool.
    { exists [d]. split; [reflexivity|]. split; [repeat constructor|].
      cbn. split; [lia|]. left. split; lia. }
    destruct (IH ((t ++ [d]) ++ [EvSleep 5])) as (evs & He & HF & Hp & Hs).
    exists (d :: EvSleep 5 :: evs). rewrite He.
    split; [now rewrite <- !app_assoc|]. split; [repeat constructor; auto|].
    subst d. cbn [polls slept]. split; [lia|].
    destruct Hs as [[H1 H2]|(H1 & H2 & H3)]; [left | right].
    + split; lia.
    + split; [lia|]. split; [lia | exact H3].
Qed.

End WaiterBudget.

Section WaiterCount.
Variables (env : Env) (statement_id : string) (expect_results : bool)
  (t0 : Trace).
Local Abbreviation trace_at := (trace_at env statement_id t0).
Local Abbreviation answer := (answer env statement_id t0).

(** One turn of the loop, from the trace of poll number [k]. *)
Lemma wait_loop_unfold (n k : nat) :
  wait_loop env (S n) statement_id expect_results (trace_at k) =
  let t := trace_at k ++ [EvDescribe statement_id (answer k)] in
  match answer k with
  | Raise e => (Raise e, t)
  | Ok st =>
      if String.eqb (Status st) "FINISHED" then
        if expect_results then rs_get_statement_result env statement_id t
        else (Ok None, t)
      else if (String.eqb (Status st) "FAILED"
               || String.eqb (Status st) "ABORTED")%bool then
        (Raise ("Query failed with status " +:+ Status st +:+ ": "
                +:+ default "No error message provided" (Error st)), t)
      else wait_loop env n statement_id expect_results (trace_at (S k))
  end.
Proof.
  cbn [wait_loop]. unfold bind at 1, rs_describe_statement.
  fold (answer k). destruct (answer k) as [st|e] eqn:Ha; [|reflexivity].
  destruct (String.eqb (Status st) "FINISHED").
  - destruct expect_results; reflexivity.
  - destruct (String.eqb (Status st) "FAILED" || String.eqb (Status st) "ABORTED")%bool;
      [reflexivity|].
    unfold bind, time_sleep. cbn [trace_at]. fold (answer k).
    rewrite Ha. reflexivity.
Qed.

(** What a turn appends, and whether the loop goes on. *)
Lemma wait_loop_turn (n k : nat) :
  match verdict (answer k) with
  | VPending =>
      wait_loop env (S n) statement_id expect_results (trace_at k)
      = wait_loop env n statement_id expect_results (trace_at (S k))
  | _ =>
      exists evs,
        snd (wait_loop env (S n) statement_id expect_results (trace_at k))
        = trace_at k ++ EvDescribe statement_id (answer k) :: evs
        /\ polls evs = O /\ slept evs = 0
        /\ last (EvDescribe statement_id (answer k) :: evs) <> Some (EvSleep 5)
  end.
Proof.
  rewrite wait_loop_unfold. unfold verdict. cbv zeta.
  destruct (answer k) as [st|e].
  2:{ exists []. repeat split. cbn. discriminate. }
  destruct (String.eqb (Status st) "FINISHED").
  { destruct expect_results.
    - unfold rs_get_statement_result. eexists [_]. cbn [snd].
      rewrite <- app_assoc. repeat split. cbn. discriminate.
    - exists []. repeat split. cbn. discriminate. }
  destruct (String.eqb (Status st) "FAILED" || String.eqb (Status st) "ABORTED")%bool.
  { exists []. repeat split. cbn. discriminate. }
  reflexivity.
Qed.

Lemma wait_loop_count (n k : nat) :
  exists evs,
    snd (wait_loop env n statement_id expect_results (trace_at k))
    = trace_at k ++ evs
    /\ ((forall i, (k <= i < k + n)%nat -> verdict (answer i) = VPending)
        /\ fst (wait_loop env n statement_id expect_results (trace_at k))
           = Raise "Query timed out waiting for completion"
        /\ polls evs = n /\ slept evs = 5 * Z.of_nat n
        /\ last evs = match n with O => None | S _ => Some (EvSleep 5) end
        \/ exists j, (k <= j < k + n)%nat
             /\ (forall i, (k <= i < j)%nat -> verdict (answer i) = VPending)
             /\ verdict (answer j) <> VPending
             /\ polls evs = S (j - k)
             /\ slept evs = 5 * Z.of_nat (j - k)
             /\ last evs <> Some (EvSleep 5)).
Proof.
  revert k. induction n as [|n IH]; intros k.
  - exists []. cbn. rewrite app_nil_r. split; [reflexivity|]. left.
    repeat split. intros i Hi; lia.
  - pose proof (wait_loop_turn n k) as Hturn.
    destruct (verdict (answer k)) eqn:Hv.
    2-4: destruct Hturn as (evs & He & Hp & Hs & Hl);
         eexists; split; [exact He|]; right; exists k;
         (split; [lia|]); (split; [intros i Hi; lia|]);
         (split; [rewrite Hv; discriminate|]);
         rewrite Nat.sub_diag; cbn [polls slept]; rewrite Hp, Hs;
         repeat split; auto.
    rewrite Hturn.
    destruct (IH (S k)) as (evs & He & Hcase).
    exists (EvDescribe statement_id (answer k) :: EvSleep 5 :: evs).
    split.
    { rewrite He. cbn [trace_at]. now rewrite <- !app_assoc. }
    cbn [polls slept].
    destruct Hcase as [(Hall & Hr & Hp & Hs & Hl)
                      |(j & Hj & Hall & Hvj & Hp & Hs & Hl)].
    + left. split.
      { intros i Hi. destruct (decide (i = k)) as [->|]; [exact Hv|].
        apply Hall. lia. }
      split; [exact Hr|]. split; [lia|]. split; [lia|].
      rewrite !last_cons, Hl. now destruct n.
    + right. exists j. split; [lia|]. split.
      { intros i Hi. destruct (decide (i = k)) as [->|]; [exact Hv|].
        apply Hall. lia. }
      split; [exact Hvj|]. split; [lia|]. split; [lia|].
      rewrite !last_cons. destruct (last evs) as [x|] eqn:Hlast.
      * exact Hl.
      * apply last_None in Hlast. subst evs. discriminate Hp.
Qed.

(** X6. A wait for a statement asks for its status at least once and at
    most 60 times, touches nothing but that statement, and sleeps five
    seconds after every poll that found it still running, and only then.
    When poll number [j] (from 0) is the first that does not find it
    running, the wait makes [j + 1] polls and sleeps [5 * j] seconds, and
    it does not end on a sleep. When all 60 polls find it running, it makes
    60 polls, sleeps the full 300 seconds, the last five after the last
    poll, and raises its time-out error. *)
Theorem waiter_poll_budget :
  exists evs,
    snd (wait_for_query_completion env statement_id expect_results t0)
    = t0 ++ evs
    /\ Forall (poll_of statement_id) evs
    /\ (1 <= polls evs <= 60)%nat
    /\ ((forall i, (i < 60)%nat -> verdict (answer i) = VPending)
        /\ fst (wait_for_query_completion env statement_id expect_results t0)
           = Raise "Query timed out waiting for completion"
        /\ polls evs = 60%nat /\ slept evs = 300
        /\ last evs = Some (EvSleep 5)
        \/ exists j, (j < 60)%nat
             /\ (forall i, (i < j)%nat -> verdict (answer i) = VPending)
             /\ verdict (answer j) <> VPending
             /\ polls evs = S j /\ slept evs = 5 * Z.of_nat j
             /\ last evs <> Some (EvSleep 5)).
Proof.
  unfold wait_for_query_completion, max_retries.
  destruct (wait_loop_budget env 60 statement_id expect_results t0)
    as (evs & He & HF & _).
  destruct (wait_loop_count 60 0) as (evs' & He' & Hcase).
  change (trace_at 0) with t0 in He', Hcase.
  rewrite He in He'. apply app_inv_head in He'. subst evs'.
  exists evs. split; [exact He|]. split; [exact HF|].
  destruct Hcase as [(Hall & Hr & Hp & Hs & Hl)
                    |(j & Hj & Hall & Hvj & Hp & Hs & Hl)].
  - split; [lia|]. left. split; [intros i Hi; apply Hall; lia|].
    split; [exact Hr|]. split; [exact Hp|]. split; [lia | exact Hl].
  - rewrite Nat.sub_0_r in Hp, Hs. split; [lia|]. right. exists j.
    split; [lia|]. split; [intros i Hi; apply Hall; lia|]. auto.
Qed.

End WaiterCount.

Example stuck_statement_times_out :
  let r := wait_for_query_completion Cases.stuck "stmt-1" true [] in
  fst r = Raise "Query timed out waiting for completion"
  /\ polls (snd r) = 60%nat /\ slept (snd r) = 300.
Proof. vm_compute. repeat split; reflexivity. Qed.

(** ** When the waiter fetches *)

Lemma cons_eq_app_cons {A} (x y : A) (l pre post : list A) :
  x <> y -> x :: l = pre ++ y :: post ->
  exists pre', pre = x :: pre' /\ l = pre' ++ y :: post.
Proof.
  intros Hne Heq. destruct pre as [|z pre]; cbn in Heq.
  - injection Heq as -> _. contradiction.
  - injection Heq as <- ->. eauto.
Qed.

Section WaiterFetch.
Variable env : Env.

Lemma wait_loop_fetch_last n statement_id expect_results t pre id r post :
  snd (wait_loop env n statement_id expect_results t)
  = t ++ pre ++ EvGetResult id r :: post ->
  post = [] /\ id = statement_id /\ expect_results = true
  /\ (exists pre' st, pre = pre' ++ [EvDescribe statement_id (Ok st)]
                      /\ Status st = "FINISHED")
  /\ fst (wait_loop env n statement_id expect_results t) = fetched r.
Proof.
  revert t pre. induction n as [|n IH]; intros t pre.
  - cbn. intros H. rewrite <- (app_nil_r t) in H at 1.
    apply app_inv_head in H. now destruct pre.
  - cbn [wait_loop].
    unfold bind, rs_describe_statement, time_sleep, rs_get_statement_result.
    destruct (describe_statement env t statement_id) as [st|e] eqn:Hd.
    2:{ cbn. intros H. apply app_inv_head in H.
        apply cons_eq_app_cons in H as (pre' & _ & H); [|discriminate].
        now destruct pre'. }
    destruct (String.eqb_spec (Status st) "FINISHED") as [Hfin|_].
    { destruct expect_results; cbn [snd fst].
      - rewrite <- app_assoc. intros H. apply app_inv_head in H. cbn in H.
        apply cons_eq_app_cons in H as (pre' & -> & H); [|discriminate].
        destruct pre' as [|x pre']; cbn in H.
        + injection H as <- <- <-.
          split; [reflexivity|]. split; [reflexivity|]. split; [reflexivity|].
          split; [exists [], st; auto | reflexivity].
        + injection H as _ H. now destruct pre'.
      - intros H. apply app_inv_head in H.
        apply cons_eq_app_cons in H as (pre' & _ & H); [|discriminate].
        now destruct pre'. }
    destruct (String.eqb (Status st) "FAILED" || String.eqb (Status st) "ABORTED")%bool.
    { cbn. intros H. apply app_inv_head in H.
      apply cons_eq_app_cons in H as (pre' & _ & H); [|discriminate].
      now destruct pre'. }
    intros H.
    destruct (emits_extends _ _ ((t ++ [EvDescribe statement_id (Ok st)])
                                   ++ [EvSleep 5])
                (emits_wait_loop env n statement_id expect_results))
      as (evs & He).
    rewrite He, <- !app_assoc in H. apply app_inv_head in H. cbn in H.
    apply cons_eq_app_cons in H as (pre1 & -> & H); [|discriminate].
    apply cons_eq_app_cons in H as (pre2 & -> & H); [|discriminate].
    subst evs.
    destruct (IH _ _ He) as (Hpost & Hid & Hexp & (pre' & st' & -> & Hst) & Hres).
    split; [exact Hpost|]. split; [exact Hid|]. split; [exact Hexp|].
    split; [|exact Hres].
    exists (EvDescribe statement_id (Ok st) :: EvSleep 5 :: pre'), st'.
    split; [reflexivity | exact Hst].
Qed.

(** X7. The waiter asks for a result set at most once, as the last thing it
    does, only when results are expected and right after the poll that found
    the statement FINISHED; what the wait then gives is the outcome of that
    fetch. In particular a wait that expects no result never fetches. *)
Theorem waiter_fetches_once_at_the_end
  (statement_id : string) (expect_results : bool) (t : Trace) :
  forall pre id r post,
    snd (wait_for_query_completion env statement_id expect_results t)
    = t ++ pre ++ EvGetResult id r :: post ->
    post = [] /\ id = statement_id /\ expect_results = true
    /\ (exists pre' st, pre = pre' ++ [EvDescribe statement_id (Ok st)]
                        /\ Status st = "FINISHED")
    /\ fst (wait_for_query_completion env statement_id expect_results t)
       = fetched r.
Proof. intros pre id r post. apply wait_loop_fetch_last. Qed.

End WaiterFetch.

Lemma waiter_fetches_once_at_the_end_witness :
  fst (wait_for_query_completion Scenario.empty_load "stmt-1" true [])
  = fetched (Fetched (Scenario.one_row 0)).
Proof.
  apply (waiter_fetches_once_at_the_end Scenario.empty_load "stmt-1" true []
           [EvDescribe "stmt-1" (Ok Scenario.finished)] "stmt-1"
           (Fetched (Scenario.one_row 0)) []).
  reflexivity.
Defined.

(** ** The statements a file costs *)

Lemma sent_app (a b : list Event) : sent (a ++ b) = sent a ++ sent b.
Proof.
  induction a as [|e a IH]; [reflexivity|].
  destruct e; cbn; now rewrite IH.
Qed.

Lemma sent_none (P : Event -> Prop) (evs : list Event) :
  (forall sql r, ~ P (EvExecute sql r)) -> Forall P evs -> sent evs = [].
Proof.
  intros HP. induction 1 as [|e evs He _ IH]; [reflexivity|].
  destruct e; cbn; auto. now apply HP in He.
Qed.

Lemma poll_event_sent evs : Forall poll_event evs -> sent evs = [].
Proof. apply sent_none. intros sql r []. Qed.

Lemma relocation_sent evs : Forall relocation evs -> sent evs = [].
Proof. apply sent_none. intros sql r []. Qed.

Section Statements.
Context {pd : Pandas} (env : Env).

Lemma emits_wait_poll n statement_id expect_results :
  emits poll_event (wait_loop env n statement_id expect_results).
Proof.
  intros t.
  destruct (wait_loop_budget env n statement_id expect_results t)
    as (evs & He & HF & _).
  exists evs. split; [exact He|]. eapply Forall_impl; [exact HF|].
  intros [] H; cbn in *; auto.
Qed.

Lemma emits_move_relocation bucket key :
  emits relocation (move_to_completed env bucket key).
Proof.
  apply emits_try; [|intros; apply emits_raise].
  apply emits_bind; [|intros _; apply emits_bind; [|intros; apply emits_ret]];
    intros t; eexists [_]; (split; [reflexivity|]); repeat constructor.
Qed.

(** The existence check sends its one query, whatever becomes of it. *)
Lemma check_sent table_name t :
  exists evs,
    snd (check_table_exists env table_name t) = t ++ evs
    /\ sent evs = [SqlTableCount table_name].
Proof.
  unfold check_table_exists, check_table_query. rewrite try_bind_run.
  unfold rs_execute_statement at 1.
  set (ev := EvExecute _ _).
  destruct (execute_statement env t (SqlTableCount table_name))
    as [response_id|e].
  - match goal with
    | |- context [try_except ?m ?h ?t'] =>
        assert (HF : emits poll_event (try_except m h))
    end.
    { apply emits_try; [|intros; apply emits_ret].
      apply emits_bind; [apply emits_wait_poll|]. intros [r|];
        [|apply emits_ret].
      destruct (has_records (Some r)); [|apply emits_ret].
      apply emits_bind; [apply emits_lift | intros; apply emits_ret]. }
    destruct (HF (t ++ [ev])) as (evs' & He' & HF').
    exists (ev :: evs'). rewrite He', <- app_assoc. split; [reflexivity|].
    subst ev. cbn. now rewrite (poll_event_sent _ HF').
  - exists [ev]. split; reflexivity.
Qed.

Lemma create_sent table_name df t :
  exists evs,
    snd (create_table env table_name df t) = t ++ evs
    /\ sent evs = [SqlCreateTable table_name (column_types df)].
Proof.
  unfold create_table. rewrite try_bind_run.
  unfold rs_execute_statement at 1.
  set (ev := EvExecute _ _).
  destruct (execute_statement env t _) as [response_id|e].
  - match goal with
    | |- context [try_except ?m ?h ?t'] =>
        assert (HF : emits poll_event (try_except m h))
    end.
    { apply emits_try; [|intros; apply emits_raise].
      apply emits_bind; [apply emits_wait_poll | intros; apply emits_ret]. }
    destruct (HF (t ++ [ev])) as (evs' & He' & HF').
    exists (ev :: evs'). rewrite He', <- app_assoc. split; [reflexivity|].
    subst ev. cbn. now rewrite (poll_event_sent _ HF').
  - exists [ev]. split; reflexivity.
Qed.

Lemma load_sent table_name bucket key t :
  exists evs,
    snd (load_data_to_redshift env table_name bucket key t) = t ++ evs
    /\ (sent evs = [SqlCopy table_name bucket key]
        \/ sent evs = [SqlCopy table_name bucket key; SqlCountRows table_name]).
Proof.
  unfold load_data_to_redshift. rewrite try_bind_run.
  unfold rs_execute_statement at 1.
  set (ev1 := EvExecute _ _).
  destruct (execute_statement env t _) as [copy_id|e].
  2:{ exists [ev1]. split; [reflexivity | now left]. }
  rewrite try_bind_run.
  destruct (wait_for_query_completion env copy_id false (t ++ [ev1]))
    as [[r1|e] t2] eqn:H2;
    apply (run_extends _ _ _ _ _ (emits_wait_poll _ _ _)) in H2
      as (evw & -> & Hw).
  2:{ exists (ev1 :: evw). cbn [raise snd]. rewrite <- app_assoc.
      split; [reflexivity|]. left. subst ev1. cbn.
      now rewrite (poll_event_sent _ Hw). }
  rewrite try_bind_run. unfold rs_execute_statement at 1.
  set (ev2 := EvExecute _ _).
  destruct (execute_statement env _ (SqlCountRows table_name)) as [verify_id|e].
  - match goal with
    | |- context [try_except ?m ?h ?t'] =>
        assert (HF : emits poll_event (try_except m h))
    end.
    { apply emits_try; [|intros; apply emits_raise].
      apply emits_bind; [apply emits_wait_poll|]. intros [r|];
        [|apply emits_raise].
      destruct (has_records (Some r)); [|apply emits_raise].
      apply emits_bind; [apply emits_lift|]. intros n.
      destruct (n =? 0); [apply emits_raise | apply emits_ret]. }
    destruct (HF (((t ++ [ev1]) ++ evw) ++ [ev2])) as (evs' & He' & HF').
    exists (ev1 :: evw ++ ev2 :: evs'). rewrite He', <- !app_assoc.
    split; [reflexivity|]. right. subst ev1 ev2. cbn.
    rewrite sent_app, (poll_event_sent _ Hw). cbn.
    now rewrite (poll_event_sent _ HF').
  - exists (ev1 :: evw ++ [ev2]). cbn [raise snd]. rewrite <- !app_assoc.
    split; [reflexivity|]. right. subst ev1 ev2. cbn.
    now rewrite sent_app, (poll_event_sent _ Hw).
Qed.

Lemma move_sent bucket key t :
  exists evs,
    snd (move_to_completed env bucket key t) = t ++ evs /\ sent evs = [].
Proof.
  destruct (emits_move_relocation bucket key t) as (evs & He & HF).
  exists evs. split; [exact He | now apply relocation_sent].
Qed.

End Statements.

Section StatementOrder.
Context {pd : Pandas} (env : Env).

(** X8. However a file fares, the statements sent for it are, in this
    order: the existence query, then the CREATE when and only when the check
    did not answer "present" (an existing table is used as it is), then the
    COPY, then the row count; each at most once, and after the existence
    query at least one more. A file that cannot be fetched or parsed sends
    nothing. *)
Theorem statements_per_file (bucket key : string) (t : Trace) :
  exists evs,
    snd (process_file env bucket key t) = t ++ evs
    /\ let table_name := table_name_of key in
       let exist := SqlTableCount table_name in
       let copy := SqlCopy table_name bucket key in
       let count := SqlCountRows table_name in
       match get_object env t bucket key with
       | Raise _ => sent evs = []
       | Ok csv_content =>
           match read_csv env csv_content with
           | Raise _ => sent evs = []
           | Ok df =>
               let create := SqlCreateTable table_name (column_types df) in
               match fst (check_table_exists env table_name
                            (t ++ [EvGetObject bucket key (Ok csv_content)]))
               with
               | Ok true =>
                   sent evs = [exist; copy] \/ sent evs = [exist; copy; count]
               | _ =>
                   sent evs = [exist; create]
                   \/ sent evs = [exist; create; copy]
                   \/ sent evs = [exist; create; copy; count]
               end
           end
       end.
Proof.
  cbv zeta. unfold process_file. unfold bind at 1, s3_get_object.
  destruct (get_object env t bucket key) as [csv_content|e].
  2:{ eexists [_]. split; reflexivity. }
  set (g := EvGetObject bucket key (Ok csv_content)).
  unfold bind at 1, lift at 1.
  destruct (read_csv env csv_content) as [df|e].
  2:{ exists [g]. split; reflexivity. }
  unfold bind at 1.
  destruct (check_sent env (table_name_of key) (t ++ [g])) as (ec & Hc & Hsc).
  destruct (check_table_exists_never_raises env (table_name_of key) (t ++ [g]))
    as (b & Hb).
  destruct (check_table_exists env (table_name_of key) (t ++ [g]))
    as [rc t2]. cbn [fst snd] in Hb, Hc. subst rc t2.
  unfold bind at 1.
  assert (Hcreate :
    exists ek, snd ((if negb b then create_table env (table_name_of key) df
                     else ret tt) ((t ++ [g]) ++ ec))
               = ((t ++ [g]) ++ ec) ++ ek
               /\ sent ek = if b then []
                  else [SqlCreateTable (table_name_of key) (column_types df)]).
  { destruct b; cbn [negb].
    - exists []. now rewrite app_nil_r.
    - apply create_sent. }
  destruct Hcreate as (ek & Hk & Hsk).
  destruct ((if negb b then create_table env (table_name_of key) df
             else ret tt) ((t ++ [g]) ++ ec)) as [[u|e] t3] eqn:Hrun;
    cbn [snd] in Hk; subst t3.
  2:{ exists (g :: ec ++ ek). rewrite <- !app_assoc. split; [reflexivity|].
      subst g. cbn [sent]. rewrite sent_app, Hsc, Hsk.
      destruct b; cbn [negb] in *; [discriminate Hrun | now left]. }
  unfold bind at 1.
  destruct (load_sent env (table_name_of key) bucket key
              (((t ++ [g]) ++ ec) ++ ek)) as (el & Hl & Hsl).
  destruct (load_data_to_redshift env (table_name_of key) bucket key
              (((t ++ [g]) ++ ec) ++ ek)) as [[u'|e] t4];
    cbn [snd] in Hl; subst t4.
  - destruct (move_sent env bucket key ((((t ++ [g]) ++ ec) ++ ek) ++ el))
      as (em & Hm & Hsm).
    exists (g :: ec ++ ek ++ el ++ em). rewrite Hm, <- !app_assoc.
    split; [reflexivity|].
    subst g. cbn [sent]. rewrite !sent_app, Hsc, Hsk, Hsm, app_nil_r.
    destruct b, Hsl as [-> | ->]; cbn; auto.
  - exists (g :: ec ++ ek ++ el). rewrite <- !app_assoc.
    split; [reflexivity|].
    subst g. cbn [sent]. rewrite !sent_app, Hsc, Hsk.
    destruct b, Hsl as [-> | ->]; cbn; auto.
Qed.

End StatementOrder.

(** ** What the existence check and the load rest on *)

Section CheckAndLoad.
Context {pd : Pandas} (env : Env).

(** X9. The existence check answers "present" only when its query went
    through and the count it fetched was positive: the trace then shows the
    query accepted and, as the last event, its rows fetched. Every other
    course (a refused query, a failed or timed-out statement, no rows, a
    count of zero) answers "absent". *)
Theorem check_present_needs_positive_count (table_name : string) (t : Trace) :
  fst (check_table_exists env table_name t) = Ok true ->
  exists response_id pre result n,
    snd (check_table_exists env table_name t)
    = t ++ EvExecute (SqlTableCount table_name) (Ok response_id)
          :: pre ++ [EvGetResult response_id (Fetched result)]
    /\ first_long result = Ok n /\ 0 < n.
Proof.
  unfold check_table_exists, try_except, check_table_query, bind.
  unfold rs_execute_statement.
  destruct (execute_statement env t (SqlTableCount table_name))
    as [response_id|e]; [|discriminate].
  destruct (wait_for_query_completion env response_id true _)
    as [[[result|]|e] t2] eqn:Hw; [|discriminate..].
  apply wait_loop_fetched in Hw as (pre & ->).
  destruct (has_records (Some result)); [|discriminate].
  unfold lift. destruct (first_long result) as [n|e] eqn:Hfl; [|discriminate].
  cbn. intros [= Hn]. apply Z.ltb_lt in Hn.
  exists response_id, pre, result, n.
  split; [now rewrite <- app_assoc | split; [exact Hfl | exact Hn]].
Qed.

Lemma load_after_count table_name bucket key
  t0 copy_id t1 r1 t2 verify_id t3 result t4 :
  rs_execute_statement env (SqlCopy table_name bucket key) t0 = (Ok copy_id, t1) ->
  wait_for_query_completion env copy_id false t1 = (Ok r1, t2) ->
  rs_execute_statement env (SqlCountRows table_name) t2 = (Ok verify_id, t3) ->
  wait_for_query_completion env verify_id true t3 = (Ok result, t4) ->
  load_data_to_redshift env table_name bucket key t0 =
  (match result with
   | Some r =>
       if has_records result then
         match first_long r with
         | Ok row_count =>
             if row_count =? 0
             then Raise ("No data was loaded into " +:+ table_name)
             else Ok tt
         | Raise e => Raise e
         end
       else Raise "Could not verify data load"
   | None => Raise "Could not verify data load"
   end, t4).
Proof.
  intros H1 H2 H3 H4.
  unfold load_data_to_redshift, try_except, bind.
  rewrite H1; cbv beta iota. rewrite H2; cbv beta iota.
  rewrite H3; cbv beta iota. rewrite H4; cbv beta iota.
  destruct result as [r|]; [|reflexivity].
  destruct (has_records (Some r)); [|reflexivity].
  unfold lift. destruct (first_long r) as [n|e]; [|reflexivity].
  destruct (n =? 0); reflexivity.
Qed.

(** X10. After a COPY that finished and a row count that was answered, the
    load succeeds exactly when the first field of the first row is a count
    other than zero: it is the size of the whole table that is looked at,
    not what this COPY added. When the answer has no rows, or could not be
    fetched for want of a result, the load fails with "Could not verify data
    load". *)
Theorem load_verdict_is_the_table_count (table_name bucket key : string)
  t0 copy_id t1 r1 t2 verify_id t3 result t4 :
  rs_execute_statement env (SqlCopy table_name bucket key) t0 = (Ok copy_id, t1) ->
  wait_for_query_completion env copy_id false t1 = (Ok r1, t2) ->
  rs_execute_statement env (SqlCountRows table_name) t2 = (Ok verify_id, t3) ->
  wait_for_query_completion env verify_id true t3 = (Ok result, t4) ->
  snd (load_data_to_redshift env table_name bucket key t0) = t4
  /\ (fst (load_data_to_redshift env table_name bucket key t0) = Ok tt <->
      exists r n, result = Some r /\ first_long r = Ok n /\ n <> 0)
  /\ (result = None \/ (exists r, result = Some r /\ Records r = []) ->
      fst (load_data_to_redshift env table_name bucket key t0)
      = Raise "Could not verify data load").
Proof.
  intros H1 H2 H3 H4.
  rewrite (load_after_count _ _ _ _ _ _ _ _ _ _ _ _ H1 H2 H3 H4). cbn [fst snd].
  split; [reflexivity|]. split; [split|].
  - destruct result as [r|]; [|discriminate].
    destruct (has_records (Some r)); [|discriminate].
    destruct (first_long r) as [n|e] eqn:Hn; [|discriminate].
    destruct (Z.eqb_spec n 0); [discriminate|]. intros _. exists r, n. auto.
  - intros (r & n & -> & Hn & Hz).
    rewrite (first_long_has_records _ _ Hn), Hn.
    destruct (Z.eqb_spec n 0); [contradiction | reflexivity].
  - intros [->|(r & -> & Hr)]; [reflexivity|].
    unfold has_records. now rewrite Hr.
Qed.

(** X11. When the first status the COPY statement shows is FAILED or
    ABORTED, the load fails at once with the store's own error text (or "No
    error message provided" when there is none): one poll, no sleep, and the
    row count is never asked for. *)
Theorem failed_copy_reports_store_error (table_name bucket key : string)
  t0 copy_id t1 (st : StatementStatus) :
  rs_execute_statement env (SqlCopy table_name bucket key) t0 = (Ok copy_id, t1) ->
  describe_statement env t1 copy_id = Ok st ->
  Status st = "FAILED" \/ Status st = "ABORTED" ->
  load_data_to_redshift env table_name bucket key t0 =
  (Raise ("Query failed with status " +:+ Status st +:+ ": "
          +:+ default "No error message provided" (Error st)),
   t1 ++ [EvDescribe copy_id (Ok st)]).
Proof.
  intros H1 Hd Hst.
  unfold load_data_to_redshift, try_except, bind at 1.
  rewrite H1; cbv beta iota.
  unfold bind at 1, wait_for_query_completion, max_retries.
  cbn [wait_loop]. unfold bind at 1, rs_describe_statement. rewrite Hd.
  destruct Hst as [Hst|Hst]; rewrite Hst; reflexivity.
Qed.

End CheckAndLoad.

Lemma check_present_needs_positive_count_witness :
  exists response_id pre result n,
    snd (check_table_exists Scenario.steady "sales" [])
    = [] ++ EvExecute (SqlTableCount "sales") (Ok response_id)
           :: pre ++ [EvGetResult response_id (Fetched result)]
    /\ first_long result = Ok n /\ 0 < n.
Proof.
  apply (check_present_needs_positive_count Scenario.steady "sales" []).
  reflexivity.
Defined.

Lemma load_verdict_is_the_table_count_witness :
  fst (load_data_to_redshift Cases.no_result "sales" "uploads"
         "processed/sales.csv" [])
  = Raise "Could not verify data load".
Proof.
  refine (proj2 (proj2
    (load_verdict_is_the_table_count Cases.no_result "sales" "uploads"
       "processed/sales.csv" [] _ _ _ _ _ _ None _
       eq_refl eq_refl eq_refl eq_refl)) _).
  now left.
Defined.

Lemma failed_copy_reports_store_error_witness :
  load_data_to_redshift Cases.rejected "sales" "uploads" "processed/sales.csv" []
  = (Raise "Query failed with status FAILED: Load into table 'sales' failed",
     [EvExecute (SqlCopy "sales" "uploads" "processed/sales.csv") (Ok "stmt-1");
      EvDescribe "stmt-1" (Ok Cases.rejected_status)]).
Proof.
  refine (failed_copy_reports_store_error Cases.rejected "sales" "uploads"
            "processed/sales.csv" [] "stmt-1" _ Cases.rejected_status
            eq_refl eq_refl _).
  now left.
Defined.

(** ** Where a file is moved to *)

Lemma replace_without_occurrence (old new s : string) :
  occurs old s = false -> PyStr.replace_from old new 0 s = s.
Proof.
  induction s as [|c r IH]; [reflexivity|].
  cbn [occurs PyStr.replace_from]. intros H.
  apply orb_false_iff in H as [Hp Ho]. rewrite Hp. now rewrite IH.
Qed.

Lemma prefix_of_append (old s : string) : String.prefix old (old +:+ s) = true.
Proof.
  induction old as [|c r IH]; [now destruct s|].
  change (String c r +:+ s) with (String c (r +:+ s)). cbn [String.prefix].
  destruct (ascii_dec c c); [exact IH | contradiction].
Qed.

Lemma replace_skips (old new pre s : string) :
  PyStr.replace_from old new (String.length pre) (pre +:+ s)
  = PyStr.replace_from old new 0 s.
Proof. induction pre as [|c r IH]; [reflexivity | exact IH]. Qed.

Lemma replace_at_occurrence (old new s : string) :
  old <> "" ->
  PyStr.replace_from old new 0 (old +:+ s)
  = new +:+ PyStr.replace_from old new 0 s.
Proof.
  destruct old as [|c r]; [contradiction|]. intros _.
  change (String c r +:+ s) with (String c (r +:+ s)).
  cbn [PyStr.replace_from].
  change (String c (r +:+ s)) with (String c r +:+ s).
  rewrite prefix_of_append.
  replace (String.length (String c r) - 1)%nat with (String.length r)
    by (cbn [String.length]; lia).
  now rewrite replace_skips.
Qed.

(** X12. A key under [processed/] is moved to the key that starts with
    [completed/] instead, every further [processed/] in it being renamed as
    well, so the copy never lands on the source; a key in which
    [processed/] does not occur is its own completed key, so moving it
    would copy the object onto itself and then delete it. *)
Theorem completed_key_of_processed :
  (forall rest : string,
     completed_key_of ("processed/" +:+ rest)
     = "completed/" +:+ completed_key_of rest
     /\ completed_key_of ("processed/" +:+ rest) <> "processed/" +:+ rest)
  /\ (forall key : string,
        occurs "processed/" key = false -> completed_key_of key = key).
Proof.
  split.
  - intros rest.
    assert (H : completed_key_of ("processed/" +:+ rest)
                = "completed/" +:+ completed_key_of rest)
      by (apply replace_at_occurrence; discriminate).
    split; [exact H|]. rewrite H. discriminate.
  - intros key. apply replace_without_occurrence.
Qed.

Lemma completed_key_of_processed_witness :
  completed_key_of "raw/notes.csv" = "raw/notes.csv".
Proof.
  apply (proj2 completed_key_of_processed "raw/notes.csv"). reflexivity.
Defined.

Example completed_key_examples :
  completed_key_of "processed/2024/sales.csv" = "completed/2024/sales.csv"
  /\ completed_key_of "processed/processed/a.csv" = "completed/completed/a.csv".
Proof. split; reflexivity. Qed.

(** ** A load that cannot be moved *)

Section Unmoved.
Context {pd : Pandas} (env : Env).

(** X13. When a file's load has been verified but its move fails, on the
    copy or on the delete, the file is reported as failed with the error of
    the move although its rows are in the table: the trace of the load shows
    the row count that passed, and nothing follows the failed call. After a
    failed copy no delete is attempted; after a failed delete the object is
    in both places. *)
Theorem move_failure_after_verified_load
  (bucket key : string) (st : Progress) (rest : list string)
  csv_content ta df table_exists tb t0 t4 e t5 :
  s3_get_object env bucket key (history st) = (Ok csv_content, ta) ->
  read_csv env csv_content = Ok df ->
  check_table_exists env (table_name_of key) ta = (Ok table_exists, tb) ->
  (if negb table_exists then create_table env (table_name_of key) df
   else ret tt) tb = (Ok tt, t0) ->
  load_data_to_redshift env (table_name_of key) bucket key t0 = (Ok tt, t4) ->
  move_to_completed env bucket key t4 = (Raise e, t5) ->
  file_step env bucket st key
  = {| processed_files := processed_files st;
       failed_files := failed_files st ++ [(key, e)];
       history := t5 |}
  /\ In (key, e) (failed_files (process_files env bucket (key :: rest) st))
  /\ (exists evs, t4 = t0 ++ evs /\ verified_in (table_name_of key) evs)
  /\ (t5 = t4 ++ [EvCopyObject bucket key (completed_key_of key) (Raise e)]
      \/ t5 = t4 ++ [EvCopyObject bucket key (completed_key_of key) (Ok tt);
                     EvDeleteObject bucket key (Raise e)]).
Proof.
  intros Hget Hcsv Hcheck Hcreate Hload Hmove.
  assert (Hstep : file_step env bucket st key
                  = {| processed_files := processed_files st;
                       failed_files := failed_files st ++ [(key, e)];
                       history := t5 |}).
  { unfold file_step, process_file, bind. rewrite Hget; cbv beta iota.
    unfold lift. rewrite Hcsv; cbv beta iota.
    rewrite Hcheck; cbv beta iota. rewrite Hcreate; cbv beta iota.
    rewrite Hload; cbv beta iota. rewrite Hmove. reflexivity. }
  split; [exact Hstep|]. split; [|split].
  - change (process_files env bucket (key :: rest) st)
      with (process_files env bucket rest (file_step env bucket st key)).
    apply (proj1 (process_files_keeps env bucket rest _)).
    rewrite Hstep. cbn. apply in_or_app. right. now left.
  - apply load_ok_verified in Hload as (evs & -> & _ & Hv). eauto.
  - revert Hmove.
    unfold move_to_completed, try_except, bind, s3_copy_object, s3_delete_object.
    destruct (copy_object env t4 bucket key (completed_key_of key)) as [[]|e1].
    + destruct (delete_object env _ bucket key) as [[]|e2]; [discriminate|].
      intros [= <- <-]. right. now rewrite <- app_assoc.
    + intros [= <- <-]. now left.
Qed.

End Unmoved.

Lemma move_failure_after_verified_load_witness :
  file_step Cases.undeletable "uploads"
    {| processed_files := []; failed_files := []; history := [] |}
    "processed/sales.csv"
  = {| processed_files := [];
       failed_files := [("processed/sales.csv", "AccessDenied")];
       history :=
         [EvGetObject "uploads" "processed/sales.csv" (Ok "id,Total $");
          EvExecute (SqlTableCount "sales") (Ok "stmt-1");
          EvDescribe "stmt-1" (Ok Scenario.finished);
          EvGetResult "stmt-1" (Fetched (Scenario.one_row 200));
          EvExecute (SqlCopy "sales" "uploads" "processed/sales.csv")
            (Ok "stmt-1");
          EvDescribe "stmt-1" (Ok Scenario.finished);
          EvExecute (SqlCountRows "sales") (Ok "stmt-1");
          EvDescribe "stmt-1" (Ok Scenario.finished);
          EvGetResult "stmt-1" (Fetched (Scenario.one_row 200));
          EvCopyObject "uploads" "processed/sales.csv" "completed/sales.csv"
            (Ok tt);
          EvDeleteObject "uploads" "processed/sales.csv"
            (Raise "AccessDenied")] |}.
Proof.
  refine (proj1
    (move_failure_after_verified_load Cases.undeletable "uploads"
       "processed/sales.csv"
       {| processed_files := []; failed_files := []; history := [] |} []
       _ _ _ _ _ _ _ _ _
       eq_refl eq_refl eq_refl eq_refl eq_refl eq_refl)).
Defined.

(** ** What the batch is made of *)

Section Batch.
Context {pd : Pandas} (env : Env).

Lemma list_processed_files_csv i bucket key :
  In key (list_processed_files env i bucket) -> listed_csv env bucket key.
Proof.
  unfold list_processed_files.
  destruct (list_objects_v2 env i bucket) as [keys|e] eqn:Hl; [|intros []].
  intros [Hin Hcsv]%filter_In. split; [exact Hcsv|]. eauto.
Qed.

Lemma watch_loop_csv bucket max_wait_time fuel i st files :
  (forall key, key ∈ previous_files st -> listed_csv env bucket key) ->
  watch_loop env bucket max_wait_time fuel i st = Some files ->
  forall key, In key files -> listed_csv env bucket key.
Proof.
  revert i st. induction fuel as [|fuel IH]; intros i st Hprev; cbn [watch_loop];
    [discriminate|].
  assert (Hseen : forall key,
             key ∈ (list_to_set (list_processed_files env i bucket) : gset string) ->
             listed_csv env bucket key).
  { intros key Hin. apply elem_of_list_to_set, list_elem_of_In in Hin.
    now apply list_processed_files_csv in Hin. }
  destruct (elapsed env i <? max_wait_time).
  - unfold watch_poll. case_decide as Heq.
    + destruct (12 <=? stable_count st + 1).
      * intros [= <-] key Hin.
        apply list_elem_of_In, elem_of_elements in Hin. auto.
      * apply IH. exact Hprev.
    + apply IH. exact Hseen.
  - intros [= <-] key Hin. apply list_elem_of_In, elem_of_elements in Hin. auto.
Qed.

(** X14. Every key of the batch the watcher returns, on quiescence or on
    time-out, has the CSV extension (in any case) and was reported by one of
    the listings; so whatever the handler puts in its success or failure list
    is such a key. *)
Theorem batch_holds_listed_csv_keys (bucket : string) :
  (forall max_wait_time fuel files,
     wait_for_file_processing env bucket max_wait_time fuel = Some files ->
     forall key, In key files -> listed_csv env bucket key)
  /\ (forall record rest fuel processed failed t,
        bucket_name record = bucket ->
        lambda_handler env (record :: rest) fuel
        = Some (Response200 processed failed, t) ->
        forall key, In key (processed ++ map fst failed) ->
                    listed_csv env bucket key).
Proof.
  assert (Hw : forall max_wait_time fuel files,
             wait_for_file_processing env bucket max_wait_time fuel = Some files ->
             forall key, In key files -> listed_csv env bucket key).
  { intros max_wait_time fuel files H. eapply watch_loop_csv; [|exact H].
    intros key Hin. cbn in Hin. now apply not_elem_of_empty in Hin. }
  split; [exact Hw|].
  intros record rest fuel processed failed t <-.
  unfold lambda_handler.
  destruct (wait_for_file_processing env (bucket_name record) 300 fuel)
    as [batch|] eqn:Hb; [|discriminate].
  intros [= <- <- _] key Hin.
  apply (Hw _ _ _ Hb).
  destruct (process_files_log env (bucket_name record) batch
              {| processed_files := []; failed_files := []; history := [] |})
    as [Hp Hf].
  rewrite Hp, Hf in Hin. cbn in Hin.
  pose proof (successes_failures_perm
                (outcomes env (bucket_name record) batch [])) as Hperm.
  rewrite outcomes_keys in Hperm.
  apply list_elem_of_In. rewrite <- Hperm. now apply list_elem_of_In.
Qed.

End Batch.

Lemma batch_holds_listed_csv_keys_witness :
  listed_csv Scenario.three_files "uploads" "processed/bad.csv".
Proof.
  refine (proj2 (batch_holds_listed_csv_keys Scenario.three_files "uploads")
            {| bucket_name := "uploads"; object_key := "processed/sales.csv" |}
            [] 61%nat ["processed/sales.csv"]
            [("processed/empty.csv", "No data was loaded into empty");
             ("processed/bad.csv", "Error tokenizing data")]
            (snd (default (Response500 "", [])
                    (lambda_handler Scenario.three_files Scenario.sales_event 61)))
            eq_refl _ "processed/bad.csv" _).
  - vm_compute. reflexivity.
  - cbn. auto.
Defined.

(** ** A bucket that shows nothing *)

Section Nothing.
Context {pd : Pandas} (env : Env).

Lemma shows_no_csv_empty i bucket :
  shows_no_csv (list_objects_v2 env i bucket) ->
  list_processed_files env i bucket = [].
Proof.
  unfold shows_no_csv, list_processed_files.
  destruct (list_objects_v2 env i bucket) as [keys|e]; [|reflexivity].
  induction 1 as [|k keys Hk _ IH]; [reflexivity|]. cbn. now rewrite Hk.
Qed.

(** X15. When each of the first twelve listings fails or shows no CSV key,
    and the clock is below its limit, the run ends after those twelve
    listings with the answer 200, no file processed, none failed, and no call
    made to the store: a bucket that cannot be listed looks like an empty
    one. *)
Theorem unlistable_bucket_is_an_empty_run
  (record : S3Record) (rest : list S3Record) (fuel : nat) :
  (forall i, (i < 12)%nat -> elapsed env i < 300) ->
  (forall i, (i < 12)%nat ->
             shows_no_csv (list_objects_v2 env i (bucket_name record))) ->
  (12 <= fuel)%nat ->
  lambda_handler env (record :: rest) fuel = Some (Response200 [] [], []).
Proof.
  intros Htime Hnone Hfuel.
  set (bucket := bucket_name record).
  assert (Hseen : forall i, (i < 12)%nat -> Watch.seen env bucket i = ∅).
  { intros i Hi. unfold Watch.seen.
    now rewrite (shows_no_csv_empty i bucket (Hnone i Hi)). }
  assert (Hq : Watch.quiescent env bucket 11).
  { split; [lia|]. intros j Hj. unfold Watch.unchanged.
    rewrite Hseen by lia. destruct j as [|j]; [reflexivity|].
    cbn. now rewrite Hseen by lia. }
  unfold lambda_handler, wait_for_file_processing. fold bucket.
  replace fuel with (11 + S (fuel - 12))%nat by lia.
  rewrite (loop_from_start env bucket 300 11 (S (fuel - 12)));
    [|intros i Hi; apply Htime; lia
     |intros m Hm [Hge _]; lia].
  cbn [watch_loop].
  destruct (Z.ltb_spec (elapsed env 11) 300) as [_|Hge];
    [|specialize (Htime 11%nat ltac:(lia)); lia].
  fold (Watch.seen env bucket 11).
  rewrite (poll_quiescent env bucket 11 Hq), Hseen by lia.
  rewrite elements_empty. reflexivity.
Qed.

End Nothing.

Lemma unlistable_bucket_is_an_empty_run_witness :
  lambda_handler
    {| get_object := get_object Scenario.steady;
       read_csv := read_csv Scenario.steady;
       execute_statement := execute_statement Scenario.steady;
       describe_statement := describe_statement Scenario.steady;
       get_statement_result := get_statement_result Scenario.steady;
       copy_object := copy_object Scenario.steady;
       delete_object := delete_object Scenario.steady;
       list_objects_v2 _ _ := Raise "SlowDown";
       elapsed := elapsed Scenario.steady |}
    Scenario.sales_event 61
  = Some (Response200 [] [], []).
Proof.
  apply unlistable_bucket_is_an_empty_run.
  - intros i Hi. cbn. lia.
  - intros i Hi. exact I.
  - lia.
Defined.

(** ** The report follows the batch *)

Lemma successes_sublist (log : list (string * Exc unit)) :
  sublist (successes log) (map fst log).
Proof.
  induction log as [|[key [u|e]] rest IH]; cbn;
    [constructor | now constructor | now constructor].
Qed.

Lemma failures_sublist (log : list (string * Exc unit)) :
  sublist (map fst (failures log)) (map fst log).
Proof.
  induction log as [|[key [u|e]] rest IH]; cbn;
    [constructor | now constructor | now constructor].
Qed.

Lemma successes_failures_length (log : list (string * Exc unit)) :
  (length (successes log) + length (failures log) = length log)%nat.
Proof. induction log as [|[key [u|e]] rest IH]; cbn; lia. Qed.

(** X16. In a 200 answer the number of processed files and the number of
    failures add up to the size of the batch, and each of the two lists
    names its files in the order in which the batch was gone through. *)
Theorem report_follows_the_batch {pd : Pandas} (env : Env)
  (record : S3Record) (rest : list S3Record) (fuel : nat)
  (processed : list string) (failed : list (string * string)) (t : Trace) :
  lambda_handler env (record :: rest) fuel
  = Some (Response200 processed failed, t) ->
  exists batch,
    wait_for_file_processing env (bucket_name record) 300 fuel = Some batch
    /\ (length processed + length failed = length batch)%nat
    /\ sublist processed batch
    /\ sublist (map fst failed) batch.
Proof.
  unfold lambda_handler.
  destruct (wait_for_file_processing env (bucket_name record) 300 fuel)
    as [batch|]; [|discriminate].
  intros [= <- <- _]. exists batch. split; [reflexivity|].
  destruct (process_files_log env (bucket_name record) batch
              {| processed_files := []; failed_files := []; history := [] |})
    as [-> ->].
  cbn [processed_files failed_files history app].
  set (log := outcomes env (bucket_name record) batch []).
  pose proof (outcomes_keys env (bucket_name record) batch []) as Hk.
  fold log in Hk.
  pose proof (successes_failures_length log) as Hlen.
  pose proof (successes_sublist log) as Hs.
  pose proof (failures_sublist log) as Hf.
  rewrite Hk in Hs, Hf.
  rewrite <- Hk at 1. rewrite length_map. auto.
Qed.

Lemma report_follows_the_batch_witness :
  exists batch,
    wait_for_file_processing Scenario.three_files "uploads" 300 61 = Some batch
    /\ (1 + 2 = length batch)%nat.
Proof.
  destruct (report_follows_the_batch Scenario.three_files
              {| bucket_name := "uploads"; object_key := "processed/sales.csv" |}
              [] 61 ["processed/sales.csv"]
              [("processed/empty.csv", "No data was loaded into empty");
               ("processed/bad.csv", "Error tokenizing data")]
              (snd (default (Response500 "", [])
                      (lambda_handler Scenario.three_files
                         Scenario.sales_event 61))))
    as (batch & Hb & Hlen & _); [vm_compute; reflexivity|].
  exists batch. split; [exact Hb | exact Hlen].
Defined.

(** ** How long a file can keep the run asleep *)

Lemma slept_app (a b : list Event) : slept (a ++ b) = slept a + slept b.
Proof.
  induction a as [|e a IH]; [reflexivity|].
  destruct e; cbn; rewrite IH; lia.
Qed.

Section SleepBudget.
Context {pd : Pandas} (env : Env).

Lemma sleeps_weaken {A} (ok err ok' err' : Z) (m : M A) :
  ok <= ok' -> err <= err' ->
  sleeps_at_most ok err m -> sleeps_at_most ok' err' m.
Proof.
  intros Ho He Hm t. destruct (Hm t) as (evs & Ht & H0 & Hs).
  exists evs. split; [exact Ht|]. split; [exact H0|].
  destruct (is_ok (fst (m t))); lia.
Qed.

Lemma sleeps_ret {A} (a : A) : sleeps_at_most 0 0 (ret a).
Proof. intros t. exists []. cbn. rewrite app_nil_r. repeat split; lia. Qed.

Lemma sleeps_raise {A} e : sleeps_at_most 0 0 (@raise A e).
Proof. intros t. exists []. cbn. rewrite app_nil_r. repeat split; lia. Qed.

Lemma sleeps_lift {A} (r : Exc A) : sleeps_at_most 0 0 (lift r).
Proof.
  intros t. exists []. cbn. rewrite app_nil_r. repeat split; try lia.
  destruct (is_ok r); lia.
Qed.

Lemma sleeps_call {A} (r : Trace -> Exc A) (ev : Trace -> Event) :
  (forall t, slept [ev t] = 0) ->
  sleeps_at_most 0 0 (fun t => (r t, t ++ [ev t])).
Proof.
  intros H t. exists [ev t]. cbn [fst snd]. rewrite H.
  repeat split; try lia. destruct (is_ok (r t)); lia.
Qed.

Lemma sleeps_bind {A B} (o1 e1 o2 e2 : Z) (m : M A) (k : A -> M B) :
  sleeps_at_most o1 e1 m -> (forall a, sleeps_at_most o2 e2 (k a)) ->
  sleeps_at_most (o1 + o2) (Z.max e1 (o1 + e2)) (bind m k).
Proof.
  intros Hm Hk t. unfold bind.
  destruct (Hm t) as (evs & Ht & H0 & Hs).
  destruct (m t) as [[a|e] t1]; cbn [fst snd is_ok] in *; subst t1.
  - destruct (Hk a (t ++ evs)) as (evs' & Ht' & H0' & Hs').
    exists (evs ++ evs'). rewrite Ht', app_assoc, slept_app.
    split; [reflexivity|]. split; [lia|].
    destruct (is_ok (fst (k a (t ++ evs)))); lia.
  - exists evs. repeat split; auto; lia.
Qed.

(** [except Exception as e: ...; raise]. *)
Lemma sleeps_reraise {A} (ok err : Z) (m : M A) :
  sleeps_at_most ok err m ->
  sleeps_at_most ok err (try_except m (fun e => raise e)).
Proof.
  intros Hm t. unfold try_except.
  destruct (Hm t) as (evs & Ht & H0 & Hs).
  destruct (m t) as [[a|e] t1]; cbn [fst snd is_ok raise] in *; subst t1;
    exists evs; auto.
Qed.

(** [except Exception: return v]. *)
Lemma sleeps_default {A} (ok err : Z) (m : M A) (v : A) :
  sleeps_at_most ok err m ->
  sleeps_at_most (Z.max ok err) (Z.max ok err)
    (try_except m (fun _ => ret v)).
Proof.
  intros Hm t. unfold try_except.
  destruct (Hm t) as (evs & Ht & H0 & Hs).
  destruct (m t) as [[a|e] t1]; cbn [fst snd is_ok ret] in *; subst t1;
    exists evs; repeat split; auto; lia.
Qed.

Lemma sleeps_wait statement_id expect_results :
  sleeps_at_most 295 300
    (wait_for_query_completion env statement_id expect_results).
Proof.
  intros t. unfold wait_for_query_completion, max_retries.
  destruct (wait_loop_budget env 60 statement_id expect_results t)
    as (evs & He & _ & Hp & Hs).
  exists evs. split; [exact He|].
  destruct Hs as [[H1 Hs]|(_ & Hs & Hr)].
  - split; [lia|]. destruct (is_ok _); lia.
  - rewrite Hr. cbn. lia.
Qed.

Lemma sleeps_execute sql : sleeps_at_most 0 0 (rs_execute_statement env sql).
Proof.
  apply (sleeps_call (fun t => execute_statement env t sql)). reflexivity.
Qed.

Lemma sleeps_check_query table_name :
  sleeps_at_most 295 300 (check_table_query env table_name).
Proof.
  unfold check_table_query.
  eapply sleeps_weaken; [| |apply (sleeps_bind 0 0 295 300)];
    [lia | lia | apply sleeps_execute | intros response_id].
  eapply sleeps_weaken; [| |apply (sleeps_bind 295 300 0 0)];
    [lia | lia | apply sleeps_wait | intros [r|]]; [|apply sleeps_ret].
  destruct (has_records (Some r)); [|apply sleeps_ret].
  eapply sleeps_weaken; [| |apply (sleeps_bind 0 0 0 0)];
    [lia | lia | apply sleeps_lift | intros; apply sleeps_ret].
Qed.

Lemma sleeps_check table_name :
  sleeps_at_most 300 300 (check_table_exists env table_name).
Proof.
  eapply sleeps_weaken;
    [| |apply sleeps_default, sleeps_check_query]; lia.
Qed.

End SleepBudget.

(** Bounds [bind m k] from a bound [o1], [e1] for [m] and a bound [o2],
    [e2] for [k]. *)
Ltac bound_bind o1 e1 o2 e2 :=
  eapply sleeps_weaken; [| |apply (sleeps_bind o1 e1 o2 e2)]; [lia | lia | |].

Section FileBudget.
Context {pd : Pandas} (env : Env).

Lemma sleeps_create table_name df :
  sleeps_at_most 295 300 (create_table env table_name df).
Proof.
  apply sleeps_reraise.
  bound_bind 0 0 295 300; [apply sleeps_execute | intros response_id].
  bound_bind 295 300 0 0; [apply sleeps_wait | intros; apply sleeps_ret].
Qed.

Lemma sleeps_load table_name bucket key :
  sleeps_at_most 590 595 (load_data_to_redshift env table_name bucket key).
Proof.
  apply sleeps_reraise.
  bound_bind 0 0 590 595; [apply sleeps_execute | intros copy_id].
  bound_bind 295 300 295 300; [apply sleeps_wait | intros _].
  bound_bind 0 0 295 300; [apply sleeps_execute | intros verify_id].
  bound_bind 295 300 0 0; [apply sleeps_wait | intros [r|]];
    [|apply sleeps_raise].
  destruct (has_records (Some r)); [|apply sleeps_raise].
  bound_bind 0 0 0 0; [apply sleeps_lift | intros n].
  destruct (n =? 0); [apply sleeps_raise | apply sleeps_ret].
Qed.

Lemma sleeps_move bucket key :
  sleeps_at_most 0 0 (move_to_completed env bucket key).
Proof.
  apply sleeps_reraise.
  bound_bind 0 0 0 0.
  - apply (sleeps_call (fun t => copy_object env t bucket key _)). reflexivity.
  - intros _. bound_bind 0 0 0 0; [|intros; apply sleeps_ret].
    apply (sleeps_call (fun t => delete_object env t bucket key)). reflexivity.
Qed.

(** X17. The sleeps of one file add up to at most 1185 seconds when the
    file goes through and at most 1190 seconds when it fails: up to 300 for
    the existence check, whose time-out is forgiven, and up to 295, or 300
    for the one that gives up, for each of the waits that follow. *)
Theorem file_sleep_budget (bucket key : string) (t : Trace) :
  exists evs,
    snd (process_file env bucket key t) = t ++ evs
    /\ 0 <= slept evs
    /\ slept evs
       <= (if is_ok (fst (process_file env bucket key t)) then 1185 else 1190).
Proof.
  revert t. change (sleeps_at_most 1185 1190 (process_file env bucket key)).
  unfold process_file.
  bound_bind 0 0 1185 1190.
  { apply (sleeps_call (fun t => get_object env t bucket key)). reflexivity. }
  intros csv_content.
  bound_bind 0 0 1185 1190; [apply sleeps_lift | intros df].
  bound_bind 300 300 885 890; [apply sleeps_check | intros table_exists].
  bound_bind 295 300 590 595.
  { destruct table_exists; cbn [negb]; [|apply sleeps_create].
    eapply sleeps_weaken; [| |apply sleeps_ret]; lia. }
  intros _.
  bound_bind 590 595 0 0; [apply sleeps_load | intros; apply sleeps_move].
Qed.

End FileBudget.

(** The bound on a failing file is reached. *)
Example slowest_file_sleeps_1190 :
  let r := process_file Cases.slowest "uploads" "processed/sales.csv" [] in
  fst r = Raise "Query timed out waiting for completion"
  /\ slept (snd r) = 1190
  /\ sent (snd r)
     = [SqlTableCount "sales";
        SqlCreateTable "sales" [("id", BIGINT); ("total__", DECIMAL_18_2)];
        SqlCopy "sales" "uploads" "processed/sales.csv";
        SqlCountRows "sales"].
Proof. vm_compute. repeat split; reflexivity. Qed.

(** ** The table a key loads into *)

Lemma append_cons (c : ascii) (r s : string) :
  String c r +:+ s = String c (r +:+ s).
Proof. reflexivity. Qed.

Lemma contains_append (c : ascii) (a b : string) :
  PyStr.contains c (a +:+ b) = (PyStr.contains c a || PyStr.contains c b)%bool.
Proof.
  induction a as [|d r IH]; [reflexivity|].
  rewrite append_cons. cbn [PyStr.contains]. rewrite IH. apply orb_assoc.
Qed.

Lemma basename_after_slash (dir name : string) :
  PyStr.contains "/" name = false ->
  PyStr.basename (dir +:+ "/" +:+ name) = name.
Proof.
  intros Hname. induction dir as [|c r IH].
  - change ("" +:+ "/" +:+ name) with (String "/" name).
    cbn [PyStr.basename]. now rewrite Hname.
  - rewrite append_cons. cbn [PyStr.basename].
    rewrite contains_append.
    change (PyStr.contains "/" ("/" +:+ name)) with true.
    rewrite orb_true_r. exact IH.
Qed.

Lemma cut_last_dot_none (s : string) :
  PyStr.contains "." s = false -> PyStr.cut_last_dot s = None.
Proof.
  induction s as [|c r IH]; [reflexivity|].
  cbn [PyStr.contains PyStr.cut_last_dot].
  intros [Hc Hr]%orb_false_iff. rewrite (IH Hr).
  rewrite Ascii.eqb_sym. now rewrite Hc.
Qed.

Lemma cut_last_dot_extension (stem ext : string) :
  PyStr.contains "." ext = false ->
  PyStr.cut_last_dot (stem +:+ "." +:+ ext) = Some stem.
Proof.
  intros Hext. induction stem as [|c r IH].
  - change ("" +:+ "." +:+ ext) with (String "." ext).
    cbn [PyStr.cut_last_dot]. now rewrite (cut_last_dot_none _ Hext).
  - rewrite append_cons. cbn [PyStr.cut_last_dot]. now rewrite IH.
Qed.

Lemma all_dots_false (s : string) :
  s <> "" -> PyStr.contains "." s = false -> PyStr.all_dots s = false.
Proof.
  destruct s as [|c r]; [contradiction|]. intros _.
  cbn [PyStr.contains PyStr.all_dots].
  intros [Hc _]%orb_false_iff. rewrite Ascii.eqb_sym, Hc. reflexivity.
Qed.

(** X18. The table a file loads into is named after the file alone: for
    a key made of any folder, a stem without slash or dot, and an extension
    without slash or dot, it is the sanitised stem. Files of the same stem in
    different folders, or with different extensions, load into the same
    table. *)
Theorem table_name_is_the_sanitised_stem (dir stem ext : string) :
  stem <> "" ->
  PyStr.contains "/" stem = false -> PyStr.contains "." stem = false ->
  PyStr.contains "/" ext = false -> PyStr.contains "." ext = false ->
  table_name_of (dir +:+ "/" +:+ stem +:+ "." +:+ ext)
  = clean_column_name stem.
Proof.
  intros Hne Hs1 Hs2 He1 He2. unfold table_name_of.
  rewrite basename_after_slash.
  - unfold PyStr.splitext_root. rewrite cut_last_dot_extension by exact He2.
    now rewrite all_dots_false.
  - rewrite !contains_append, Hs1, He1. reflexivity.
Qed.

Lemma table_name_is_the_sanitised_stem_witness :
  table_name_of "processed/2024/Q1 Sales.CSV" = "q1_sales".
Proof.
  apply (table_name_is_the_sanitised_stem "processed/2024" "Q1 Sales" "CSV");
    [discriminate | reflexivity..].
Defined.

(** ** A listing that fails at the wrong moment *)

(** X19. The watcher has not yet seen twelve unchanged listings, its last
    listing before the time limit fails or shows no CSV key, and the next
    test of the clock finds the limit reached: then the batch is empty,
    whatever the earlier listings showed, because the failed listing is what
    the watcher remembers. *)
Theorem failed_last_listing_empties_the_batch
  (env : Env) (bucket : string) (max_wait_time : Z) (n : nat) :
  (forall i, (i <= n)%nat -> elapsed env i < max_wait_time) ->
  max_wait_time <= elapsed env (S n) ->
  (forall m, (m <= n)%nat -> ~ Watch.quiescent env bucket m) ->
  shows_no_csv (list_objects_v2 env n bucket) ->
  Watch.returns_at env bucket max_wait_time (S n) [].
Proof.
  intros Htime Hlimit Hq Hnone. unfold Watch.returns_at.
  assert (Hrem : Watch.remembered env bucket (S n) = ∅).
  { cbn. unfold Watch.seen. now rewrite shows_no_csv_empty. }
  split.
  - rewrite <- (Nat.add_0_r (S n)) at 1.
    rewrite loop_from_start;
      [reflexivity | intros i Hi; apply Htime; lia | intros m Hm; apply Hq; lia].
  - replace (S (S n)) with (S n + 1)%nat by lia.
    rewrite loop_from_start;
      [|intros i Hi; apply Htime; lia | intros m Hm; apply Hq; lia].
    cbn [watch_loop].
    destruct (Z.ltb_spec (elapsed env (S n)) max_wait_time); [lia|].
    cbn [previous_files Watch.watch_state_at]. rewrite Hrem.
    now rewrite elements_empty.
Qed.

Lemma failed_last_listing_empties_the_batch_witness :
  Watch.returns_at Cases.flaky_listing "uploads" 300 3 [].
Proof.
  apply (failed_last_listing_empties_the_batch Cases.flaky_listing
           "uploads" 300 2).
  - intros i Hi. cbn. lia.
  - cbn. lia.
  - intros m Hm [Hge _]. lia.
  - exact I.
Defined.

Example flaky_listing_run :
  lambda_handler Cases.flaky_listing Scenario.sales_event 10
  = Some (Response200 [] [], []).
Proof. vm_compute. reflexivity. Qed.
